(** * CourseWeave data pipeline: a shallow embedding and its properties

    The pipeline cleans two tables (courses and prerequisite edges), validates
    them, audits the loaded database for anomalies and computes a bias report.
    Each Python function is embedded below under its own name; SQL queries are
    embedded as the list comprehensions they denote. *)

From Stdlib Require Import List String Ascii Bool Arith ZArith QArith Qabs.
From Stdlib Require Import Qpower.
From Stdlib Require Import Lia Lqa.
Import ListNotations.
Close Scope Q_scope.
Open Scope string_scope.
Open Scope list_scope.

(* ================================================================== *)
(** * Part I. Definitions                                              *)
(* ================================================================== *)

(** ** detect_anomalies.py: the tables the queries read *)

Module Db.

(** A row of [prerequisites]. *)
Record prerequisite := mk_prerequisite {
  course_code : string;
  required_course_code : string
}.

(** A row of [students]. *)
Record student := mk_student {
  id : Z;
  email : string
}.

(** A row of [student_courses]. *)
Record student_course := mk_student_course {
  student_id : Z;
  sc_course_code : string
}.

Definition prerequisite_eq_dec (p q : prerequisite) : {p = q} + {p <> q}.
Proof. decide equality; apply string_dec. Defined.


End Db.

Notation "a ~> b" := (Db.mk_prerequisite a b) (at level 40, no associativity).

(** ** detect_circular_prerequisites: the recursive CTE [prereq_chain] *)

(** A row of the CTE: the edge reached, the course codes walked through so
    far, and the cycle mark. *)
Record chain_row := mk_chain_row {
  ch_course_code : string;
  ch_required_course_code : string;
  visited : list string;
  is_cycle : bool
}.

(** The non-recursive term: one row per prerequisite, [ARRAY[course_code]]
    and [FALSE]. *)
Definition anchor (prerequisites : list Db.prerequisite) : list chain_row :=
  map (fun p => mk_chain_row (Db.course_code p) (Db.required_course_code p)
                             [Db.course_code p] false)
      prerequisites.

(** The recursive term, evaluated against the working table [pcs]:
    [prerequisites p JOIN prereq_chain pc ON p.course_code =
    pc.required_course_code WHERE NOT pc.is_cycle]. *)
Definition recursive_term (prerequisites : list Db.prerequisite)
                          (pcs : list chain_row) : list chain_row :=
  flat_map (fun p =>
    flat_map (fun pc =>
      if (Db.course_code p =? ch_required_course_code pc) && negb (is_cycle pc)
      then [mk_chain_row (Db.course_code p) (Db.required_course_code p)
                         (visited pc ++ [Db.course_code p])
                         (existsb (String.eqb (Db.course_code p)) (visited pc))]
      else [])
    pcs)
  prerequisites.

(** Evaluation of [WITH RECURSIVE ... UNION ALL]: the working table is added
    to the result and replaced by the recursive term applied to it, until it
    is empty.  [None] means the iteration bound was too small. *)
Fixpoint with_recursive (fuel : nat) (prerequisites : list Db.prerequisite)
                        (working : list chain_row) : option (list chain_row) :=
  match working with
  | [] => Some []
  | _ :: _ =>
      match fuel with
      | O => None
      | S fuel' =>
          option_map (app working)
            (with_recursive fuel' prerequisites
                            (recursive_term prerequisites working))
      end
  end.

(** The working table of the [i]-th round. *)
Fixpoint working_table (prerequisites : list Db.prerequisite)
                       (working : list chain_row) (i : nat) : list chain_row :=
  match i with
  | O => working
  | S j => working_table prerequisites (recursive_term prerequisites working) j
  end.

(** [SELECT DISTINCT course_code, required_course_code FROM prereq_chain
    WHERE is_cycle = TRUE]. *)
Definition select_cycles (chain : list chain_row) : list Db.prerequisite :=
  nodup Db.prerequisite_eq_dec
    (map (fun r => ch_course_code r ~> ch_required_course_code r)
         (filter is_cycle chain)).

(** The query of [detect_circular_prerequisites] on a given content of the
    [prerequisites] table.  The bound [S (length prerequisites)] is shown
    below to be enough for every table (theorem [with_recursive_total]). *)
Definition detect_circular_prerequisites (prerequisites : list Db.prerequisite)
  : option (list Db.prerequisite) :=
  option_map select_cycles
    (with_recursive (S (List.length prerequisites)) prerequisites
                    (anchor prerequisites)).

(** ** The requires relation of a prerequisite table *)

Section Requires.

Variable prerequisites : list Db.prerequisite.

(** [reaches a b]: a chain of zero or more requires edges leads from [a]
    to [b]. *)
Inductive reaches : string -> string -> Prop :=
| reaches_refl : forall a, reaches a a
| reaches_step : forall a m b,
    In (a ~> m) prerequisites -> reaches m b -> reaches a b.

(** An edge lies on a directed cycle when its target leads back to its
    source. *)
Definition on_cycle (e : Db.prerequisite) : Prop :=
  In e prerequisites /\
  reaches (Db.required_course_code e) (Db.course_code e).

(** A course lies on a directed cycle when one of its edges does. *)
Definition course_on_cycle (c : string) : Prop :=
  exists m, In (c ~> m) prerequisites /\ reaches m c.

Definition acyclic : Prop := forall c, ~ course_on_cycle c.

(** [walk a l b]: the edges [a -> l1 -> ... -> ln -> b] are all present. *)
Fixpoint walk (a : string) (l : list string) (b : string) : Prop :=
  match l with
  | [] => In (a ~> b) prerequisites
  | x :: l' => In (a ~> x) prerequisites /\ walk x l' b
  end.

End Requires.

(** What every row of the CTE satisfies: a row produced in round [i]
    carries the [i] course codes walked before its own, each of which leads
    to the row's course; the cycle mark says whether the row's course is
    among them; an unmarked row never repeats a course. *)
Definition chain_inv (E : list Db.prerequisite) (i : nat) (r : chain_row)
  : Prop :=
  exists pre,
    visited r = pre ++ [ch_course_code r] /\
    List.length pre = i /\
    In (ch_course_code r ~> ch_required_course_code r) E /\
    incl (visited r) (map Db.course_code E) /\
    (forall x, In x pre ->
       exists m, In (x ~> m) E /\ reaches E m (ch_course_code r)) /\
    is_cycle r = existsb (String.eqb (ch_course_code r)) pre /\
    (is_cycle r = false -> NoDup (visited r)).

(** Two small tables: the three-course cycle A -> B -> C -> A, and a
    two-course cycle with an edge leaving it. *)
Definition abc_cycle : list Db.prerequisite :=
  ["A" ~> "B"; "B" ~> "C"; "C" ~> "A"].

Definition ab_cycle_with_exit : list Db.prerequisite :=
  ["A" ~> "B"; "B" ~> "A"; "A" ~> "C"].

(** ** detect_missing_prerequisites *)

(** A row of the answer: [s.email], [enrolled_course], [missing_prereq]. *)
Record missing_row := mk_missing_row {
  m_email : string;
  enrolled_course : string;
  missing_prereq : string
}.

(** [EXISTS (SELECT 1 FROM student_courses sc2 WHERE sc2.student_id = sid
    AND sc2.course_code = code)]. *)
Definition has_completed (student_courses : list Db.student_course)
                         (sid : Z) (code : string) : bool :=
  existsb (fun sc2 => (Db.student_id sc2 =? sid)%Z
                      && (Db.sc_course_code sc2 =? code))
          student_courses.

(** The query: [student_courses sc JOIN students s ON sc.student_id = s.id
    JOIN prerequisites p ON sc.course_code = p.course_code WHERE NOT EXISTS
    (...)], as nested loops in the order the joins are written. *)
Definition detect_missing_prerequisites
    (student_courses : list Db.student_course)
    (students : list Db.student)
    (prerequisites : list Db.prerequisite) : list missing_row :=
  flat_map (fun sc =>
    flat_map (fun s =>
      flat_map (fun p =>
        if negb (has_completed student_courses (Db.student_id sc)
                               (Db.required_course_code p))
        then [mk_missing_row (Db.email s) (Db.sc_course_code sc)
                             (Db.required_course_code p)]
        else [])
      (filter (fun p => Db.sc_course_code sc =? Db.course_code p)
              prerequisites))
    (filter (fun s => (Db.student_id sc =? Db.id s)%Z) students))
  student_courses.







(** ** Python values: exceptions, strings, data frames *)

(** What a [ValueError] of the pipeline says. *)
Inductive message :=
| validation_failed (violation_count : nat)
| nan_to_integer
| argmax_of_empty.

Inductive exn :=
| KeyError (labels : list string)
| ValueError (msg : message).

Inductive result (A : Type) :=
| Return (a : A)
| Raise (e : exn).

Arguments Return {A} a.
Arguments Raise {A} e.

Definition bind {A B : Type} (m : result A) (k : A -> result B) : result B :=
  match m with
  | Return a => k a
  | Raise e => Raise e
  end.

Notation "x <- m ;; k" := (bind m (fun x => k))
  (at level 61, m at next level, right associativity).

(** Strings are sequences of 8-bit characters; case mapping acts on the
    ASCII letters, whitespace is the ASCII whitespace of [str.isspace], and
    characters outside ASCII are left alone. *)
Module Str.

Definition code (c : ascii) : nat := nat_of_ascii c.

Definition between (lo hi n : nat) : bool := Nat.leb lo n && Nat.leb n hi.

Definition isspace (c : ascii) : bool :=
  between 9 13 (code c) || between 28 32 (code c).

Definition islower (c : ascii) : bool := between 97 122 (code c).
Definition isupper (c : ascii) : bool := between 65 90 (code c).

Definition upper_char (c : ascii) : ascii :=
  if islower c then ascii_of_nat (code c - 32) else c.
Definition lower_char (c : ascii) : ascii :=
  if isupper c then ascii_of_nat (code c + 32) else c.

Fixpoint map_chars (f : ascii -> ascii) (s : string) : string :=
  match s with
  | EmptyString => EmptyString
  | String c s' => String (f c) (map_chars f s')
  end.

(** [str.upper] *)
Definition upper (s : string) : string := map_chars upper_char s.

(** [str.lstrip], [str.rstrip], [str.strip] *)
Fixpoint lstrip (s : string) : string :=
  match s with
  | EmptyString => EmptyString
  | String c s' => if isspace c then lstrip s' else s
  end.

Fixpoint rstrip (s : string) : string :=
  match s with
  | EmptyString => EmptyString
  | String c s' =>
      match rstrip s' with
      | EmptyString => if isspace c then EmptyString else String c EmptyString
      | String d t => String c (String d t)
      end
  end.

Definition strip (s : string) : string := lstrip (rstrip s).

(** [str.title]: a letter is upper-cased when the character before it is
    not a letter and lower-cased when it is. *)
Fixpoint title_from (previous_is_cased : bool) (s : string) : string :=
  match s with
  | EmptyString => EmptyString
  | String c s' =>
      String (if previous_is_cased then lower_char c else upper_char c)
             (title_from (islower c || isupper c) s')
  end.

Definition title (s : string) : string := title_from false s.

End Str.

(** A cell of an object column: a string, or null. *)
Definition cell := option string.

Definition cell_eqb (a b : cell) : bool :=
  match a, b with
  | Some x, Some y => x =? y
  | None, None => true
  | _, _ => false
  end.

Definition isnull {A : Type} (c : option A) : bool :=
  match c with None => true | Some _ => false end.

(** [Series.isin(values)] *)
Definition isin (values : list cell) (c : cell) : bool :=
  existsb (cell_eqb c) values.

(** A data frame: the labels of the columns it has, and its rows.  A row
    type has a field for every column the pipeline knows; the field of a
    column the frame does not have is never read. *)
Record DataFrame (R : Type) := mk_frame {
  columns : list string;
  rows : list R
}.

Arguments mk_frame {R} columns rows.
Arguments columns {R} d.
Arguments rows {R} d.

Definition has_column {R : Type} (df : DataFrame R) (label : string) : bool :=
  existsb (String.eqb label) (columns df).

(** [df[label]]: the column, or [KeyError]. *)
Definition getitem {R C : Type} (df : DataFrame R) (label : string)
                   (field : R -> C) : result (list C) :=
  if has_column df label then Return (map field (rows df))
  else Raise (KeyError [label]).

(** The labels of [subset] that the frame lacks. *)
Definition missing_labels {R : Type} (df : DataFrame R) (subset : list string)
  : list string :=
  filter (fun label => negb (has_column df label)) subset.

(** [df.dropna(subset=...)]: [KeyError] when a label of the subset is not a
    column, otherwise the rows that [notnull] accepts. *)
Definition dropna {R : Type} (subset : list string) (notnull : R -> bool)
                  (df : DataFrame R) : result (DataFrame R) :=
  match missing_labels df subset with
  | [] => Return (mk_frame (columns df) (filter notnull (rows df)))
  | missing => Raise (KeyError missing)
  end.

(** [drop_duplicates(subset=...)], keeping the first occurrence of each key
    in row order; [seen] holds the keys of the rows already passed. *)
Fixpoint drop_duplicates_from {R K : Type} (eqb : K -> K -> bool)
    (key : R -> K) (seen : list K) (l : list R) : list R :=
  match l with
  | [] => []
  | r :: l' =>
      if existsb (eqb (key r)) seen
      then drop_duplicates_from eqb key seen l'
      else r :: drop_duplicates_from eqb key (key r :: seen) l'
  end.

Definition drop_duplicates {R K : Type} (eqb : K -> K -> bool)
    (key : R -> K) (l : list R) : list R :=
  drop_duplicates_from eqb key [] l.

(** ** preprocess_data.py *)

Definition VALID_PROGRAM_CODES : list cell :=
  [Some "MS_DAE"; Some "MS_DS"; Some "MS_CS"; Some "MS_DA"; Some "MS_IS"].
Definition VALID_COURSE_TYPES : list cell := [Some "Core"; Some "Elective"].
Definition VALID_CREDITS : list Z := [4%Z].

Module Course.
(** A row of the courses frame. *)
Record row := mk {
  course_code : cell;
  course_name : cell;
  credits : option Z;
  program_code : cell;
  course_type : cell
}.
End Course.

Module Prereq.
(** A row of the prerequisites frame. *)
Record row := mk {
  course_code : cell;
  required_course_code : cell
}.
End Prereq.

Definition courses_required : list string :=
  ["course_code"; "course_name"; "credits"; "program_code"; "course_type"].

Definition course_notnull (r : Course.row) : bool :=
  negb (isnull (Course.course_code r)) && negb (isnull (Course.course_name r))
  && negb (isnull (Course.credits r)) && negb (isnull (Course.program_code r))
  && negb (isnull (Course.course_type r)).

(** The string transformations of [preprocess_courses] on one row: strip the
    four string columns, then upper-case [course_code] and [program_code] and
    title-case [course_type].  Null cells were dropped before this step. *)
Definition normalise_course (r : Course.row) : Course.row :=
  Course.mk (option_map (fun s => Str.upper (Str.strip s)) (Course.course_code r))
            (option_map Str.strip (Course.course_name r))
            (Course.credits r)
            (option_map (fun s => Str.upper (Str.strip s)) (Course.program_code r))
            (option_map (fun s => Str.title (Str.strip s)) (Course.course_type r)).

Definition preprocess_courses (df : DataFrame Course.row)
  : result (DataFrame Course.row) :=
  df <- dropna courses_required course_notnull df ;;
  let normalised := map normalise_course (rows df) in
  let deduped := drop_duplicates cell_eqb Course.course_code normalised in
  let valid_program :=
    filter (fun r => isin VALID_PROGRAM_CODES (Course.program_code r)) deduped in
  let valid_type :=
    filter (fun r => isin VALID_COURSE_TYPES (Course.course_type r))
           valid_program in
  Return (mk_frame (columns df) valid_type).

Definition prereq_required : list string :=
  ["course_code"; "required_course_code"].

Definition prereq_notnull (r : Prereq.row) : bool :=
  negb (isnull (Prereq.course_code r))
  && negb (isnull (Prereq.required_course_code r)).

Definition normalise_prereq (r : Prereq.row) : Prereq.row :=
  Prereq.mk
    (option_map (fun s => Str.upper (Str.strip s)) (Prereq.course_code r))
    (option_map (fun s => Str.upper (Str.strip s)) (Prereq.required_course_code r)).

Definition prereq_pair (r : Prereq.row) : cell * cell :=
  (Prereq.course_code r, Prereq.required_course_code r).

Definition pair_eqb (a b : cell * cell) : bool :=
  cell_eqb (fst a) (fst b) && cell_eqb (snd a) (snd b).

Definition preprocess_prerequisites (df : DataFrame Prereq.row)
    (valid_course_codes : list cell) : result (DataFrame Prereq.row) :=
  df <- dropna prereq_required prereq_notnull df ;;
  let normalised := map normalise_prereq (rows df) in
  let deduped := drop_duplicates pair_eqb prereq_pair normalised in
  let kept :=
    filter (fun r => isin valid_course_codes (Prereq.course_code r)
                     && isin valid_course_codes (Prereq.required_course_code r))
           deduped in
  Return (mk_frame (columns df) kept).

(** The row steps shared by the two normalisers: drop rows with nulls,
    transform the strings, drop duplicates, keep the valid rows. *)
Definition clean {R K : Type} (notnull : R -> bool) (norm : R -> R)
    (eqb : K -> K -> bool) (key : R -> K) (keep : R -> bool) (l : list R)
  : list R :=
  filter keep (drop_duplicates eqb key (map norm (filter notnull l))).

(** The rows [preprocess_courses] keeps after duplicate removal. *)
Definition course_keep (r : Course.row) : bool :=
  isin VALID_PROGRAM_CODES (Course.program_code r)
  && isin VALID_COURSE_TYPES (Course.course_type r).

Definition clean_courses : list Course.row -> list Course.row :=
  clean course_notnull normalise_course cell_eqb Course.course_code course_keep.

Definition prereq_keep (valid_course_codes : list cell) (r : Prereq.row) : bool :=
  isin valid_course_codes (Prereq.course_code r)
  && isin valid_course_codes (Prereq.required_course_code r).

Definition clean_prereqs (valid_course_codes : list cell)
  : list Prereq.row -> list Prereq.row :=
  clean prereq_notnull normalise_prereq pair_eqb prereq_pair
        (prereq_keep valid_course_codes).

(** The dictionary passed between the pipeline's tasks. *)
Record dataset := mk_dataset {
  courses : DataFrame Course.row;
  prerequisites : DataFrame Prereq.row
}.

Definition preprocess_data (raw : dataset) : result dataset :=
  courses_clean <- preprocess_courses (courses raw) ;;
  valid_codes <- getitem courses_clean "course_code" Course.course_code ;;
  prereqs_clean <- preprocess_prerequisites (prerequisites raw) valid_codes ;;
  Return (mk_dataset courses_clean prereqs_clean).

(** ** validate_data.py *)

Inductive violation :=
| required_columns (missing : list string)
| no_nulls (column : string) (null_count : nat)
| unique_course_code (duplicate_count : nat)
| valid_program_code (invalid_values : list cell)
| valid_course_type (invalid_values : list cell)
| positive_credits
| unique_prereq_pairs (duplicate_count : nat)
| no_self_reference (self_refs : list cell)
| valid_fk_references.

(** [Series.duplicated().sum()]: the rows that repeat an earlier key. *)
Definition duplicated_count {K : Type} (eqb : K -> K -> bool) (keys : list K)
  : nat :=
  List.length keys - List.length (drop_duplicates eqb (fun k => k) keys).

(** [Series.unique().tolist()] *)
Definition unique (values : list cell) : list cell :=
  drop_duplicates cell_eqb (fun v => v) values.

(** [df[label].isnull()] on a courses frame, by label. *)
Definition course_isnull (label : string) (r : Course.row) : bool :=
  if label =? "course_code" then isnull (Course.course_code r)
  else if label =? "course_name" then isnull (Course.course_name r)
  else if label =? "credits" then isnull (Course.credits r)
  else if label =? "program_code" then isnull (Course.program_code r)
  else if label =? "course_type" then isnull (Course.course_type r)
  else false.

Definition prereq_isnull (label : string) (r : Prereq.row) : bool :=
  if label =? "course_code" then isnull (Prereq.course_code r)
  else if label =? "required_course_code"
       then isnull (Prereq.required_course_code r)
  else false.

(** The [no_nulls] loop over the given columns. *)
Definition null_violations {R : Type} (isnull_at : string -> R -> bool)
    (labels : list string) (df : DataFrame R) : list violation :=
  flat_map (fun col =>
    let null_count := List.length (filter (isnull_at col) (rows df)) in
    if Nat.eqb null_count 0 then [] else [no_nulls col null_count])
  labels.

Definition when (b : bool) (v : violation) : list violation :=
  if b then [v] else [].

Definition nonempty {A : Type} (l : list A) : bool :=
  match l with [] => false | _ :: _ => true end.

Definition credits_not_positive (c : option Z) : bool :=
  match c with Some z => (z <=? 0)%Z | None => false end.

Definition validate_courses (df : DataFrame Course.row)
  : result (list violation) :=
  let missing_cols := missing_labels df courses_required in
  let v1 := when (nonempty missing_cols) (required_columns missing_cols) in
  let v2 := null_violations course_isnull
              (filter (has_column df) courses_required) df in
  course_code <- getitem df "course_code" Course.course_code ;;
  let dupes := duplicated_count cell_eqb course_code in
  let v3 := when (negb (Nat.eqb dupes 0)) (unique_course_code dupes) in
  program_code <- getitem df "program_code" Course.program_code ;;
  let invalid := filter (fun c => negb (isin VALID_PROGRAM_CODES c)) program_code in
  let v4 := when (nonempty invalid) (valid_program_code (unique invalid)) in
  course_type <- getitem df "course_type" Course.course_type ;;
  let invalid := filter (fun c => negb (isin VALID_COURSE_TYPES c)) course_type in
  let v5 := when (nonempty invalid) (valid_course_type (unique invalid)) in
  credits <- getitem df "credits" Course.credits ;;
  let v6 := when (existsb credits_not_positive credits) positive_credits in
  Return (v1 ++ v2 ++ v3 ++ v4 ++ v5 ++ v6).

(** [df["course_code"] == df["required_course_code"]], row by row; a null
    cell equals nothing. *)
Definition self_referencing (r : Prereq.row) : bool :=
  match Prereq.course_code r, Prereq.required_course_code r with
  | Some a, Some b => a =? b
  | _, _ => false
  end.

Definition validate_prerequisites (df : DataFrame Prereq.row)
    (valid_codes : list cell) : result (list violation) :=
  let missing_cols := missing_labels df prereq_required in
  if nonempty missing_cols then Return [required_columns missing_cols]
  else
    let v1 := null_violations prereq_isnull prereq_required df in
    let dupes := duplicated_count pair_eqb (map prereq_pair (rows df)) in
    let v2 := when (negb (Nat.eqb dupes 0)) (unique_prereq_pairs dupes) in
    let self_refs := filter self_referencing (rows df) in
    let v3 := when (nonempty self_refs)
                   (no_self_reference (map Prereq.course_code self_refs)) in
    let orphaned_course :=
      existsb (fun r => negb (isin valid_codes (Prereq.course_code r)))
              (rows df) in
    let orphaned_req :=
      existsb (fun r => negb (isin valid_codes (Prereq.required_course_code r)))
              (rows df) in
    let v4 := when (orphaned_course || orphaned_req) valid_fk_references in
    Return (v1 ++ v2 ++ v3 ++ v4).

(** *** Statistics *)

(** [Series.value_counts().to_dict()]: every value that occurs, with the
    number of its occurrences; nulls are not counted.  The entries are listed
    by first occurrence. *)
Definition count_of (v : cell) (values : list cell) : nat :=
  List.length (filter (cell_eqb v) values).

Definition value_counts (values : list cell) : list (string * nat) :=
  flat_map (fun v => match v with
                     | Some s => [(s, count_of v values)]
                     | None => []
                     end)
           (unique values).

(** [Series.nunique()] *)
Definition nunique (values : list cell) : nat :=
  List.length (value_counts values).

(** [value_counts().idxmax()]: a value occurring most often, the first such
    in the listing above; [None] stands for the [ValueError] that the empty
    listing raises. *)
Fixpoint idxmax (counts : list (string * nat)) : option string :=
  match counts with
  | [] => None
  | (s, n) :: rest =>
      if forallb (fun e => Nat.leb (snd e) n) rest then Some s
      else idxmax rest
  end.

(** ** Python floats *)

(** A Python float is an IEEE 754 binary64 number.  A finite float is held
    here as the rational number it denotes, and an operation on floats is the
    exact operation on rationals followed by [to_float], which rounds to the
    nearest float: 53 significant bits, no bit below [2 ^ -1074], a tie going
    to the even significand.  Overflow is left out: no value computed below
    comes near [2 ^ 1024]. *)

(** The integer nearest to [x], a tie going to the even one. *)
Definition round_half_even (x : Q) : Z :=
  let n := Qnum x in
  let d := Zpos (Qden x) in
  let q := (n / d)%Z in
  let r := (n mod d)%Z in
  if (2 * r <? d)%Z then q
  else if (d <? 2 * r)%Z then (q + 1)%Z
  else if Z.even q then q else (q + 1)%Z.

(** For [0 < x], the exponent [l] with [2 ^ l <= x < 2 ^ (l + 1)]. *)
Definition Qlog2 (x : Q) : Z :=
  let l := (Z.log2 (Qnum x) - Z.log2 (Zpos (Qden x)))%Z in
  if Qle_bool (2 ^ l) x then l else (l - 1)%Z.

Definition to_float (x : Q) : Q :=
  let x := Qred x in
  if Qeq_bool x 0 then 0%Q
  else
    let e := Z.max (Qlog2 (Qabs x) - 52) (-1074) in
    Qred (inject_Z (round_half_even (x / 2 ^ e)) * 2 ^ e).

(** [round(x, 2)] on a float: the decimal with two places nearest to [x], a
    tie going to the even one, and then the float nearest to that decimal. *)
Definition round2 (x : Q) : Q := to_float (round_half_even (x * 100) # 100).

Definition Qltb (x y : Q) : bool := negb (Qle_bool y x).

(** [Series.mean()]: the mean of the non-null values as a float, [None]
    (NaN) when there is none.  The sum of the integers is taken exactly, as
    it is in floats below [2 ^ 53]. *)
Definition notnull_values {A : Type} (l : list (option A)) : list A :=
  flat_map (fun c => match c with Some a => [a] | None => [] end) l.

Definition sum_Z (l : list Z) : Z := fold_right Z.add 0%Z l.

Definition mean (l : list Z) : option Q :=
  match l with
  | [] => None
  | _ :: _ =>
      Some (to_float (inject_Z (sum_Z l) / inject_Z (Z.of_nat (List.length l))))%Q
  end.

Record course_statistics := mk_course_statistics {
  total_courses : nat;
  by_program : list (string * nat);
  by_type : list (string * nat);
  avg_credits : option Q;
  unique_programs : nat
}.

Record prerequisite_statistics := mk_prerequisite_statistics {
  total_prereq_pairs : nat;
  courses_with_prereqs : nat;
  most_required_course : option string
}.

Record statistics := mk_statistics {
  generated_at : string;
  stats_courses : course_statistics;
  stats_prerequisites : prerequisite_statistics
}.

(** [now] is the reading of the clock. *)
Definition generate_statistics (now : string) (cleaned : dataset)
  : result statistics :=
  let cs := courses cleaned in
  let ps := prerequisites cleaned in
  program_code <- getitem cs "program_code" Course.program_code ;;
  course_type <- getitem cs "course_type" Course.course_type ;;
  credits <- getitem cs "credits" Course.credits ;;
  course_code <- getitem ps "course_code" Prereq.course_code ;;
  most_required <-
    (if nonempty (rows ps)
     then required <- getitem ps "required_course_code"
                              Prereq.required_course_code ;;
          match idxmax (value_counts required) with
          | Some s => Return (Some s)
          | None => Raise (ValueError argmax_of_empty)
          end
     else Return None) ;;
  Return (mk_statistics now
    (mk_course_statistics (List.length (rows cs))
       (value_counts program_code) (value_counts course_type)
       (mean (notnull_values credits)) (nunique program_code))
    (mk_prerequisite_statistics (List.length (rows ps))
       (nunique course_code) most_required)).

(** The master validation function.  Writing the report file is left out;
    the value returned does not depend on it. *)
Definition validate_data (now : string) (cleaned : dataset)
  : result statistics :=
  valid_codes <- getitem (courses cleaned) "course_code" Course.course_code ;;
  course_violations <- validate_courses (courses cleaned) ;;
  prereq_violations <-
    validate_prerequisites (prerequisites cleaned) valid_codes ;;
  let all_violations := course_violations ++ prereq_violations in
  if nonempty all_violations
  then Raise (ValueError (validation_failed (List.length all_violations)))
  else generate_statistics now cleaned.

(** ** pipeline_dag.py: task_bias_detection *)

Definition expected_programs : list string :=
  ["MS_DAE"; "MS_DS"; "MS_CS"; "MS_DA"; "MS_IS"].

(** The messages appended to [bias_flags], with the values they print. *)
Inductive bias_flag :=
| LOW_COVERAGE (program : string) (percentage : Q) (count : nat)
| MISSING_PROGRAM (program : string)
| CREDIT_IMBALANCE (lowest highest : Q).

Record coverage := mk_coverage {
  count : nat;
  percentage : Q
}.

Record credit_stats := mk_credit_stats {
  group_avg_credits : Q;
  min_credits : Z;
  max_credits : Z
}.

Record bias_report := mk_bias_report {
  report_generated_at : string;
  program_coverage : list (string * coverage);
  credit_distribution : list (string * credit_stats);
  bias_flags : list bias_flag
}.

(** [program_counts.get(program, 0)] *)
Definition program_count (program_code : list cell) (program : string) : nat :=
  count_of (Some program) program_code.

(** [round((count / total_courses) * 100, 2) if total_courses else 0]: the
    quotient of the two integers is rounded to a float, and so is its
    product with 100. *)
Definition coverage_percentage (count total_courses : nat) : Q :=
  if Nat.eqb total_courses 0 then 0%Q
  else round2 (to_float
                 (to_float (inject_Z (Z.of_nat count)
                            / inject_Z (Z.of_nat total_courses)) * 100))%Q.

(** The two tests in the body of the loop over the expected programs. *)
Definition coverage_flags (program : string) (c : coverage) : list bias_flag :=
  (if Qltb (percentage c) 10%Q
   then [LOW_COVERAGE program (percentage c) (count c)] else [])
  ++ (if Nat.eqb (count c) 0 then [MISSING_PROGRAM program] else []).

Fixpoint mapM {A B : Type} (f : A -> result B) (l : list A) : result (list B) :=
  match l with
  | [] => Return []
  | a :: l' => b <- f a ;; bs <- mapM f l' ;; Return (b :: bs)
  end.

Definition minimum_Z (z : Z) (l : list Z) : Z := fold_right Z.min z l.
Definition maximum_Z (z : Z) (l : list Z) : Z := fold_right Z.max z l.

Definition Qmin (x y : Q) : Q := if Qle_bool x y then x else y.
Definition Qmax (x y : Q) : Q := if Qle_bool x y then y else x.

(** The statistics of one group of [courses.groupby("program_code")]:
    [group["credits"]] needs the column; the mean, minimum and maximum skip
    nulls, and [int(...)] of the NaN of an all-null group raises. *)
Definition group_stats (courses : DataFrame Course.row) (program : string)
  : result (string * credit_stats) :=
  let group :=
    mk_frame (columns courses)
      (filter (fun r => cell_eqb (Course.program_code r) (Some program))
              (rows courses)) in
  credits <- getitem group "credits" Course.credits ;;
  match notnull_values credits, mean (notnull_values credits) with
  | z :: zs, Some avg =>
      Return (program,
              mk_credit_stats (round2 avg) (minimum_Z z zs) (maximum_Z z zs))
  | _, _ => Raise (ValueError nan_to_integer)
  end.

(** [if avg_values and (max(avg_values) - min(avg_values)) > 1.0], the
    difference being rounded to a float. *)
Definition credit_flags (avg_values : list Q) : list bias_flag :=
  match avg_values with
  | [] => []
  | v :: vs =>
      let lowest := fold_right Qmin v vs in
      let highest := fold_right Qmax v vs in
      if Qltb 1 (to_float (highest - lowest))
      then [CREDIT_IMBALANCE lowest highest] else []
  end.

(** The report built by [task_bias_detection].  The optional Fairlearn
    section sits in a try/except that adds no flag, and the report is then
    written out; both are left out.  The loop over the expected programs
    runs in the order of the list above. *)
Definition task_bias_detection (now : string) (courses : DataFrame Course.row)
  : result bias_report :=
  let total_courses := List.length (rows courses) in
  program_code <- getitem courses "program_code" Course.program_code ;;
  let program_coverage :=
    map (fun program =>
           let count := program_count program_code program in
           (program,
            mk_coverage count (coverage_percentage count total_courses)))
        expected_programs in
  let flags1 :=
    flat_map (fun entry => coverage_flags (fst entry) (snd entry))
             program_coverage in
  credit_distribution <-
    mapM (group_stats courses) (map fst (value_counts program_code)) ;;
  let avg_values :=
    map (fun entry => group_avg_credits (snd entry)) credit_distribution in
  let flags2 := credit_flags avg_values in
  Return (mk_bias_report now program_coverage credit_distribution
                         (flags1 ++ flags2)).

(** The entry the loop records for one program. *)
Definition coverage_entry (courses : DataFrame Course.row) (program : string)
  : string * coverage :=
  let count :=
    program_count (map Course.program_code (rows courses)) program in
  (program,
   mk_coverage count
               (coverage_percentage count (List.length (rows courses)))).

(** What a run reports about one program. *)
Definition low_coverage_flagged (flags : list bias_flag) (program : string)
  : Prop :=
  exists percentage count, In (LOW_COVERAGE program percentage count) flags.

Definition missing_program_flagged (flags : list bias_flag) (program : string)
  : Prop :=
  In (MISSING_PROGRAM program) flags.

(** ** Sample inputs *)

Definition course (code name : string) (credits : Z) (program type : string)
  : Course.row :=
  Course.mk (Some code) (Some name) (Some credits) (Some program) (Some type).

(** A course listed twice: first under an unknown program, then under a
    valid one. *)
Definition shadowed_first : Course.row :=
  course "IE6400" "Foundations" 4 "MS_FAKE" "Core".
Definition shadowed_later : Course.row :=
  course "IE6400" "Foundations" 4 "MS_DAE" "Core".
Definition shadowed_courses : DataFrame Course.row :=
  mk_frame courses_required [shadowed_first; shadowed_later].

(** Raw tables with untidy codes, a duplicate and an orphan edge. *)
Definition untidy : dataset :=
  mk_dataset
    (mk_frame courses_required
       [course "  ie6400 " "Foundations " 4 "ms_dae" "core";
        course "IE7275" "Data Mining" 4 "MS_DAE" "Elective";
        course "ie6400" "Again" 4 "MS_DAE" "Core";
        Course.mk (Some "CS5800") None (Some 4%Z) (Some "MS_CS") (Some "Core")])
    (mk_frame prereq_required
       [Prereq.mk (Some " ie7275") (Some "IE6400 ");
        Prereq.mk (Some "IE7275") (Some "ie6400");
        Prereq.mk (Some "IE7275") (Some "CS5800")]).

(** A courses frame without its [course_code] column, and a prerequisites
    frame without it. *)
Definition courses_without_code : DataFrame Course.row :=
  mk_frame ["course_name"; "credits"; "program_code"; "course_type"]
           [Course.mk None (Some "Foundations") (Some 4%Z) (Some "MS_DAE")
                      (Some "Core")].

Definition prereqs_without_code : DataFrame Prereq.row :=
  mk_frame ["required_course_code"] [Prereq.mk None (Some "IE6400")].

(** Cleaned tables in which a course code occurs twice. *)
Definition duplicated : dataset :=
  mk_dataset
    (mk_frame courses_required
       [course "IE6400" "A" 4 "MS_DAE" "Core";
        course "IE6400" "B" 4 "MS_DAE" "Core"])
    (mk_frame prereq_required []).

(** Ten courses, one of MS_CS and nine of MS_DS; and three courses, one of
    MS_CS. *)
Definition ten_courses : DataFrame Course.row :=
  mk_frame courses_required
    (course "CS5800" "Algorithms" 4 "MS_CS" "Core"
     :: map (fun code => course code "Data" 4 "MS_DS" "Core")
            ["DS1"; "DS2"; "DS3"; "DS4"; "DS5"; "DS6"; "DS7"; "DS8"; "DS9"]).

Definition three_courses : DataFrame Course.row :=
  mk_frame courses_required
    [course "CS5800" "Algorithms" 4 "MS_CS" "Core";
     course "DS1" "Data" 4 "MS_DS" "Core";
     course "DS2" "Data" 4 "MS_DS" "Core"].

(** The flags and the coverage table of a run, empty when it raised. *)
Definition flags_of (run : result bias_report) : list bias_flag :=
  match run with Return report => bias_flags report | Raise _ => [] end.

Definition coverage_of (run : result bias_report) : list (string * coverage) :=
  match run with Return report => program_coverage report | Raise _ => [] end.

(** A small completion log: the first student took B without A, the second
    took both. *)
Definition sample_students : list Db.student :=
  [Db.mk_student 1 "ada@example.edu"; Db.mk_student 2 "bob@example.edu"].

Definition sample_completions : list Db.student_course :=
  [Db.mk_student_course 1 "B"; Db.mk_student_course 2 "B";
   Db.mk_student_course 2 "A"].


(** ** detect_anomalies.py: detect_anomalies, and its Airflow task *)

(** The summary dictionary of [detect_anomalies]. *)
Record anomalies := mk_anomalies {
  missing_prerequisites : list missing_row;
  circular_prerequisites : list Db.prerequisite
}.

(** The two queries run against the same database content.  [None] only if
    the bound of the recursive query were too small, which does not
    happen. *)
Definition detect_anomalies (student_courses : list Db.student_course)
    (students : list Db.student) (prereqs : list Db.prerequisite)
  : option anomalies :=
  option_map
    (mk_anomalies (detect_missing_prerequisites student_courses students prereqs))
    (detect_circular_prerequisites prereqs).

(** How [task_detect_anomalies] ends: it returns, or raises [ValueError]
    with the number of anomalies. *)
Inductive task_outcome :=
| Succeeded
| AnomaliesFound (total_anomalies : nat).

Definition task_detect_anomalies (student_courses : list Db.student_course)
    (students : list Db.student) (prereqs : list Db.prerequisite)
  : option task_outcome :=
  option_map
    (fun results =>
       let total_anomalies :=
         List.length (missing_prerequisites results)
         + List.length (circular_prerequisites results) in
       if Nat.ltb 0 total_anomalies then AnomaliesFound total_anomalies
       else Succeeded)
    (detect_anomalies student_courses students prereqs).

(** Three prerequisite rows, two of which require B, and no course. *)
Definition b_required_twice : dataset :=
  mk_dataset (mk_frame courses_required [])
    (mk_frame prereq_required
       [Prereq.mk (Some "B") (Some "A"); Prereq.mk (Some "C") (Some "B");
        Prereq.mk (Some "D") (Some "B")]).

(** ** load_data.py *)

(** [INSERT ... ON CONFLICT (key columns) DO NOTHING], statement by
    statement, on a table held as the list of its rows in insertion order.
    Of the tables' constraints only the uniqueness that the conflict target
    names is modelled; the table declarations are not part of the sources. *)
Section Upsert.

Context {R K : Type}.
Variable eqb : K -> K -> bool.

(** The conflict key of a row; [None] when a key column is NULL, which
    conflicts with nothing.  A null cell of a frame is written as NULL here,
    as the driver writes Python's [None]; it writes a pandas NaN into a text
    column as the text NaN, which does conflict, so what is stated of the
    rows stored assumes frames without null cells. *)
Variable key : R -> option K.

Definition conflicts (t r : R) : bool :=
  match key t, key r with
  | Some a, Some b => eqb a b
  | _, _ => false
  end.

(** One [cur.execute]: the [rowcount] and the table afterwards. *)
Definition insert_or_ignore (table : list R) (r : R) : nat * list R :=
  if existsb (fun t => conflicts t r) table then (0, table)
  else (1, table ++ [r]).

(** The loop over [df.iterrows()]; [args] evaluates the parameter tuple of
    a row and may raise. *)
Fixpoint execute_all (args : R -> result R) (rs : list R) (inserted : nat)
                     (table : list R) : result (nat * list R) :=
  match rs with
  | [] => Return (inserted, table)
  | r :: rs' =>
      a <- args r ;;
      execute_all args rs' (inserted + fst (insert_or_ignore table a))
                  (snd (insert_or_ignore table a))
  end.

(** The whole function: commit and return the count, or roll back and
    raise.  The second component is the table afterwards. *)
Definition load (args : R -> result R) (rs : list R) (table : list R)
  : result nat * list R :=
  match execute_all args rs 0 table with
  | Return (inserted, table') => (Return inserted, table')
  | Raise e => (Raise e, table)
  end.

End Upsert.

(** [row[label]] on a row of [df.iterrows()]. *)
Definition row_getitem {R C : Type} (df : DataFrame R) (label : string)
                       (v : C) : result C :=
  if has_column df label then Return v else Raise (KeyError [label]).

(** [int(x)] on a number or NaN. *)
Definition int (x : option Z) : result Z :=
  match x with
  | Some z => Return z
  | None => Raise (ValueError nan_to_integer)
  end.

(** The parameter tuple of [load_courses] for one row, evaluated left to
    right. *)
Definition course_args (df : DataFrame Course.row) (row : Course.row)
  : result Course.row :=
  course_code <- row_getitem df "course_code" (Course.course_code row) ;;
  course_name <- row_getitem df "course_name" (Course.course_name row) ;;
  credits <- row_getitem df "credits" (Course.credits row) ;;
  credits <- int credits ;;
  program_code <- row_getitem df "program_code" (Course.program_code row) ;;
  course_type <- row_getitem df "course_type" (Course.course_type row) ;;
  Return (Course.mk course_code course_name (Some credits) program_code
                    course_type).

Definition load_courses (df : DataFrame Course.row) (table : list Course.row)
  : result nat * list Course.row :=
  load String.eqb Course.course_code (course_args df) (rows df) table.

Definition prereq_args (df : DataFrame Prereq.row) (row : Prereq.row)
  : result Prereq.row :=
  course_code <- row_getitem df "course_code" (Prereq.course_code row) ;;
  required <- row_getitem df "required_course_code"
                          (Prereq.required_course_code row) ;;
  Return (Prereq.mk course_code required).

(** The conflict key [(course_code, required_course_code)]. *)
Definition prereq_key (r : Prereq.row) : option (string * string) :=
  match Prereq.course_code r, Prereq.required_course_code r with
  | Some a, Some b => Some (a, b)
  | _, _ => None
  end.

Definition string_pair_eqb (a b : string * string) : bool :=
  (fst a =? fst b) && (snd a =? snd b).

Definition load_prerequisites (df : DataFrame Prereq.row)
    (table : list Prereq.row) : result nat * list Prereq.row :=
  load string_pair_eqb prereq_key (prereq_args df) (rows df) table.

(** The two tables of the database. *)
Record tables := mk_tables {
  courses_table : list Course.row;
  prerequisites_table : list Prereq.row
}.

(** [load_data]: the courses are loaded and committed, then the
    prerequisites; the counts are returned when both loads do. *)
Definition load_data (cleaned : dataset) (db : tables)
  : result (nat * nat) * tables :=
  match load_courses (courses cleaned) (courses_table db) with
  | (Raise e, ct) => (Raise e, mk_tables ct (prerequisites_table db))
  | (Return courses_inserted, ct) =>
      match load_prerequisites (prerequisites cleaned)
                               (prerequisites_table db) with
      | (Raise e, pt) => (Raise e, mk_tables ct pt)
      | (Return prerequisites_inserted, pt) =>
          (Return (courses_inserted, prerequisites_inserted),
           mk_tables ct pt)
      end
  end.

(** The keys a table holds. *)
Definition keys {R K : Type} (key : R -> option K) (table : list R) : list K :=
  notnull_values (map key table).

(** An empty database, and the cleaned tables of the untidy sample. *)
Definition empty_tables : tables := mk_tables [] [].

Definition tidy : dataset :=
  mk_dataset
    (mk_frame courses_required
       [course "IE6400" "Foundations" 4 "MS_DAE" "Core";
        course "IE7275" "Data Mining" 4 "MS_DAE" "Elective"])
    (mk_frame prereq_required [Prereq.mk (Some "IE7275") (Some "IE6400")]).

(** ** web-extract.py: parse_attributes *)

(** [str.split(sep)] for a separator of one character. *)
Fixpoint split (sep : ascii) (s : string) : list string :=
  match s with
  | EmptyString => [EmptyString]
  | String c s' =>
      if Ascii.eqb c sep then EmptyString :: split sep s'
      else match split sep s' with
           | piece :: pieces => String c piece :: pieces
           | [] => [String c EmptyString]
           end
  end.

(** [[a.strip() for a in attr_text.split(",") if a.strip()]], and the empty
    list for [None] or the empty string. *)
Definition parse_attributes (attr_text : option string) : list string :=
  match attr_text with
  | None => []
  | Some EmptyString => []
  | Some text =>
      flat_map (fun a => if Str.strip a =? "" then [] else [Str.strip a])
               (split "," text)
  end.

(** The characters of a string. *)
Definition chars (s : string) : list ascii := list_ascii_of_string s.

(** [str.isascii]: every character is below 128.  On such strings the
    whitespace of [Str.isspace] is the whitespace of Python. *)
Definition isascii (s : string) : bool :=
  forallb (fun c => Nat.ltb (Str.code c) 128) (chars s).

(** An attribute as the parser returns it: not empty, no comma, no
    whitespace at either end. *)
Definition tidy_attribute (a : string) : Prop :=
  a <> "" /\ ~ In ","%char (chars a) /\ Str.lstrip a = a /\ Str.rstrip a = a.

(** ** Notions used to state further properties *)

(** What a courses frame must satisfy for no check to fire. *)
Definition courses_valid (df : DataFrame Course.row) : Prop :=
  missing_labels df courses_required = [] /\
  NoDup (map Course.course_code (rows df)) /\
  forall r, In r (rows df) ->
    course_notnull r = true /\
    In (Course.program_code r) VALID_PROGRAM_CODES /\
    In (Course.course_type r) VALID_COURSE_TYPES /\
    exists z, Course.credits r = Some z /\ (0 < z)%Z.

(** What a prerequisites frame must satisfy, against the given codes. *)
Definition prerequisites_valid (df : DataFrame Prereq.row)
           (valid_codes : list cell) : Prop :=
  missing_labels df prereq_required = [] /\
  NoDup (map prereq_pair (rows df)) /\
  forall r, In r (rows df) ->
    prereq_notnull r = true /\
    Prereq.course_code r <> Prereq.required_course_code r /\
    In (Prereq.course_code r) valid_codes /\
    In (Prereq.required_course_code r) valid_codes.

(** A cell that is not null. *)
Definition notnull_cell (c : cell) : bool := negb (isnull c).

(** The credits of one program's courses that are not null. *)
Definition group_credits (df : DataFrame Course.row) (program : string)
  : list Z :=
  notnull_values
    (map Course.credits
         (filter (fun r => cell_eqb (Course.program_code r) (Some program))
                 (rows df))).

(* ================================================================== *)
(** * Part II. Properties                                              *)
(* ================================================================== *)

(** ** Cycle detection *)

Section CycleDetection.

Variable E : list Db.prerequisite.

Lemma recursive_term_nil : recursive_term E [] = [].
Proof.
  unfold recursive_term. induction E as [|p ps IH]; simpl; auto.
Qed.

Lemma in_recursive_term (r : chain_row) (W : list chain_row) :
  In r (recursive_term E W) <->
  exists p pc, In p E /\ In pc W /\
    Db.course_code p = ch_required_course_code pc /\
    is_cycle pc = false /\
    r = mk_chain_row (Db.course_code p) (Db.required_course_code p)
                     (visited pc ++ [Db.course_code p])
                     (existsb (String.eqb (Db.course_code p)) (visited pc)).
Proof.
  unfold recursive_term. rewrite in_flat_map. split.
  - intros (p & Hp & Hin). apply in_flat_map in Hin.
    destruct Hin as (pc & Hpc & Hin).
    destruct (Db.course_code p =? ch_required_course_code pc) eqn:Heq;
      simpl in Hin; [|contradiction].
    destruct (is_cycle pc) eqn:Hc; simpl in Hin; [contradiction|].
    destruct Hin as [<-|[]]. apply String.eqb_eq in Heq.
    exists p, pc. rewrite Hc. auto.
  - intros (p & pc & Hp & Hpc & Heq & Hc & ->).
    exists p. split; auto. apply in_flat_map. exists pc. split; auto.
    apply String.eqb_eq in Heq. rewrite Heq, Hc. simpl. auto.
Qed.

Lemma working_table_S (W : list chain_row) (i : nat) :
  working_table E W (S i) = recursive_term E (working_table E W i).
Proof.
  revert W. induction i as [|i IH]; intros W; [reflexivity|].
  change (working_table E W (S (S i)))
    with (working_table E (recursive_term E W) (S i)).
  rewrite IH. reflexivity.
Qed.

Lemma working_table_nil (i : nat) : working_table E [] i = [].
Proof.
  induction i as [|i IH]; simpl; auto. rewrite recursive_term_nil. exact IH.
Qed.

(** The result of the CTE is the union of all working tables. *)
Lemma in_with_recursive (fuel : nat) :
  forall W rows, with_recursive fuel E W = Some rows ->
  forall r, In r rows <-> exists i, In r (working_table E W i).
Proof.
  induction fuel as [|fuel IH]; intros W rows Hrun r.
  - destruct W; simpl in Hrun; [|discriminate].
    injection Hrun as <-. split; [intros []|].
    intros (i & Hi). rewrite working_table_nil in Hi. exact Hi.
  - destruct W as [|w W].
    + simpl in Hrun. injection Hrun as <-. split; [intros []|].
      intros (i & Hi). rewrite working_table_nil in Hi. exact Hi.
    + simpl in Hrun.
      destruct (with_recursive fuel E (recursive_term E (w :: W)))
        as [rest|] eqn:Hrest; simpl in Hrun; [|discriminate].
      injection Hrun as <-. specialize (IH _ _ Hrest r).
      split.
      * intros Hin. change (In r ((w :: W) ++ rest)) in Hin.
        apply in_app_or in Hin. destruct Hin as [Hin|Hin].
        -- exists 0. exact Hin.
        -- apply IH in Hin. destruct Hin as (i & Hi). exists (S i). exact Hi.
      * intros (i & Hi). change (In r ((w :: W) ++ rest)).
        apply in_or_app. destruct i as [|i]; [left; exact Hi|].
        right. apply IH. exists i. exact Hi.
Qed.

(** A larger bound does not change the result. *)
Lemma with_recursive_more_fuel (fuel : nat) :
  forall fuel' W rows, fuel <= fuel' ->
  with_recursive fuel E W = Some rows ->
  with_recursive fuel' E W = Some rows.
Proof.
  induction fuel as [|fuel IH]; intros fuel' W rows Hle Hrun.
  - destruct W; simpl in Hrun; [|discriminate].
    destruct fuel'; exact Hrun.
  - destruct W as [|w W]; [destruct fuel'; exact Hrun|].
    destruct fuel' as [|fuel']; [lia|]. simpl in *.
    destruct (with_recursive fuel E (recursive_term E (w :: W)))
      as [rest|] eqn:Hrest; simpl in Hrun; [|discriminate].
    rewrite (IH fuel' _ rest ltac:(lia) Hrest). exact Hrun.
Qed.

(** If some round's working table is empty, a bound of that many rounds
    is enough. *)
Lemma with_recursive_enough (n : nat) :
  forall W fuel, working_table E W n = [] -> n <= fuel ->
  exists rows, with_recursive fuel E W = Some rows.
Proof.
  induction n as [|n IH]; intros W fuel Hnil Hle.
  - simpl in Hnil. subst W. destruct fuel; simpl; eauto.
  - destruct W as [|w W]; [destruct fuel; simpl; eauto|].
    destruct fuel as [|fuel]; [lia|].
    simpl in Hnil. destruct (IH _ fuel Hnil ltac:(lia)) as (rest & Hrest).
    simpl. rewrite Hrest. simpl. eauto.
Qed.

Lemma reaches_trans (a b c : string) :
  reaches E a b -> reaches E b c -> reaches E a c.
Proof.
  induction 1 as [|a m b Hedge _ IH]; intros Hbc; auto.
  eapply reaches_step; eauto.
Qed.

Lemma reaches_edge (a b : string) : In (a ~> b) E -> reaches E a b.
Proof. intros H. eapply reaches_step; [exact H|apply reaches_refl]. Qed.


Lemma existsb_eqb_false (c : string) (l : list string) :
  existsb (String.eqb c) l = false -> ~ In c l.
Proof.
  intros Hex Hin.
  assert (existsb (String.eqb c) l = true) as Habs.
  { apply existsb_exists. exists c. split; auto. apply String.eqb_refl. }
  congruence.
Qed.

Lemma existsb_eqb_true (c : string) (l : list string) :
  existsb (String.eqb c) l = true -> In c l.
Proof.
  intros Hex. apply existsb_exists in Hex. destruct Hex as (x & Hx & Heq).
  apply String.eqb_eq in Heq. subst. exact Hx.
Qed.

Lemma chain_inv_anchor (r : chain_row) : In r (anchor E) -> chain_inv E 0 r.
Proof.
  unfold anchor. intros Hin. apply in_map_iff in Hin.
  destruct Hin as (p & <- & Hp). exists []. simpl.
  repeat split; auto.
  - destruct p; exact Hp.
  - intros x [<-|[]]. apply in_map. exact Hp.
  - intros x [].
  - intros _. constructor; [intros []|constructor].
Qed.

Lemma chain_inv_step (i : nat) (W : list chain_row) :
  (forall pc, In pc W -> chain_inv E i pc) ->
  forall r, In r (recursive_term E W) -> chain_inv E (S i) r.
Proof.
  intros HW r Hin. apply in_recursive_term in Hin.
  destruct Hin as (p & pc & Hp & Hpc & Hjoin & Hnc & ->).
  destruct (HW pc Hpc) as (pre & Hvis & Hlen & Hedge & Hincl & Hreach & _ & Hnd).
  exists (visited pc). simpl. repeat split; auto.
  - rewrite Hvis, length_app. simpl. lia.
  - destruct p; exact Hp.
  - intros x Hx. apply in_app_or in Hx. destruct Hx as [Hx|[<-|[]]].
    + apply Hincl. exact Hx.
    + apply in_map. exact Hp.
  - intros x Hx. rewrite Hvis in Hx. apply in_app_or in Hx.
    rewrite Hjoin. destruct Hx as [Hx|[<-|[]]].
    + destruct (Hreach x Hx) as (m & Hm & Hr). exists m. split; auto.
      eapply reaches_trans; [exact Hr|]. apply reaches_edge. exact Hedge.
    + exists (ch_required_course_code pc). split; auto. apply reaches_refl.
  - intros Hex. apply existsb_eqb_false in Hex.
    apply NoDup_app; auto.
    + constructor; [intros []|constructor].
    + intros x Hx [<-|[]]. contradiction.
Qed.

Lemma chain_inv_working (i : nat) :
  forall r, In r (working_table E (anchor E) i) -> chain_inv E i r.
Proof.
  induction i as [|i IH]; intros r Hin.
  - apply chain_inv_anchor. exact Hin.
  - rewrite working_table_S in Hin. eapply chain_inv_step; eauto.
Qed.

(** *** Termination: the rounds run dry after [length E] of them *)

Lemma last_round_all_marked (r : chain_row) :
  In r (working_table E (anchor E) (List.length E)) -> is_cycle r = true.
Proof.
  intros Hin. destruct (chain_inv_working _ _ Hin)
    as (pre & Hvis & Hlen & _ & Hincl & _ & _ & Hnd).
  destruct (is_cycle r); auto. specialize (Hnd eq_refl).
  pose proof (NoDup_incl_length Hnd Hincl) as Hle.
  rewrite Hvis, length_app, length_map, Hlen in Hle. simpl in Hle. lia.
Qed.

Lemma working_table_runs_dry :
  working_table E (anchor E) (S (List.length E)) = [].
Proof.
  rewrite working_table_S.
  destruct (recursive_term E (working_table E (anchor E) (List.length E)))
    as [|r rs] eqn:Hrt; auto.
  assert (In r (recursive_term E (working_table E (anchor E) (List.length E))))
    as Hin by (rewrite Hrt; left; reflexivity).
  apply in_recursive_term in Hin.
  destruct Hin as (p & pc & _ & Hpc & _ & Hnc & _).
  apply last_round_all_marked in Hpc. congruence.
Qed.

Lemma with_recursive_total :
  exists rows,
    with_recursive (S (List.length E)) E (anchor E) = Some rows.
Proof.
  apply (with_recursive_enough (S (List.length E))); auto.
  apply working_table_runs_dry.
Qed.

(** *** Simple walks *)

Lemma walk_suffix (a b : string) (l2 : list string) :
  forall l1 m l, m :: l = l1 ++ a :: l2 -> walk E m l b -> walk E a l2 b.
Proof.
  induction l1 as [|y l1 IH]; intros m l Heq Hw.
  - simpl in Heq. injection Heq as -> ->. exact Hw.
  - simpl in Heq. injection Heq as -> ->.
    destruct l1 as [|z l1].
    + simpl in Hw. tauto.
    + simpl in Hw. destruct Hw as [_ Hw]. eapply IH; [reflexivity|exact Hw].
Qed.

(** A chain from [a] can be cut down to one that repeats none of the
    courses it leaves from. *)
Lemma simple_walk (m b : string) :
  reaches E m b ->
  forall a, In (a ~> m) E -> exists l, walk E a l b /\ NoDup (a :: l).
Proof.
  induction 1 as [m|m m' b Hedge _ IH]; intros a Ha.
  - exists []. simpl. split; auto. constructor; [intros []|constructor].
  - destruct (IH m Hedge) as (l & Hw & Hnd).
    destruct (in_dec string_dec a (m :: l)) as [Hin|Hnin].
    + apply in_split in Hin. destruct Hin as (l1 & l2 & Heq).
      exists l2. split.
      * eapply walk_suffix; eauto.
      * rewrite Heq in Hnd. apply NoDup_app_remove_l in Hnd. exact Hnd.
    + exists (m :: l). simpl. split; auto. constructor; auto.
Qed.

Lemma walk_snoc (a x b : string) :
  forall l, walk E a (l ++ [x]) b <-> walk E a l x /\ In (x ~> b) E.
Proof.
  intros l. revert a. induction l as [|y l IH]; intros a; simpl.
  - tauto.
  - rewrite IH. tauto.
Qed.

(** The CTE follows every simple walk to its end without marking it. *)
Lemma row_of_walk :
  forall l a b, walk E a l b -> NoDup (a :: l) ->
  In (mk_chain_row (last (a :: l) a) b (a :: l) false)
     (working_table E (anchor E) (List.length l)).
Proof.
  induction l as [|x l IH] using rev_ind; intros a b Hw Hnd.
  - simpl in *. unfold anchor. apply in_map_iff.
    exists (a ~> b). split; auto.
  - apply walk_snoc in Hw. destruct Hw as [Hw Hedge].
    change (a :: l ++ [x]) with ((a :: l) ++ [x]) in *.
    rewrite last_last, length_app. simpl List.length.
    replace (List.length l + 1) with (S (List.length l)) by lia.
    rewrite working_table_S. apply in_recursive_term.
    apply NoDup_remove in Hnd. rewrite app_nil_r in Hnd.
    destruct Hnd as [Hnd Hx].
    exists (x ~> b), (mk_chain_row (last (a :: l) a) x (a :: l) false).
    split; [exact Hedge|]. split; [apply IH; assumption|].
    split; [reflexivity|]. split; [reflexivity|].
    cbn [Db.course_code Db.required_course_code visited].
    f_equal. symmetry. apply not_true_is_false. intros Hex.
    apply existsb_eqb_true in Hex. contradiction.
Qed.

(** *** What the query returns *)

Lemma in_select_cycles (e : Db.prerequisite) (chain : list chain_row) :
  In e (select_cycles chain) <->
  exists r, In r chain /\ is_cycle r = true /\
            e = ch_course_code r ~> ch_required_course_code r.
Proof.
  unfold select_cycles. rewrite nodup_In, in_map_iff. split.
  - intros (r & <- & Hr). apply filter_In in Hr. exists r. tauto.
  - intros (r & Hr & Hc & ->). exists r. split; auto.
    apply filter_In. auto.
Qed.

(** The query reports exactly the edges that leave a course lying on a
    cycle. *)
Lemma detect_circular_prerequisites_spec (res : list Db.prerequisite) :
  detect_circular_prerequisites E = Some res ->
  forall e, In e res <->
            In e E /\ course_on_cycle E (Db.course_code e).
Proof.
  unfold detect_circular_prerequisites. intros Hrun e.
  destruct (with_recursive (S (List.length E)) E (anchor E))
    as [rows|] eqn:Hrows; simpl in Hrun; [|discriminate].
  injection Hrun as <-. rewrite in_select_cycles.
  split.
  - intros (r & Hr & Hc & ->). simpl.
    apply (in_with_recursive _ _ _ Hrows) in Hr. destruct Hr as (i & Hi).
    destruct (chain_inv_working _ _ Hi)
      as (pre & _ & _ & Hedge & _ & Hreach & Hmark & _).
    split; auto. rewrite Hc in Hmark. symmetry in Hmark.
    apply existsb_eqb_true in Hmark. exact (Hreach _ Hmark).
  - intros (He & m & Hm & Hr). destruct e as [c r].
    cbn [Db.course_code Db.required_course_code] in *.
    destruct (simple_walk _ _ Hr c Hm) as (l & Hw & Hnd).
    pose proof (row_of_walk l c c Hw Hnd) as Hrow.
    exists (mk_chain_row c r ((c :: l) ++ [c]) true).
    split; [|split; reflexivity].
    apply (in_with_recursive _ _ _ Hrows). exists (S (List.length l)).
    rewrite working_table_S. apply in_recursive_term.
    exists (c ~> r), (mk_chain_row (last (c :: l) c) c (c :: l) false).
    split; [exact He|]. split; [exact Hrow|].
    split; [reflexivity|]. split; [reflexivity|].
    cbn [Db.course_code Db.required_course_code visited existsb].
    rewrite String.eqb_refl. reflexivity.
Qed.

End CycleDetection.

Lemma on_cycle_course (E : list Db.prerequisite) (e : Db.prerequisite) :
  on_cycle E e -> In e E /\ course_on_cycle E (Db.course_code e).
Proof.
  intros [Hin Hr]. split; auto.
  exists (Db.required_course_code e). split; auto. destruct e; exact Hin.
Qed.

(** C5. Cycle detection is complete: the query returns a result for every
    prerequisite table, every edge lying on a directed cycle is in it, it is
    empty when the table has no cycle, and on the injected cycle
    A -> B -> C -> A all three edges are returned. *)
Theorem detect_circular_prerequisites_complete :
  (forall E, exists res,
      detect_circular_prerequisites E = Some res /\
      (forall e, on_cycle E e -> In e res) /\
      (acyclic E -> res = [])) /\
  (exists res,
      detect_circular_prerequisites abc_cycle = Some res /\
      In ("A" ~> "B") res /\ In ("B" ~> "C") res /\ In ("C" ~> "A") res).
Proof.
  split.
  - intros E. destruct (with_recursive_total E) as (rows & Hrows).
    exists (select_cycles rows).
    assert (detect_circular_prerequisites E = Some (select_cycles rows)) as Hrun.
    { unfold detect_circular_prerequisites. rewrite Hrows. reflexivity. }
    split; [exact Hrun|]. split.
    + intros e He. apply (detect_circular_prerequisites_spec E _ Hrun).
      apply on_cycle_course. exact He.
    + intros Hacyc. destruct (select_cycles rows) as [|e es] eqn:Hres; auto.
      exfalso.
      assert (In e (e :: es)) as Hin by (left; reflexivity).
      apply (detect_circular_prerequisites_spec E _ Hrun) in Hin.
      destruct Hin as [_ Hc]. exact (Hacyc _ Hc).
  - eexists. split; [vm_compute; reflexivity|]. simpl. tauto.
Qed.

(** The completeness theorem at the injected cycle: the edge A -> B lies on
    the cycle, so it is reported. *)
Lemma detect_circular_prerequisites_complete_witness :
  exists res,
    detect_circular_prerequisites abc_cycle = Some res /\ In ("A" ~> "B") res.
Proof.
  destruct (proj1 detect_circular_prerequisites_complete abc_cycle)
    as (res & Hrun & Hall & _).
  exists res. split; [exact Hrun|]. apply Hall. split.
  - simpl. auto.
  - simpl. eapply reaches_step; [right; left; reflexivity|].
    eapply reaches_step; [right; right; left; reflexivity|].
    apply reaches_refl.
Defined.

(** C1. On the table A -> B, B -> A, A -> C the query reports the edge
    A -> C, which lies on no directed cycle: C requires nothing, so nothing
    leads from C back to A. *)
Theorem detect_circular_prerequisites_false_positive :
  exists res,
    detect_circular_prerequisites ab_cycle_with_exit = Some res /\
    In ("A" ~> "C") res /\
    ~ on_cycle ab_cycle_with_exit ("A" ~> "C").
Proof.
  eexists. split; [vm_compute; reflexivity|].
  split; [simpl; tauto|].
  intros [_ Hr]. simpl in Hr. inversion Hr as [|a m b Hedge _]; subst.
  simpl in Hedge. destruct Hedge as [H|[H|[H|[]]]]; discriminate H.
Qed.

(** ** The completion auditor *)

Lemma has_completed_In (student_courses : list Db.student_course)
      (sid : Z) (code : string) :
  has_completed student_courses sid code = true <->
  In (Db.mk_student_course sid code) student_courses.
Proof.
  unfold has_completed. rewrite existsb_exists. split.
  - intros ([sid' code'] & Hin & Heq). simpl in Heq.
    apply andb_prop in Heq. destruct Heq as [H1 H2].
    apply Z.eqb_eq in H1. apply String.eqb_eq in H2. subst. exact Hin.
  - intros Hin. eexists. split; [exact Hin|]. simpl.
    rewrite Z.eqb_refl, String.eqb_refl. reflexivity.
Qed.


Section CompletionAudit.

Variable students : list Db.student.
Variable prereqs : list Db.prerequisite.

(** The [students] table is keyed by [id]. *)
Hypothesis students_key : NoDup (map Db.id students).





End CompletionAudit.




(** ** Strings *)

Module StrFacts.
Import Str.

Lemma isspace_upper_char (c : ascii) : isspace (upper_char c) = isspace c.
Proof. destruct c as [[] [] [] [] [] [] [] []]; reflexivity. Qed.

Lemma upper_char_idem (c : ascii) : upper_char (upper_char c) = upper_char c.
Proof. destruct c as [[] [] [] [] [] [] [] []]; reflexivity. Qed.

Lemma upper_idem (s : string) : upper (upper s) = upper s.
Proof.
  unfold upper. induction s as [|c s IH]; simpl; auto.
  rewrite upper_char_idem, IH. reflexivity.
Qed.

Section SpacePreserving.

Variable f : ascii -> ascii.
Hypothesis f_space : forall c, isspace (f c) = isspace c.

Lemma lstrip_map_chars (s : string) :
  lstrip (map_chars f s) = map_chars f (lstrip s).
Proof.
  induction s as [|c s IH]; simpl; auto.
  rewrite f_space. destruct (isspace c); auto.
Qed.

Lemma rstrip_map_chars (s : string) :
  rstrip (map_chars f s) = map_chars f (rstrip s).
Proof.
  induction s as [|c s IH]; simpl; auto.
  rewrite IH, f_space. destruct (rstrip s); simpl; auto.
  destruct (isspace c); reflexivity.
Qed.

Lemma strip_map_chars (s : string) :
  strip (map_chars f s) = map_chars f (strip s).
Proof.
  unfold strip. rewrite rstrip_map_chars, lstrip_map_chars. reflexivity.
Qed.

End SpacePreserving.

Lemma lstrip_idem (s : string) : lstrip (lstrip s) = lstrip s.
Proof.
  induction s as [|c s IH]; simpl; auto.
  destruct (isspace c) eqn:Hc; auto. simpl. rewrite Hc. reflexivity.
Qed.

Lemma rstrip_idem (s : string) : rstrip (rstrip s) = rstrip s.
Proof.
  induction s as [|c s IH]; simpl; auto.
  destruct (rstrip s) as [|d t] eqn:Hr.
  - destruct (isspace c) eqn:Hc; simpl; auto. rewrite Hc. reflexivity.
  - change (rstrip (String c (String d t)))
      with (match rstrip (String d t) with
            | EmptyString =>
                if isspace c then EmptyString else String c EmptyString
            | String d' t' => String c (String d' t')
            end).
    rewrite IH. reflexivity.
Qed.

(** Stripping on the left keeps a string free of trailing whitespace. *)
Lemma rstrip_lstrip (t : string) :
  rstrip t = t -> rstrip (lstrip t) = lstrip t.
Proof.
  induction t as [|c t IH]; intros Hfix; auto.
  simpl. destruct (isspace c) eqn:Hc; [|exact Hfix].
  apply IH. simpl in Hfix. rewrite Hc in Hfix.
  destruct (rstrip t) as [|d u]; [discriminate|].
  injection Hfix as <-. reflexivity.
Qed.

Lemma strip_idem (s : string) : strip (strip s) = strip s.
Proof.
  unfold strip. rewrite rstrip_lstrip by apply rstrip_idem.
  apply lstrip_idem.
Qed.

Lemma strip_upper (s : string) : strip (upper s) = upper (strip s).
Proof. apply strip_map_chars. exact isspace_upper_char. Qed.

(** A stripped and upper-cased string is left alone by another round. *)
Lemma upper_strip_idem (s : string) :
  upper (strip (upper (strip s))) = upper (strip s).
Proof. rewrite strip_upper, strip_idem, upper_idem. reflexivity. Qed.

End StrFacts.

(** ** Lists, cells and duplicate removal *)

Lemma cell_eqb_eq (a b : cell) : cell_eqb a b = true <-> a = b.
Proof.
  destruct a as [x|], b as [y|]; simpl; split; intros H;
    try discriminate; auto.
  - apply String.eqb_eq in H. congruence.
  - injection H as ->. apply String.eqb_refl.
Qed.

Lemma isin_In (values : list cell) (c : cell) :
  isin values c = true <-> In c values.
Proof.
  unfold isin. rewrite existsb_exists. split.
  - intros (v & Hv & Heq). apply cell_eqb_eq in Heq. subst. exact Hv.
  - intros Hin. exists c. split; auto. apply cell_eqb_eq. reflexivity.
Qed.

Lemma filter_all {A : Type} (f : A -> bool) (l : list A) :
  (forall x, In x l -> f x = true) -> filter f l = l.
Proof.
  induction l as [|x l IH]; intros Hall; simpl; auto.
  rewrite (Hall x) by (left; reflexivity). f_equal.
  apply IH. intros y Hy. apply Hall. right. exact Hy.
Qed.

Lemma map_fixed {A : Type} (f : A -> A) (l : list A) :
  (forall x, In x l -> f x = x) -> map f l = l.
Proof.
  induction l as [|x l IH]; intros Hall; simpl; auto.
  rewrite (Hall x) by (left; reflexivity). f_equal.
  apply IH. intros y Hy. apply Hall. right. exact Hy.
Qed.

Section DropDuplicates.

Context {R K : Type}.
Variable eqb : K -> K -> bool.
Variable key : R -> K.

Lemma drop_duplicates_from_In (l : list R) :
  forall seen r, In r (drop_duplicates_from eqb key seen l) -> In r l.
Proof.
  induction l as [|x l IH]; intros seen r Hin; simpl in *; auto.
  destruct (existsb (eqb (key x)) seen).
  - right. eapply IH. exact Hin.
  - destruct Hin as [Hin|Hin]; auto. right. eapply IH. exact Hin.
Qed.

Lemma existsb_incl (k : K) (seen' seen : list K) :
  incl seen' seen ->
  existsb (eqb k) seen = false -> existsb (eqb k) seen' = false.
Proof.
  intros Hincl Hf. apply not_true_is_false. intros Ht.
  apply existsb_exists in Ht. destruct Ht as (x & Hx & Heq).
  assert (existsb (eqb k) seen = true) as Habs.
  { apply existsb_exists. exists x. split; auto. }
  congruence.
Qed.

(** Rows that survived duplicate removal, filtered further, hold no
    duplicate: removing duplicates again gives them back. *)
Lemma drop_duplicates_from_filter (f : R -> bool) (l : list R) :
  forall seen seen', incl seen' seen ->
    drop_duplicates_from eqb key seen'
      (filter f (drop_duplicates_from eqb key seen l))
    = filter f (drop_duplicates_from eqb key seen l).
Proof.
  induction l as [|x l IH]; intros seen seen' Hincl; simpl; auto.
  destruct (existsb (eqb (key x)) seen) eqn:Hseen; [apply IH; exact Hincl|].
  simpl. destruct (f x).
  - simpl. rewrite (existsb_incl _ _ _ Hincl Hseen). f_equal.
    apply IH. intros k [<-|Hk]; [left; reflexivity|right; apply Hincl; exact Hk].
  - apply IH. intros k Hk. right. apply Hincl. exact Hk.
Qed.

Lemma drop_duplicates_filter (f : R -> bool) (l : list R) :
  drop_duplicates eqb key (filter f (drop_duplicates eqb key l))
  = filter f (drop_duplicates eqb key l).
Proof.
  unfold drop_duplicates. apply drop_duplicates_from_filter.
  apply incl_refl.
Qed.

End DropDuplicates.

Lemma filter_fuse {A : Type} (f g : A -> bool) (l : list A) :
  filter g (filter f l) = filter (fun x => f x && g x) l.
Proof.
  induction l as [|x l IH]; simpl; auto.
  destruct (f x); simpl; [destruct (g x)|]; rewrite IH; reflexivity.
Qed.

(** ** The cleaning steps, run a second time *)

Section CleanTwice.

Context {R K : Type}.
Variable notnull : R -> bool.
Variable norm : R -> R.
Variable eqb : K -> K -> bool.
Variable key : R -> K.
Variable keep : R -> bool.

Hypothesis norm_notnull : forall r, notnull r = true -> notnull (norm r) = true.
Hypothesis norm_fixed :
  forall r, notnull r = true -> keep (norm r) = true ->
            norm (norm r) = norm r.

Lemma clean_In (l : list R) (r : R) :
  In r (clean notnull norm eqb key keep l) ->
  exists r0, notnull r0 = true /\ r = norm r0 /\ keep r = true.
Proof.
  unfold clean. intros Hin. apply filter_In in Hin. destruct Hin as [Hin Hk].
  apply drop_duplicates_from_In in Hin. apply in_map_iff in Hin.
  destruct Hin as (r0 & <- & Hr0). apply filter_In in Hr0.
  exists r0. tauto.
Qed.

Lemma clean_idem (l : list R) : clean notnull norm eqb key keep (clean notnull norm eqb key keep l) = clean notnull norm eqb key keep l.
Proof.
  assert (filter notnull (clean notnull norm eqb key keep l) = clean notnull norm eqb key keep l) as H1.
  { apply filter_all. intros r Hr. apply clean_In in Hr.
    destruct Hr as (r0 & Hn & -> & _). apply norm_notnull. exact Hn. }
  assert (map norm (clean notnull norm eqb key keep l) = clean notnull norm eqb key keep l) as H2.
  { apply map_fixed. intros r Hr. apply clean_In in Hr.
    destruct Hr as (r0 & Hn & -> & Hk). apply norm_fixed; assumption. }
  unfold clean at 1. rewrite H1, H2. unfold clean.
  rewrite drop_duplicates_filter. rewrite filter_fuse.
  apply filter_ext. intros r. destruct (keep r); reflexivity.
Qed.

End CleanTwice.

(** ** The normaliser *)

Lemma bind_Return {A B : Type} (m : result A) (k : A -> result B) (b : B) :
  bind m k = Return b -> exists a, m = Return a /\ k a = Return b.
Proof. destruct m as [a|e]; simpl; intros H; [eauto|discriminate]. Qed.

Lemma dropna_Return {R : Type} (subset : list string) (notnull : R -> bool)
      (df out : DataFrame R) :
  dropna subset notnull df = Return out <->
  missing_labels df subset = [] /\
  out = mk_frame (columns df) (filter notnull (rows df)).
Proof.
  unfold dropna. destruct (missing_labels df subset); split.
  - intros H. injection H as <-. auto.
  - intros [_ ->]. reflexivity.
  - discriminate.
  - intros [H _]. discriminate.
Qed.

Lemma missing_labels_columns {R : Type} (a b : DataFrame R)
      (subset : list string) :
  columns a = columns b -> missing_labels a subset = missing_labels b subset.
Proof.
  intros Hcols. unfold missing_labels, has_column. rewrite Hcols. reflexivity.
Qed.

Lemma preprocess_courses_Return (df out : DataFrame Course.row) :
  preprocess_courses df = Return out <->
  missing_labels df courses_required = [] /\
  out = mk_frame (columns df) (clean_courses (rows df)).
Proof.
  unfold preprocess_courses, clean_courses, clean, course_keep.
  rewrite <- filter_fuse. split.
  - intros H. apply bind_Return in H. destruct H as (df' & Hdrop & Hret).
    apply dropna_Return in Hdrop. destruct Hdrop as [Hmiss ->].
    injection Hret as <-. auto.
  - intros [Hmiss ->].
    assert (dropna courses_required course_notnull df
            = Return (mk_frame (columns df) (filter course_notnull (rows df))))
      as -> by (apply dropna_Return; auto).
    reflexivity.
Qed.

Lemma preprocess_prerequisites_Return (df out : DataFrame Prereq.row)
      (valid_course_codes : list cell) :
  preprocess_prerequisites df valid_course_codes = Return out <->
  missing_labels df prereq_required = [] /\
  out = mk_frame (columns df) (clean_prereqs valid_course_codes (rows df)).
Proof.
  unfold preprocess_prerequisites, clean_prereqs, clean, prereq_keep. split.
  - intros H. apply bind_Return in H. destruct H as (df' & Hdrop & Hret).
    apply dropna_Return in Hdrop. destruct Hdrop as [Hmiss ->].
    injection Hret as <-. auto.
  - intros [Hmiss ->].
    assert (dropna prereq_required prereq_notnull df
            = Return (mk_frame (columns df) (filter prereq_notnull (rows df))))
      as -> by (apply dropna_Return; auto).
    reflexivity.
Qed.

Lemma normalise_course_notnull (r : Course.row) :
  course_notnull r = true -> course_notnull (normalise_course r) = true.
Proof.
  destruct r as [[?|] [?|] [?|] [?|] [?|]]; simpl; auto.
Qed.

Lemma valid_course_type_fixed (t : string) :
  isin VALID_COURSE_TYPES (Some t) = true -> Str.title (Str.strip t) = t.
Proof.
  intros H. apply isin_In in H.
  destruct H as [H|[H|[]]]; injection H as <-; reflexivity.
Qed.

Lemma normalise_course_fixed (r : Course.row) :
  course_notnull r = true -> course_keep (normalise_course r) = true ->
  normalise_course (normalise_course r) = normalise_course r.
Proof.
  destruct r as [[code|] [name|] [cr|] [prog|] [ty|]]; simpl;
    try discriminate.
  intros _ Hkeep. unfold course_keep in Hkeep. simpl in Hkeep.
  apply andb_prop in Hkeep. destruct Hkeep as [_ Hty].
  unfold normalise_course. simpl.
  rewrite !StrFacts.upper_strip_idem, StrFacts.strip_idem.
  rewrite (valid_course_type_fixed _ Hty). reflexivity.
Qed.

Lemma normalise_prereq_notnull (r : Prereq.row) :
  prereq_notnull r = true -> prereq_notnull (normalise_prereq r) = true.
Proof. destruct r as [[?|] [?|]]; simpl; auto. Qed.

Lemma normalise_prereq_fixed (r : Prereq.row) :
  normalise_prereq (normalise_prereq r) = normalise_prereq r.
Proof.
  destruct r as [[a|] [b|]]; unfold normalise_prereq; simpl;
    rewrite ?StrFacts.upper_strip_idem; reflexivity.
Qed.

Lemma preprocess_courses_idem (df out : DataFrame Course.row) :
  preprocess_courses df = Return out -> preprocess_courses out = Return out.
Proof.
  intros H. apply preprocess_courses_Return in H. destruct H as [Hmiss ->].
  apply preprocess_courses_Return. split.
  - rewrite <- Hmiss. apply missing_labels_columns. reflexivity.
  - simpl. f_equal. symmetry. apply clean_idem.
    + exact normalise_course_notnull.
    + exact normalise_course_fixed.
Qed.

Lemma preprocess_prerequisites_idem (df out : DataFrame Prereq.row)
      (valid_course_codes : list cell) :
  preprocess_prerequisites df valid_course_codes = Return out ->
  preprocess_prerequisites out valid_course_codes = Return out.
Proof.
  intros H. apply preprocess_prerequisites_Return in H.
  destruct H as [Hmiss ->].
  apply preprocess_prerequisites_Return. split.
  - rewrite <- Hmiss. apply missing_labels_columns. reflexivity.
  - simpl. f_equal. symmetry. apply clean_idem.
    + exact normalise_prereq_notnull.
    + intros r _ _. apply normalise_prereq_fixed.
Qed.

Lemma preprocess_data_Return (raw out : dataset) :
  preprocess_data raw = Return out ->
  preprocess_courses (courses raw) = Return (courses out) /\
  has_column (courses out) "course_code" = true /\
  preprocess_prerequisites (prerequisites raw)
      (map Course.course_code (rows (courses out)))
    = Return (prerequisites out).
Proof.
  unfold preprocess_data. intros H.
  apply bind_Return in H. destruct H as (cs & Hcs & H).
  apply bind_Return in H. destruct H as (codes & Hcodes & H).
  apply bind_Return in H. destruct H as (ps & Hps & H).
  injection H as <-. simpl.
  unfold getitem in Hcodes.
  destruct (has_column cs "course_code"); [|discriminate].
  injection Hcodes as <-. auto.
Qed.

(** C6. Normalisation is idempotent: whenever a normaliser returns a frame,
    running it again on that frame returns the same frame, row for row and
    field for field; this holds for [preprocess_courses], for
    [preprocess_prerequisites] against the same course codes, and for
    [preprocess_data]. *)
Theorem normalisation_idempotent :
  (forall df out,
      preprocess_courses df = Return out ->
      preprocess_courses out = Return out) /\
  (forall df valid_course_codes out,
      preprocess_prerequisites df valid_course_codes = Return out ->
      preprocess_prerequisites out valid_course_codes = Return out) /\
  (forall raw out,
      preprocess_data raw = Return out -> preprocess_data out = Return out).
Proof.
  split; [exact preprocess_courses_idem|].
  split; [intros df codes out; apply preprocess_prerequisites_idem|].
  intros raw out H. apply preprocess_data_Return in H.
  destruct H as (Hcs & Hcol & Hps).
  unfold preprocess_data.
  rewrite (preprocess_courses_idem _ _ Hcs). simpl.
  unfold getitem. rewrite Hcol. simpl.
  rewrite (preprocess_prerequisites_idem _ _ _ Hps). simpl.
  destruct out; reflexivity.
Qed.

(** The idempotence theorem at the untidy sample tables. *)
Lemma normalisation_idempotent_witness :
  exists out,
    preprocess_data untidy = Return out /\
    rows (courses out) = [course "IE6400" "Foundations" 4 "MS_DAE" "Core";
                          course "IE7275" "Data Mining" 4 "MS_DAE" "Elective"] /\
    preprocess_data out = Return out.
Proof.
  eexists. split; [vm_compute; reflexivity|]. split; [reflexivity|].
  apply (proj2 (proj2 normalisation_idempotent) untidy).
  vm_compute. reflexivity.
Defined.

(** C7. Referential closure: both endpoints of every prerequisite row that
    [preprocess_data] returns are course codes of the courses it returns. *)
Theorem preprocess_data_referential_closure (raw out : dataset) :
  preprocess_data raw = Return out ->
  forall e, In e (rows (prerequisites out)) ->
    (exists c, In c (rows (courses out)) /\
               Course.course_code c = Prereq.course_code e) /\
    (exists c, In c (rows (courses out)) /\
               Course.course_code c = Prereq.required_course_code e).
Proof.
  intros H e He. apply preprocess_data_Return in H.
  destruct H as (_ & _ & Hps).
  apply preprocess_prerequisites_Return in Hps. destruct Hps as [_ Hout].
  rewrite Hout in He. simpl in He. apply clean_In in He.
  destruct He as (_ & _ & _ & Hkeep). unfold prereq_keep in Hkeep.
  apply andb_prop in Hkeep. destruct Hkeep as [H1 H2].
  apply isin_In in H1, H2. apply in_map_iff in H1, H2.
  destruct H1 as (c1 & Hc1 & Hin1). destruct H2 as (c2 & Hc2 & Hin2).
  split; [exists c1|exists c2]; auto.
Qed.

(** The closure theorem at the untidy sample tables: the one edge kept joins
    two kept courses. *)
Lemma preprocess_data_referential_closure_witness :
  exists out,
    preprocess_data untidy = Return out /\
    rows (prerequisites out) = [Prereq.mk (Some "IE7275") (Some "IE6400")] /\
    exists c, In c (rows (courses out)) /\
              Course.course_code c = Some "IE7275".
Proof.
  eexists. split; [vm_compute; reflexivity|]. split; [reflexivity|].
  refine (proj1 (preprocess_data_referential_closure untidy _ _
                   (Prereq.mk (Some "IE7275") (Some "IE6400")) _)).
  - vm_compute. reflexivity.
  - left. reflexivity.
Defined.

(** C10. Duplicate removal runs before the validity filters: in the sample
    frame the first row of course IE6400 names an unknown program and the
    second row is clean on its own, yet no row of IE6400 is returned. *)
Theorem preprocess_courses_shadowed_duplicate :
  exists (df : DataFrame Course.row) (first later : Course.row) (code : string),
    rows df = [first; later] /\
    Course.course_code first = Some code /\
    Course.course_code later = Some code /\
    isin VALID_PROGRAM_CODES (Course.program_code first) = false /\
    preprocess_courses (mk_frame (columns df) [later])
      = Return (mk_frame (columns df) [later]) /\
    exists out,
      preprocess_courses df = Return out /\
      forall r, In r (rows out) -> Course.course_code r <> Some code.
Proof.
  exists shadowed_courses, shadowed_first, shadowed_later, "IE6400".
  repeat split.
  exists (mk_frame courses_required []). split; [reflexivity|].
  intros r [].
Qed.

(** ** The validator *)

Lemma missing_none_has_column {R : Type} (df : DataFrame R)
      (subset : list string) (label : string) :
  missing_labels df subset = [] -> In label subset ->
  has_column df label = true.
Proof.
  unfold missing_labels. intros Hnil Hin.
  destruct (has_column df label) eqn:Hc; auto.
  assert (In label (filter (fun l => negb (has_column df l)) subset)) as Habs.
  { apply filter_In. rewrite Hc. auto. }
  rewrite Hnil in Habs. destruct Habs.
Qed.

Lemma nonempty_false {A : Type} (l : list A) : nonempty l = false -> l = [].
Proof. destruct l; simpl; [auto|discriminate]. Qed.

Lemma nonempty_true {A : Type} (l : list A) : l <> [] -> nonempty l = true.
Proof. destruct l; simpl; [congruence|auto]. Qed.

(** When the validators report nothing, every column the statistics read is
    there. *)
Lemma validate_courses_nil_columns (df : DataFrame Course.row) :
  validate_courses df = Return [] ->
  missing_labels df courses_required = [].
Proof.
  unfold validate_courses.
  remember (missing_labels df courses_required) as missing_cols eqn:Hm.
  clear Hm. intros H.
  apply bind_Return in H. destruct H as (? & _ & H).
  apply bind_Return in H. destruct H as (? & _ & H).
  apply bind_Return in H. destruct H as (? & _ & H).
  apply bind_Return in H. destruct H as (? & _ & H).
  injection H as H. apply app_eq_nil in H. destruct H as [H _].
  destruct missing_cols; [reflexivity|discriminate H].
Qed.

Lemma validate_prerequisites_nil_columns (df : DataFrame Prereq.row)
      (valid_codes : list cell) :
  validate_prerequisites df valid_codes = Return [] ->
  missing_labels df prereq_required = [] /\
  filter (prereq_isnull "required_course_code") (rows df) = [].
Proof.
  unfold validate_prerequisites. intros H.
  destruct (missing_labels df prereq_required); [|simpl in H; discriminate].
  split; [reflexivity|]. simpl in H. injection H as H.
  apply app_eq_nil in H. destruct H as [H _].
  unfold null_violations, prereq_required in H. cbn [flat_map] in H.
  apply app_eq_nil in H. destruct H as [_ H].
  apply app_eq_nil in H. destruct H as [H _].
  destruct (filter (prereq_isnull "required_course_code") (rows df));
    [reflexivity|discriminate H].
Qed.

Lemma idxmax_nonempty (counts : list (string * nat)) :
  counts <> [] -> exists s, idxmax counts = Some s.
Proof.
  induction counts as [|[s n] rest IH]; intros Hne; [congruence|].
  simpl. destruct (forallb (fun e => Nat.leb (snd e) n) rest) eqn:Hall; eauto.
  apply IH. intros ->. discriminate Hall.
Qed.

Lemma generate_statistics_returns (now : string) (cleaned : dataset) :
  missing_labels (courses cleaned) courses_required = [] ->
  missing_labels (prerequisites cleaned) prereq_required = [] ->
  filter (prereq_isnull "required_course_code")
         (rows (prerequisites cleaned)) = [] ->
  exists stats, generate_statistics now cleaned = Return stats.
Proof.
  intros Hc Hp Hnull. unfold generate_statistics, getitem.
  rewrite !(missing_none_has_column _ _ _ Hc) by (simpl; tauto).
  rewrite !(missing_none_has_column _ _ _ Hp) by (simpl; tauto).
  cbn [bind].
  destruct (rows (prerequisites cleaned)) as [|r rest] eqn:Hrows;
    cbn [nonempty bind]; [eauto|].
  destruct (idxmax_nonempty
              (value_counts (map Prereq.required_course_code (r :: rest))))
    as (s & ->); [|cbn [bind]; eauto].
  simpl in Hnull.
  destruct (Prereq.required_course_code r) as [code|] eqn:Hreq;
    [|unfold prereq_isnull in Hnull; simpl in Hnull; rewrite Hreq in Hnull;
      discriminate Hnull].
  cbn [map]. rewrite Hreq. unfold value_counts, unique, drop_duplicates.
  cbn [drop_duplicates_from existsb flat_map app]. discriminate.
Qed.

(** With its five columns present [validate_courses] runs every check and
    returns. *)
Lemma validate_courses_returns (df : DataFrame Course.row) :
  missing_labels df courses_required = [] ->
  exists violations, validate_courses df = Return violations.
Proof.
  intros Hc. unfold validate_courses, getitem.
  rewrite !(missing_none_has_column _ _ _ Hc) by (simpl; tauto).
  cbn [bind]. eauto.
Qed.

Lemma validate_prerequisites_returns (df : DataFrame Prereq.row)
      (valid_codes : list cell) :
  exists violations, validate_prerequisites df valid_codes = Return violations.
Proof.
  unfold validate_prerequisites.
  destruct (nonempty (missing_labels df prereq_required)); eauto.
Qed.

(** C3. On a courses frame that lacks the [course_code] column,
    [validate_courses] records nothing for the caller: reading the column
    raises [KeyError].  [validate_prerequisites] returns the
    [required_columns] violation on the like frame. *)
Theorem validate_courses_missing_column_raises :
  validate_courses courses_without_code = Raise (KeyError ["course_code"]) /\
  validate_prerequisites prereqs_without_code []
    = Return [required_columns ["course_code"]].
Proof. split; reflexivity. Qed.

(** C4. [validate_data] raises [ValueError] with the number of violations
    when the two validators together report any, and returns the statistics
    report when they report none. *)
Theorem validate_data_raises_on_violations
    (now : string) (cleaned : dataset)
    (course_violations prereq_violations : list violation) :
  validate_courses (courses cleaned) = Return course_violations ->
  validate_prerequisites (prerequisites cleaned)
      (map Course.course_code (rows (courses cleaned)))
    = Return prereq_violations ->
  (course_violations ++ prereq_violations <> [] ->
   validate_data now cleaned
     = Raise (ValueError (validation_failed
         (List.length (course_violations ++ prereq_violations))))) /\
  (course_violations ++ prereq_violations = [] ->
   exists stats, validate_data now cleaned = Return stats).
Proof.
  intros Hcv Hpv.
  assert (has_column (courses cleaned) "course_code" = true) as Hcol.
  { unfold validate_courses in Hcv.
    apply bind_Return in Hcv. destruct Hcv as (? & Hget & _).
    unfold getitem in Hget.
    destruct (has_column (courses cleaned) "course_code"); [auto|discriminate]. }
  unfold validate_data, getitem. rewrite Hcol. simpl.
  rewrite Hcv. simpl. rewrite Hpv. simpl. split.
  - intros Hne. rewrite (nonempty_true _ Hne). reflexivity.
  - intros Hnil. rewrite Hnil. simpl.
    apply app_eq_nil in Hnil. destruct Hnil as [-> ->].
    destruct (validate_prerequisites_nil_columns _ _ Hpv) as [Hcols Hnull].
    apply generate_statistics_returns; auto.
    apply validate_courses_nil_columns. exact Hcv.
Qed.

(** The theorem at the tables with a repeated course code. *)
Lemma validate_data_raises_on_violations_witness :
  validate_data "2026-01-28" duplicated
    = Raise (ValueError (validation_failed 1)).
Proof.
  refine (proj1 (validate_data_raises_on_violations "2026-01-28" duplicated
                   [unique_course_code 1] [] _ _) _).
  - reflexivity.
  - reflexivity.
  - discriminate.
Defined.

(** C4, as claimed: on the tables with a repeated course code the caller
    gets no value back, it gets a [ValueError]. *)
Lemma validate_data_raises_counterexample :
  validate_courses (courses duplicated) = Return [unique_course_code 1] /\
  validate_data "2026-01-28" duplicated
    = Raise (ValueError (validation_failed 1)) /\
  ~ exists stats, validate_data "2026-01-28" duplicated = Return stats.
Proof.
  split; [reflexivity|]. split; [reflexivity|].
  intros (stats & H). discriminate H.
Qed.

(** ** The fairness analysis *)

Lemma Qltb_lt (x y : Q) : Qltb x y = true <-> (x < y)%Q.
Proof.
  unfold Qltb. rewrite negb_true_iff. split.
  - intros H. apply Qnot_le_lt. intros Hle.
    apply Qle_bool_iff in Hle. congruence.
  - intros H. apply not_true_is_false. intros Hle.
    apply Qle_bool_iff in Hle. apply (Qlt_not_le _ _ H). exact Hle.
Qed.

Lemma round_half_even_bound (x : Q) :
  (Qabs (inject_Z (round_half_even x) - x) <= 1 # 2)%Q.
Proof.
  destruct x as [n d]. unfold round_half_even.
  cbn [Qnum Qden].
  pose proof (Z.div_mod n (Zpos d) ltac:(lia)) as Hdm.
  pose proof (Z.mod_pos_bound n (Zpos d) ltac:(lia)) as Hr.
  set (q := (n / Zpos d)%Z) in *. set (r := (n mod Zpos d)%Z) in *.
  apply Qabs_Qle_condition.
  destruct (Z.ltb_spec (2 * r) (Zpos d)) as [H1|H1];
    [|destruct (Z.ltb_spec (Zpos d) (2 * r)) as [H2|H2];
      [|destruct (Z.even q)]];
    unfold Qle, Qminus, Qplus, Qopp, inject_Z; cbn [Qnum Qden];
    split; nia.
Qed.

(** *** Rounding to the nearest float *)

Lemma to_float_comp (x y : Q) : (x == y)%Q -> to_float x = to_float y.
Proof.
  intros H. unfold to_float. rewrite (Qred_complete x y H). reflexivity.
Qed.

Lemma to_float_0 (x : Q) : (x == 0)%Q -> to_float x = 0%Q.
Proof. intros H. rewrite (to_float_comp x 0 H). reflexivity. Qed.

Lemma two_power_pos (e : Z) : (0 < 2 ^ e)%Q.
Proof. apply Qpower_0_lt. reflexivity. Qed.

Lemma Qlog2_le (x : Q) : (0 < x)%Q -> (2 ^ Qlog2 x <= x)%Q.
Proof.
  intros Hx. unfold Qlog2.
  set (l := (Z.log2 (Qnum x) - Z.log2 (Zpos (Qden x)))%Z).
  destruct (Qle_bool (2 ^ l) x) eqn:Hle; [apply Qle_bool_iff; exact Hle|].
  destruct x as [n d]. cbn [Qnum Qden] in l.
  assert (0 < n)%Z as Hn by (unfold Qlt in Hx; simpl in Hx; lia).
  pose proof (Z.log2_spec n Hn) as [Hlo _].
  pose proof (Z.log2_spec (Zpos d) ltac:(lia)) as [_ Hhi].
  pose proof (Z.log2_nonneg n) as Ha.
  pose proof (Z.log2_nonneg (Zpos d)) as Hb.
  set (a := Z.log2 n) in *. set (b := Z.log2 (Zpos d)) in *.
  replace (l - 1)%Z with (a - Z.succ b)%Z by (unfold l; lia).
  rewrite Qpower_minus by discriminate.
  change 2%Q with (inject_Z 2).
  rewrite <- !Zpower_Qpower by lia.
  assert (0 < 2 ^ Z.succ b)%Z as Hpos by (apply Z.pow_pos_nonneg; lia).
  apply Qle_shift_div_r.
  - unfold Qlt, inject_Z. simpl. lia.
  - unfold Qle, Qmult, inject_Z. cbn [Qnum Qden]. nia.
Qed.

Lemma Qlog2_lt (x : Q) (l : Z) :
  (0 < x)%Q -> (x < 2 ^ (l + 1))%Q -> (Qlog2 x <= l)%Z.
Proof.
  intros Hx Hlt.
  assert (Qlog2 x < l + 1)%Z; [|lia].
  apply (Qpower_lt_compat_l_inv 2); [|reflexivity].
  apply Qle_lt_trans with x; [apply Qlog2_le; exact Hx|exact Hlt].
Qed.

(** Rounding moves a number below [2 ^ (l + 1)] in magnitude by at most half
    a unit in the last place, [2 ^ (l - 53)]. *)
Lemma to_float_error (x : Q) (l : Z) :
  (-1022 <= l)%Z -> (Qabs x < 2 ^ (l + 1))%Q ->
  (Qabs (to_float x - x) <= 2 ^ (l - 53))%Q.
Proof.
  intros Hl Hx. unfold to_float.
  pose proof (Qred_correct x) as Hred.
  set (y := Qred x) in *.
  destruct (Qeq_bool y 0) eqn:Hz.
  - apply Qeq_bool_iff in Hz.
    assert (0 - x == 0)%Q as -> by (rewrite <- Hred, Hz; reflexivity).
    apply Qlt_le_weak. apply two_power_pos.
  - assert (~ y == 0)%Q as Hy.
    { intros H. apply Qeq_bool_iff in H. congruence. }
    assert (0 < Qabs y)%Q as Hpos.
    { destruct (Qle_lt_or_eq 0 (Qabs y) (Qabs_nonneg y)) as [H|H]; auto.
      exfalso. apply Hy.
      pose proof (Qabs_Qle_condition y 0) as [Hc _].
      destruct Hc as [H1 H2]; [rewrite <- H; apply Qle_refl|].
      apply Qle_antisym; [exact H2|exact H1]. }
    set (e := Z.max (Qlog2 (Qabs y) - 52) (-1074)).
    assert (e <= l - 52)%Z as He.
    { assert (Qlog2 (Qabs y) <= l)%Z; [|unfold e; lia].
      apply Qlog2_lt; [exact Hpos|]. rewrite Hred. exact Hx. }
    rewrite Qred_correct.
    pose proof (round_half_even_bound (y / 2 ^ e)) as Hb.
    set (m := inject_Z (round_half_even (y / 2 ^ e))) in *.
    pose proof (two_power_pos e) as Hp.
    assert (m * 2 ^ e - x == (m - y / 2 ^ e) * 2 ^ e)%Q as ->.
    { rewrite <- Hred. field. intros H. rewrite H in Hp. discriminate Hp. }
    rewrite Qabs_Qmult, (Qabs_pos (2 ^ e)) by (apply Qlt_le_weak; exact Hp).
    apply Qle_trans with ((1 # 2) * 2 ^ e)%Q.
    + apply Qmult_le_compat_r; [exact Hb|apply Qlt_le_weak; exact Hp].
    + replace (l - 53)%Z with ((l - 52) + (-1))%Z by lia.
      rewrite Qpower_plus by discriminate.
      change (2 ^ (-1))%Q with (1 # 2)%Q.
      rewrite (Qmult_comm (2 ^ (l - 52))).
      apply Qmult_le_l; [reflexivity|].
      apply Qpower_le_compat_l; [exact He|discriminate].
Qed.

(** The floats the program computes at some inputs: the percentage of 23
    courses of 160 is 14.37 although 100 * 23 / 160 is 14.375, a program
    with 1999 courses of 20000 is recorded at 9.99, [round(1.075, 2)] is
    1.07, and [2.14 - 1.14] exceeds 1.0. *)
Example coverage_percentage_23_of_160 :
  coverage_percentage 23 160 = to_float (1437 # 100).
Proof. vm_compute. reflexivity. Qed.

Example coverage_percentage_1999_of_20000 :
  coverage_percentage 1999 (20 * 1000) = to_float (999 # 100).
Proof. vm_compute. reflexivity. Qed.

Example round2_1075 : round2 (to_float (1075 # 1000)) = to_float (107 # 100).
Proof. vm_compute. reflexivity. Qed.

Example credit_flags_214_114 :
  credit_flags [to_float (214 # 100); to_float (114 # 100)]
  = [CREDIT_IMBALANCE (to_float (114 # 100)) (to_float (214 # 100))].
Proof. vm_compute. reflexivity. Qed.

(** *** The coverage percentage *)

Lemma count_of_le_length (v : cell) (l : list cell) :
  count_of v l <= List.length l.
Proof. unfold count_of. apply filter_length_le. Qed.

Lemma coverage_percentage_zero (total_courses : nat) :
  coverage_percentage 0 total_courses = 0%Q.
Proof.
  unfold coverage_percentage.
  destruct (Nat.eqb total_courses 0); [reflexivity|].
  cbn [Z.of_nat].
  rewrite (to_float_0 (inject_Z 0 / inject_Z (Z.of_nat total_courses)))
    by (unfold Qdiv; apply Qmult_0_l).
  reflexivity.
Qed.

Lemma ratio_bounds (count total_courses : nat) :
  0 < total_courses -> count <= total_courses ->
  (0 <= inject_Z (Z.of_nat count) / inject_Z (Z.of_nat total_courses) <= 1)%Q.
Proof.
  intros Hpos Hle.
  assert (0 < inject_Z (Z.of_nat total_courses))%Q as Ht
    by (unfold Qlt, inject_Z; simpl; lia).
  split.
  - apply Qle_shift_div_l; [exact Ht|].
    rewrite Qmult_0_l. rewrite <- (Zle_Qle 0). lia.
  - apply Qle_shift_div_r; [exact Ht|].
    rewrite Qmult_1_l. rewrite <- Zle_Qle. lia.
Qed.

(** The percentage is the float nearest to [k] hundredths, where [k]
    hundredths is within 0.005 of the product computed, itself within
    [2 ^ -46] of 100 * count / total_courses. *)
Lemma coverage_percentage_bound (count total_courses : nat) :
  0 < total_courses -> count <= total_courses ->
  exists k : Z,
    coverage_percentage count total_courses = to_float (k # 100) /\
    (Qabs ((k # 100)
           - 100 * inject_Z (Z.of_nat count) / inject_Z (Z.of_nat total_courses))
     <= (1 # 200) + (1 # 35184372088832))%Q /\
    (Qabs (coverage_percentage count total_courses
           - 100 * inject_Z (Z.of_nat count) / inject_Z (Z.of_nat total_courses))
     <= (1 # 200) + (1 # 17592186044416))%Q.
Proof.
  intros Hpos Hle. unfold coverage_percentage.
  destruct (Nat.eqb_spec total_courses 0) as [Hz|_]; [lia|].
  pose proof (ratio_bounds count total_courses Hpos Hle) as Hq.
  assert (100 * inject_Z (Z.of_nat count) / inject_Z (Z.of_nat total_courses)
          == 100 * (inject_Z (Z.of_nat count)
                    / inject_Z (Z.of_nat total_courses)))%Q as Hexact.
  { field. unfold Qeq, inject_Z. simpl. lia. }
  setoid_rewrite Hexact.
  set (q := (inject_Z (Z.of_nat count) / inject_Z (Z.of_nat total_courses))%Q)
    in *.
  clearbody q. destruct Hq as [Hq0 Hq1].
  pose proof (to_float_error q 0 ltac:(lia)) as H1.
  change (2 ^ (0 + 1))%Q with 2%Q in H1.
  change (2 ^ (0 - 53))%Q with (1 # 9007199254740992)%Q in H1.
  assert (Qabs q < 2)%Q as Hq2.
  { apply Qabs_Qlt_condition. split; lra. }
  specialize (H1 Hq2). apply Qabs_Qle_condition in H1.
  set (v1 := to_float q) in *. clearbody v1.
  pose proof (to_float_error (v1 * 100) 6 ltac:(lia)) as H2.
  change (2 ^ (6 + 1))%Q with 128%Q in H2.
  change (2 ^ (6 - 53))%Q with (1 # 140737488355328)%Q in H2.
  assert (Qabs (v1 * 100) < 128)%Q as Hv1.
  { apply Qabs_Qlt_condition. split; lra. }
  specialize (H2 Hv1). apply Qabs_Qle_condition in H2.
  set (v2 := to_float (v1 * 100)) in *. clearbody v2.
  unfold round2.
  pose proof (round_half_even_bound (v2 * 100)) as H3.
  set (k := round_half_even (v2 * 100)) in *. clearbody k.
  apply Qabs_Qle_condition in H3.
  exists k. split; [reflexivity|].
  assert ((k # 100) == inject_Z k * (1 # 100))%Q as Hk.
  { rewrite (Qmake_Qdiv k 100). reflexivity. }
  pose proof (to_float_error (k # 100) 6 ltac:(lia)) as H4.
  change (2 ^ (6 + 1))%Q with 128%Q in H4.
  change (2 ^ (6 - 53))%Q with (1 # 140737488355328)%Q in H4.
  assert (Qabs (k # 100) < 128)%Q as Hk2.
  { apply Qabs_Qlt_condition. rewrite Hk. split; lra. }
  specialize (H4 Hk2). apply Qabs_Qle_condition in H4.
  set (p := to_float (k # 100)) in *. clearbody p.
  rewrite Hk in *. generalize dependent (inject_Z k). intros z H3 H4.
  split; apply Qabs_Qle_condition; split; lra.
Qed.

Lemma in_credit_flags (f : bias_flag) (avg_values : list Q) :
  In f (credit_flags avg_values) -> exists lo hi, f = CREDIT_IMBALANCE lo hi.
Proof.
  unfold credit_flags. destruct avg_values as [|v vs]; [intros []|].
  destruct (Qltb _ _); [|intros []].
  intros [<-|[]]. eauto.
Qed.

Lemma in_coverage_flags (f : bias_flag) (program : string) (c : coverage) :
  In f (coverage_flags program c) <->
  (Qltb (percentage c) 10 = true /\
   f = LOW_COVERAGE program (percentage c) (count c)) \/
  (count c = 0 /\ f = MISSING_PROGRAM program).
Proof.
  unfold coverage_flags. rewrite in_app_iff.
  destruct (Qltb (percentage c) 10); destruct (Nat.eqb_spec (count c) 0);
    simpl; split; intros H; intuition (try discriminate; try congruence; auto).
Qed.

Section BiasRun.

Variable now : string.
Variable df : DataFrame Course.row.
Variable report : bias_report.
Hypothesis run : task_bias_detection now df = Return report.

Lemma report_coverage : program_coverage report = map (coverage_entry df) expected_programs.
Proof.
  unfold task_bias_detection, getitem in run.
  destruct (has_column df "program_code"); [|discriminate].
  cbn [bind] in run. apply bind_Return in run.
  destruct run as (cd & _ & Hret). injection Hret as <-. reflexivity.
Qed.

Lemma report_flags :
  exists avg_values,
    bias_flags report
    = flat_map (fun e => coverage_flags (fst e) (snd e))
               (map (coverage_entry df) expected_programs)
      ++ credit_flags avg_values.
Proof.
  unfold task_bias_detection, getitem in run.
  destruct (has_column df "program_code"); [|discriminate].
  cbn [bind] in run. apply bind_Return in run.
  destruct run as (cd & _ & Hret). injection Hret as <-.
  eexists. reflexivity.
Qed.

Lemma in_report_flags (f : bias_flag) :
  In f (bias_flags report) <->
  (exists program, In program expected_programs /\
                   In f (coverage_flags program (snd (coverage_entry df program)))) \/
  (exists avg_values, bias_flags report
      = flat_map (fun e => coverage_flags (fst e) (snd e))
                 (map (coverage_entry df) expected_programs)
        ++ credit_flags avg_values /\
      In f (credit_flags avg_values)).
Proof.
  destruct report_flags as (avgs & Hflags). split.
  - intros Hin. rewrite Hflags in Hin. apply in_app_or in Hin.
    destruct Hin as [Hin|Hin].
    + left. apply in_flat_map in Hin. destruct Hin as (e & He & Hin).
      apply in_map_iff in He. destruct He as (program & <- & Hp).
      exists program. auto.
    + right. exists avgs. auto.
  - intros [(program & Hp & Hin)|(avgs' & Heq & Hin)].
    + rewrite Hflags. apply in_or_app. left. apply in_flat_map.
      exists (coverage_entry df program). split; auto. apply in_map. exact Hp.
    + rewrite Heq. apply in_or_app. right. exact Hin.
Qed.

Lemma low_coverage_flagged_iff (program : string) :
  In program expected_programs ->
  (low_coverage_flagged (bias_flags report) program <->
   (coverage_percentage
      (program_count (map Course.program_code (rows df)) program)
      (List.length (rows df)) < 10)%Q).
Proof.
  intros Hp. rewrite <- Qltb_lt. unfold low_coverage_flagged. split.
  - intros (pct & cnt & Hin). apply in_report_flags in Hin.
    destruct Hin as [(p' & _ & Hin)|(avgs & _ & Hin)].
    + apply in_coverage_flags in Hin.
      destruct Hin as [[Hlt Heq]|[_ Heq]]; [|discriminate].
      injection Heq as <- _ _. exact Hlt.
    + apply in_credit_flags in Hin. destruct Hin as (? & ? & ?).
      discriminate.
  - intros Hlt. eexists. eexists. apply in_report_flags. left.
    exists program. split; auto. apply in_coverage_flags. left.
    split; [exact Hlt|reflexivity].
Qed.

Lemma missing_program_flagged_iff (program : string) :
  In program expected_programs ->
  (missing_program_flagged (bias_flags report) program <->
   program_count (map Course.program_code (rows df)) program = 0).
Proof.
  intros Hp. unfold missing_program_flagged. split.
  - intros Hin. apply in_report_flags in Hin.
    destruct Hin as [(p' & _ & Hin)|(avgs & _ & Hin)].
    + apply in_coverage_flags in Hin.
      destruct Hin as [[_ Heq]|[Hz Heq]]; [discriminate|].
      injection Heq as <-. exact Hz.
    + apply in_credit_flags in Hin. destruct Hin as (? & ? & ?).
      discriminate.
  - intros Hz. apply in_report_flags. left.
    exists program. split; auto. apply in_coverage_flags. right.
    split; [exact Hz|reflexivity].
Qed.

End BiasRun.

(** C2. In a run of [task_bias_detection] that returns a report, for each
    expected program: LOW_COVERAGE is flagged exactly when the percentage is
    below 10.0, whether or not the program has a course; MISSING_PROGRAM is
    flagged exactly when the count is 0; and a program with count 0 gets
    both flags. *)
Theorem coverage_flags_per_program
    (now : string) (df : DataFrame Course.row) (report : bias_report)
    (program : string) :
  task_bias_detection now df = Return report ->
  In program expected_programs ->
  let count := program_count (map Course.program_code (rows df)) program in
  let percentage := coverage_percentage count (List.length (rows df)) in
  (low_coverage_flagged (bias_flags report) program <-> (percentage < 10)%Q) /\
  (missing_program_flagged (bias_flags report) program <-> count = 0) /\
  (count = 0 ->
   low_coverage_flagged (bias_flags report) program /\
   missing_program_flagged (bias_flags report) program).
Proof.
  intros Hrun Hp count percentage.
  pose proof (low_coverage_flagged_iff now df report Hrun program Hp) as Hlow.
  pose proof (missing_program_flagged_iff now df report Hrun program Hp) as Hmiss.
  split; [exact Hlow|]. split; [exact Hmiss|].
  intros Hz. split; [|apply Hmiss; exact Hz].
  apply Hlow. fold count. rewrite Hz.
  rewrite coverage_percentage_zero. reflexivity.
Qed.

(** The theorem at the ten sample courses: MS_DAE has none of them and gets
    both flags. *)
Lemma coverage_flags_per_program_witness :
  low_coverage_flagged
    (flags_of (task_bias_detection "2026-01-28" ten_courses)) "MS_DAE" /\
  missing_program_flagged
    (flags_of (task_bias_detection "2026-01-28" ten_courses)) "MS_DAE".
Proof.
  destruct (task_bias_detection "2026-01-28" ten_courses)
    as [report|e] eqn:Hrun; [|vm_compute in Hrun; discriminate Hrun].
  refine (proj2 (proj2 (coverage_flags_per_program "2026-01-28" ten_courses
                          report "MS_DAE" Hrun _)) _).
  - left. reflexivity.
  - reflexivity.
Defined.

(** C2, as claimed: on the ten sample courses the run flags MS_DAE, which
    has no course, both for low coverage and as missing. *)
Lemma coverage_flags_both_counterexample :
  In (LOW_COVERAGE "MS_DAE" 0 0)
     (flags_of (task_bias_detection "2026-01-28" ten_courses)) /\
  In (MISSING_PROGRAM "MS_DAE")
     (flags_of (task_bias_detection "2026-01-28" ten_courses)).
Proof. vm_compute. split; [left|right; left]; reflexivity. Qed.

(** C8. In a run that returns a report, the percentage recorded for an
    expected program is 0 when there is no course; otherwise it is the float
    nearest to a whole number [k] of hundredths, where [k] hundredths lies
    within 0.005 + 2^-45 of 100 * count / total_courses and the percentage
    itself within 0.005 + 2^-44; and for a program holding 1 of 10 courses
    it is 10.0 and LOW_COVERAGE is not flagged. *)
Theorem coverage_percentage_rounded
    (now : string) (df : DataFrame Course.row) (report : bias_report)
    (program : string) :
  task_bias_detection now df = Return report ->
  In program expected_programs ->
  let count := program_count (map Course.program_code (rows df)) program in
  let total_courses := List.length (rows df) in
  let percentage := coverage_percentage count total_courses in
  let exact :=
    (100 * inject_Z (Z.of_nat count) / inject_Z (Z.of_nat total_courses))%Q in
  In (program, mk_coverage count percentage) (program_coverage report) /\
  (total_courses = 0 -> percentage = 0%Q) /\
  (0 < total_courses ->
   exists k : Z,
     percentage = to_float (k # 100) /\
     (Qabs ((k # 100) - exact) <= (1 # 200) + (1 # 35184372088832))%Q /\
     (Qabs (percentage - exact) <= (1 # 200) + (1 # 17592186044416))%Q) /\
  (total_courses = 10 -> count = 1 ->
   percentage = 10%Q /\
   ~ low_coverage_flagged (bias_flags report) program).
Proof.
  intros Hrun Hp count total_courses percentage exact.
  split; [|split; [|split]].
  - rewrite (report_coverage now df report Hrun).
    change (In (coverage_entry df program)
               (map (coverage_entry df) expected_programs)).
    apply in_map. exact Hp.
  - intros Hz. unfold percentage. rewrite Hz. reflexivity.
  - intros Hpos. apply coverage_percentage_bound; [exact Hpos|].
    unfold count, total_courses, program_count.
    rewrite <- (length_map Course.program_code (rows df)).
    apply count_of_le_length.
  - intros Ht Hc.
    assert (percentage = 10%Q) as Hten.
    { unfold percentage. rewrite Ht, Hc. vm_compute. reflexivity. }
    split; [exact Hten|].
    intros Hlow.
    apply (low_coverage_flagged_iff now df report Hrun program Hp) in Hlow.
    fold count total_courses percentage in Hlow. rewrite Hten in Hlow.
    revert Hlow. vm_compute. discriminate.
Qed.

(** The theorem at the ten sample courses, of which MS_CS holds one. *)
Lemma coverage_percentage_rounded_witness :
  In ("MS_CS", mk_coverage 1 10)
     (coverage_of (task_bias_detection "2026-01-28" ten_courses)) /\
  ~ low_coverage_flagged
      (flags_of (task_bias_detection "2026-01-28" ten_courses)) "MS_CS".
Proof.
  destruct (task_bias_detection "2026-01-28" ten_courses)
    as [report|e] eqn:Hrun; [|vm_compute in Hrun; discriminate Hrun].
  pose proof (coverage_percentage_rounded "2026-01-28" ten_courses
                report "MS_CS" Hrun ltac:(simpl; tauto)) as H.
  cbv zeta in H. destruct H as (Hin & _ & _ & Hten).
  destruct (Hten eq_refl eq_refl) as [Hpct Hlow].
  split; [|exact Hlow]. rewrite Hpct in Hin. exact Hin.
Defined.

(** C8, as claimed: with one course of three in MS_CS the recorded
    percentage is the float 33.33, which is not 100 * 1 / 3. *)
Lemma coverage_percentage_counterexample :
  In ("MS_CS", mk_coverage 1 (to_float (3333 # 100)))
     (coverage_of (task_bias_detection "2026-01-28" three_courses)) /\
  ~ (to_float (3333 # 100) == 100 * inject_Z 1 / inject_Z 3)%Q.
Proof.
  split.
  - vm_compute. right; right; left. reflexivity.
  - vm_compute. discriminate.
Qed.




(* ================================================================== *)
(** * Part III. Further properties                                     *)
(* ================================================================== *)

(** ** Anomaly detection *)

(** X1. The cycle query answers the yes/no question exactly: it returns a
    result for every table, and the result is empty exactly when the table
    has no directed cycle. *)
Theorem detect_circular_prerequisites_empty_iff_acyclic
    (E : list Db.prerequisite) :
  exists res,
    detect_circular_prerequisites E = Some res /\
    (res = [] <-> acyclic E).
Proof.
  destruct (with_recursive_total E) as (rows & Hrows).
  exists (select_cycles rows).
  assert (detect_circular_prerequisites E = Some (select_cycles rows)) as Hrun.
  { unfold detect_circular_prerequisites. rewrite Hrows. reflexivity. }
  split; [exact Hrun|]. split.
  - intros Hnil c (m & Hm & Hr).
    assert (In (c ~> m) (select_cycles rows)) as Hin.
    { apply (detect_circular_prerequisites_spec E _ Hrun). split; auto.
      exists m. auto. }
    rewrite Hnil in Hin. destruct Hin.
  - intros Hacyc. destruct (select_cycles rows) as [|e es] eqn:Hres; auto.
    exfalso.
    assert (In e (e :: es)) as Hin by (left; reflexivity).
    apply (detect_circular_prerequisites_spec E _ Hrun) in Hin.
    destruct Hin as [_ Hc]. exact (Hacyc _ Hc).
Qed.

(** X2. What the cycle query returns: a duplicate-free list holding exactly
    the rows of the table whose [course_code] lies on a directed cycle. *)
Theorem detect_circular_prerequisites_reports
    (E res : list Db.prerequisite) :
  detect_circular_prerequisites E = Some res ->
  NoDup res /\
  forall e, In e res <-> In e E /\ course_on_cycle E (Db.course_code e).
Proof.
  intros Hrun. split.
  - unfold detect_circular_prerequisites in Hrun.
    destruct (with_recursive _ E (anchor E)) as [rows|]; [|discriminate].
    injection Hrun as <-. unfold select_cycles. apply NoDup_nodup.
  - apply detect_circular_prerequisites_spec. exact Hrun.
Qed.

Lemma detect_circular_prerequisites_reports_witness :
  exists res,
    detect_circular_prerequisites ab_cycle_with_exit = Some res /\
    NoDup res /\ course_on_cycle ab_cycle_with_exit "A".
Proof.
  eexists. split; [vm_compute; reflexivity|].
  destruct (detect_circular_prerequisites_reports ab_cycle_with_exit _ eq_refl)
    as [Hnd Hspec].
  split; [exact Hnd|].
  apply (proj1 (Hspec ("A" ~> "C"))). simpl. tauto.
Defined.

(** The rows of the audit, read off the three joins. *)
Lemma in_detect_missing_prerequisites
      (student_courses : list Db.student_course) (students : list Db.student)
      (prereqs : list Db.prerequisite) (row : missing_row) :
  In row (detect_missing_prerequisites student_courses students prereqs) <->
  exists sc s p,
    In sc student_courses /\ In s students /\ In p prereqs /\
    Db.student_id sc = Db.id s /\
    Db.sc_course_code sc = Db.course_code p /\
    has_completed student_courses (Db.student_id sc)
                  (Db.required_course_code p) = false /\
    row = mk_missing_row (Db.email s) (Db.sc_course_code sc)
                         (Db.required_course_code p).
Proof.
  unfold detect_missing_prerequisites. split.
  - intros Hin.
    apply in_flat_map in Hin. destruct Hin as (sc & Hsc & Hin).
    apply in_flat_map in Hin. destruct Hin as (s & Hs & Hin).
    apply in_flat_map in Hin. destruct Hin as (p & Hp & Hin).
    apply filter_In in Hs. destruct Hs as [Hs Hid]. apply Z.eqb_eq in Hid.
    apply filter_In in Hp. destruct Hp as [Hp Hcode].
    apply String.eqb_eq in Hcode.
    destruct (has_completed student_courses (Db.student_id sc)
                            (Db.required_course_code p)) eqn:Hdone;
      simpl in Hin; [destruct Hin|].
    destruct Hin as [<-|[]]. exists sc, s, p. repeat split; auto.
  - intros (sc & s & p & Hsc & Hs & Hp & Hid & Hcode & Hdone & ->).
    apply in_flat_map. exists sc. split; auto.
    apply in_flat_map. exists s. split.
    { apply filter_In. split; auto. apply Z.eqb_eq. auto. }
    apply in_flat_map. exists p. split.
    { apply filter_In. split; auto. apply String.eqb_eq. auto. }
    rewrite Hdone. left. reflexivity.
Qed.

(** X3. The completion audit never reports a prerequisite the student has
    completed: every row it returns comes from a completion record of a
    student with that e-mail, for a course with that prerequisite edge, such
    that the student has no completion record of the required course. *)
Theorem detect_missing_prerequisites_sound
    (student_courses : list Db.student_course) (students : list Db.student)
    (prereqs : list Db.prerequisite) (row : missing_row) :
  In row (detect_missing_prerequisites student_courses students prereqs) ->
  exists sc s,
    In sc student_courses /\ In s students /\ Db.student_id sc = Db.id s /\
    Db.email s = m_email row /\ Db.sc_course_code sc = enrolled_course row /\
    In (enrolled_course row ~> missing_prereq row) prereqs /\
    ~ In (Db.mk_student_course (Db.student_id sc) (missing_prereq row))
         student_courses.
Proof.
  intros Hin. apply in_detect_missing_prerequisites in Hin.
  destruct Hin as (sc & s & p & Hsc & Hs & Hp & Hid & Hcode & Hdone & ->).
  exists sc, s. simpl. repeat split; auto.
  - rewrite Hcode. destruct p; exact Hp.
  - intros Habs. apply has_completed_In in Habs. congruence.
Qed.

Lemma detect_missing_prerequisites_sound_witness :
  exists sc s,
    In sc sample_completions /\ In s sample_students /\
    Db.student_id sc = Db.id s /\ Db.email s = "ada@example.edu" /\
    Db.sc_course_code sc = "B" /\ In ("B" ~> "A") ["B" ~> "A"] /\
    ~ In (Db.mk_student_course (Db.student_id sc) "A") sample_completions.
Proof.
  apply (detect_missing_prerequisites_sound sample_completions sample_students
           ["B" ~> "A"] (mk_missing_row "ada@example.edu" "B" "A")).
  left. reflexivity.
Defined.

(** The audit finds nothing exactly when every completed course has its
    prerequisites completed, provided every completion names a listed
    student. *)
Lemma detect_missing_prerequisites_nil
      (student_courses : list Db.student_course) (students : list Db.student)
      (prereqs : list Db.prerequisite) :
  (forall sc, In sc student_courses ->
              In (Db.student_id sc) (map Db.id students)) ->
  (detect_missing_prerequisites student_courses students prereqs = [] <->
   forall sc p, In sc student_courses -> In p prereqs ->
     Db.sc_course_code sc = Db.course_code p ->
     In (Db.mk_student_course (Db.student_id sc) (Db.required_course_code p))
        student_courses).
Proof.
  intros Hfk. split.
  - intros Hnil sc p Hsc Hp Hcode.
    apply has_completed_In.
    destruct (has_completed student_courses (Db.student_id sc)
                            (Db.required_course_code p)) eqn:Hdone; auto.
    exfalso.
    specialize (Hfk sc Hsc). apply in_map_iff in Hfk.
    destruct Hfk as (s & Hid & Hs).
    assert (In (mk_missing_row (Db.email s) (Db.sc_course_code sc)
                               (Db.required_course_code p))
               (detect_missing_prerequisites student_courses students prereqs))
      as Hin.
    { apply in_detect_missing_prerequisites. exists sc, s, p.
      repeat split; auto. }
    rewrite Hnil in Hin. destruct Hin.
  - intros Hall.
    destruct (detect_missing_prerequisites student_courses students prereqs)
      as [|row rest] eqn:Hres; auto.
    exfalso.
    assert (In row (detect_missing_prerequisites student_courses students
                                                 prereqs)) as Hin
      by (rewrite Hres; left; reflexivity).
    apply in_detect_missing_prerequisites in Hin.
    destruct Hin as (sc & s & p & Hsc & _ & Hp & _ & Hcode & Hdone & _).
    assert (has_completed student_courses (Db.student_id sc)
                          (Db.required_course_code p) = true) as Ht
      by (apply has_completed_In; apply Hall; auto).
    congruence.
Qed.

(** X4. [task_detect_anomalies] ends without raising exactly when the
    prerequisite table is acyclic and every completed course has all its
    prerequisites completed by the same student, provided every completion
    names a listed student; otherwise it raises with a positive count. *)
Theorem task_detect_anomalies_passes_iff
    (student_courses : list Db.student_course) (students : list Db.student)
    (prereqs : list Db.prerequisite) :
  (forall sc, In sc student_courses ->
              In (Db.student_id sc) (map Db.id students)) ->
  exists outcome,
    task_detect_anomalies student_courses students prereqs = Some outcome /\
    (outcome = Succeeded <->
     acyclic prereqs /\
     forall sc p, In sc student_courses -> In p prereqs ->
       Db.sc_course_code sc = Db.course_code p ->
       In (Db.mk_student_course (Db.student_id sc) (Db.required_course_code p))
          student_courses) /\
    (forall n, outcome = AnomaliesFound n -> 0 < n).
Proof.
  intros Hfk.
  destruct (with_recursive_total prereqs) as (rows & Hrows).
  assert (detect_circular_prerequisites prereqs = Some (select_cycles rows))
    as Hrun.
  { unfold detect_circular_prerequisites. rewrite Hrows. reflexivity. }
  unfold task_detect_anomalies, detect_anomalies. rewrite Hrun.
  cbn [option_map missing_prerequisites circular_prerequisites].
  pose proof (detect_missing_prerequisites_nil _ _ prereqs Hfk) as Hmiss.
  set (missing := detect_missing_prerequisites student_courses students prereqs)
    in *.
  assert (select_cycles rows = [] <-> acyclic prereqs) as Hcyc.
  { split.
    - intros Hnil c (m & Hm & Hr).
      assert (In (c ~> m) (select_cycles rows)) as Hin.
      { apply (detect_circular_prerequisites_spec prereqs _ Hrun).
        split; auto. exists m. auto. }
      rewrite Hnil in Hin. destruct Hin.
    - intros Hacyc. destruct (select_cycles rows) as [|e es] eqn:Hres; auto.
      exfalso.
      assert (In e (e :: es)) as Hin by (left; reflexivity).
      apply (detect_circular_prerequisites_spec prereqs _ Hrun) in Hin.
      destruct Hin as [_ Hc]. exact (Hacyc _ Hc). }
  eexists. split; [reflexivity|].
  destruct (Nat.ltb_spec 0 (List.length missing
                            + List.length (select_cycles rows))) as [Hpos|Hz].
  - split.
    + split; [discriminate|]. intros [Hacyc Hall].
      apply Hcyc in Hacyc. apply Hmiss in Hall.
      rewrite Hacyc, Hall in Hpos. simpl in Hpos. lia.
    + intros n Hn. injection Hn as <-. exact Hpos.
  - split; [|discriminate].
    split; [|reflexivity]. intros _.
    assert (missing = []) as Hm by (destruct missing; simpl in Hz; [auto|lia]).
    assert (select_cycles rows = []) as Hc
      by (destruct (select_cycles rows); simpl in Hz; [auto|lia]).
    split; [apply Hcyc; exact Hc|apply Hmiss; exact Hm].
Qed.

Lemma task_detect_anomalies_passes_iff_witness :
  exists outcome,
    task_detect_anomalies sample_completions sample_students ["B" ~> "A"]
      = Some outcome /\
    outcome = AnomaliesFound 1.
Proof.
  destruct (task_detect_anomalies_passes_iff sample_completions sample_students
              ["B" ~> "A"]) as (outcome & Hrun & _ & _).
  - intros sc [<-|[<-|[<-|[]]]]; simpl; auto.
  - exists outcome. split; [exact Hrun|].
    vm_compute in Hrun. injection Hrun as <-. reflexivity.
Defined.


(** ** Duplicate removal, further *)

Section DropDuplicatesKeys.

Context {R K : Type}.
Variable eqb : K -> K -> bool.
Variable key : R -> K.
Hypothesis eqb_eq : forall a b, eqb a b = true <-> a = b.

Lemma seen_In (k : K) (seen : list K) :
  existsb (eqb k) seen = true <-> In k seen.
Proof.
  rewrite existsb_exists. split.
  - intros (x & Hx & Heq). apply eqb_eq in Heq. subst. exact Hx.
  - intros Hin. exists k. split; auto. apply eqb_eq. reflexivity.
Qed.

Lemma unseen_not_In (k : K) (seen : list K) :
  existsb (eqb k) seen = false <-> ~ In k seen.
Proof.
  rewrite <- seen_In. destruct (existsb (eqb k) seen); split;
    congruence.
Qed.

(** The keys of the rows kept are pairwise distinct and new. *)
Lemma drop_duplicates_from_NoDup (l : list R) :
  forall seen,
    NoDup (map key (drop_duplicates_from eqb key seen l)) /\
    forall r, In r (drop_duplicates_from eqb key seen l) -> ~ In (key r) seen.
Proof.
  induction l as [|x l IH]; intros seen; simpl.
  - split; [constructor|intros r []].
  - destruct (existsb (eqb (key x)) seen) eqn:Hseen; [apply IH|].
    destruct (IH (key x :: seen)) as [Hnd Hnew]. split.
    + simpl. constructor; auto. intros Hin. apply in_map_iff in Hin.
      destruct Hin as (r & Hkey & Hr). apply (Hnew r Hr). left. auto.
    + intros r [<-|Hr].
      * apply unseen_not_In. exact Hseen.
      * intros Hin. apply (Hnew r Hr). right. exact Hin.
Qed.


(** Every new key of the list is the key of a row kept. *)
Lemma drop_duplicates_from_covers (r : R) (l : list R) :
  forall seen, In r l -> ~ In (key r) seen ->
    exists r', In r' (drop_duplicates_from eqb key seen l) /\ key r' = key r.
Proof.
  induction l as [|x l IH]; intros seen Hin Hnew; [destruct Hin|].
  simpl. destruct (existsb (eqb (key x)) seen) eqn:Hseen.
  - apply seen_In in Hseen. destruct Hin as [->|Hin]; [contradiction|].
    apply IH; assumption.
  - destruct (eqb (key x) (key r)) eqn:Hxr.
    + apply eqb_eq in Hxr. exists x. split; [left; reflexivity|exact Hxr].
    + destruct Hin as [->|Hin].
      * exists r. split; [left; reflexivity|reflexivity].
      * destruct (IH (key x :: seen) Hin) as (r' & Hr' & Hkey).
        { intros [Heq|Hs]; [|contradiction].
          assert (eqb (key x) (key r) = true) as Ht by (apply eqb_eq; exact Heq).
          congruence. }
        exists r'. split; [right; exact Hr'|exact Hkey].
Qed.

Lemma NoDup_map_filter (f : R -> bool) (l : list R) :
  NoDup (map key l) -> NoDup (map key (filter f l)).
Proof.
  induction l as [|x l IH]; simpl; intros Hnd; [constructor|].
  inversion Hnd as [|k ks Hnotin Hnd']; subst.
  destruct (f x); simpl; auto. constructor; auto.
  intros Hin. apply Hnotin. apply in_map_iff in Hin.
  destruct Hin as (y & Hkey & Hy). apply filter_In in Hy.
  apply in_map_iff. exists y. tauto.
Qed.

(** Removing duplicate keys from the key column is the key column of the
    rows without duplicates. *)
Lemma drop_duplicates_from_map (l : list R) :
  forall seen,
    drop_duplicates_from eqb (fun k => k) seen (map key l)
    = map key (drop_duplicates_from eqb key seen l).
Proof.
  induction l as [|x l IH]; intros seen; simpl; auto.
  destruct (existsb (eqb (key x)) seen); simpl; rewrite IH; reflexivity.
Qed.

End DropDuplicatesKeys.

Lemma pair_eqb_eq (a b : cell * cell) : pair_eqb a b = true <-> a = b.
Proof.
  destruct a as [a1 a2], b as [b1 b2]. unfold pair_eqb. simpl.
  rewrite andb_true_iff, !cell_eqb_eq. split.
  - intros [-> ->]. reflexivity.
  - intros H. injection H as -> ->. auto.
Qed.


Lemma clean_NoDup {R K : Type} (notnull : R -> bool) (norm : R -> R)
      (eqb : K -> K -> bool) (key : R -> K) (keep : R -> bool)
      (eqb_eq : forall a b, eqb a b = true <-> a = b) (l : list R) :
  NoDup (map key (clean notnull norm eqb key keep l)).
Proof.
  unfold clean, drop_duplicates. apply NoDup_map_filter.
  apply (drop_duplicates_from_NoDup eqb key eqb_eq).
Qed.

(** ** The normaliser, further *)

(** X5. What [preprocess_courses] returns is canonical: it has the columns
    of its input, no two rows share a [course_code], no required field is
    null, every [program_code] and [course_type] is a valid one, and the
    string transformations leave every row as it is. *)
Theorem preprocess_courses_canonical (df out : DataFrame Course.row) :
  preprocess_courses df = Return out ->
  columns out = columns df /\
  NoDup (map Course.course_code (rows out)) /\
  forall r, In r (rows out) ->
    course_notnull r = true /\
    In (Course.program_code r) VALID_PROGRAM_CODES /\
    In (Course.course_type r) VALID_COURSE_TYPES /\
    normalise_course r = r.
Proof.
  intros H. apply preprocess_courses_Return in H. destruct H as [_ ->].
  cbn [columns rows]. split; [reflexivity|]. split.
  - apply clean_NoDup. exact cell_eqb_eq.
  - intros r Hr. apply clean_In in Hr.
    destruct Hr as (r0 & Hnn & -> & Hkeep).
    pose proof Hkeep as Hk. unfold course_keep in Hk.
    apply andb_prop in Hk. destruct Hk as [Hp Ht].
    apply isin_In in Hp, Ht.
    repeat split; auto.
    + apply normalise_course_notnull. exact Hnn.
    + apply normalise_course_fixed; assumption.
Qed.

Lemma preprocess_courses_canonical_witness :
  exists out,
    preprocess_courses (courses untidy) = Return out /\
    NoDup (map Course.course_code (rows out)).
Proof.
  eexists. split; [vm_compute; reflexivity|].
  apply (preprocess_courses_canonical (courses untidy) _ eq_refl).
Defined.





Lemma dropna_Raise {R : Type} (subset : list string) (notnull : R -> bool)
      (df : DataFrame R) :
  missing_labels df subset <> [] ->
  dropna subset notnull df = Raise (KeyError (missing_labels df subset)).
Proof.
  unfold dropna. destruct (missing_labels df subset); [congruence|reflexivity].
Qed.

(** X8. How [preprocess_data] ends: with [KeyError] naming the required
    columns the courses frame lacks, if any; else with [KeyError] naming the
    required columns the prerequisites frame lacks, if any; else with the
    cleaned tables. *)
Theorem preprocess_data_outcome (raw : dataset) :
  let missing_c := missing_labels (courses raw) courses_required in
  let missing_p := missing_labels (prerequisites raw) prereq_required in
  (missing_c <> [] -> preprocess_data raw = Raise (KeyError missing_c)) /\
  (missing_c = [] -> missing_p <> [] ->
   preprocess_data raw = Raise (KeyError missing_p)) /\
  (missing_c = [] -> missing_p = [] ->
   exists out, preprocess_data raw = Return out).
Proof.
  intros missing_c missing_p. unfold preprocess_data. split; [|split].
  - intros Hc. unfold preprocess_courses.
    rewrite (dropna_Raise _ _ _ Hc). reflexivity.
  - intros Hc Hp.
    rewrite (proj2 (preprocess_courses_Return (courses raw) _)
                   (conj Hc eq_refl)).
    cbn [bind]. unfold getitem, has_column. cbn [columns rows].
    fold (has_column (courses raw) "course_code").
    rewrite (missing_none_has_column _ _ "course_code" Hc)
      by (left; reflexivity).
    cbn [bind]. unfold preprocess_prerequisites.
    rewrite (dropna_Raise _ _ _ Hp). reflexivity.
  - intros Hc Hp.
    rewrite (proj2 (preprocess_courses_Return (courses raw) _)
                   (conj Hc eq_refl)).
    cbn [bind]. unfold getitem, has_column. cbn [columns rows].
    fold (has_column (courses raw) "course_code").
    rewrite (missing_none_has_column _ _ "course_code" Hc)
      by (left; reflexivity).
    cbn [bind].
    rewrite (proj2 (preprocess_prerequisites_Return (prerequisites raw) _ _)
                   (conj Hp eq_refl)).
    cbn [bind]. eauto.
Qed.

Lemma preprocess_data_outcome_witness :
  preprocess_data (mk_dataset courses_without_code prereqs_without_code)
  = Raise (KeyError ["course_code"]).
Proof.
  apply (proj1 (preprocess_data_outcome
                  (mk_dataset courses_without_code prereqs_without_code))).
  discriminate.
Defined.

(** ** The validator, further *)

Lemma filter_nil_iff {A : Type} (f : A -> bool) (l : list A) :
  filter f l = [] <-> forall x, In x l -> f x = false.
Proof.
  induction l as [|x l IH]; simpl.
  - split; [intros _ y []|reflexivity].
  - destruct (f x) eqn:Hx; split.
    + discriminate.
    + intros H. specialize (H x (or_introl eq_refl)). congruence.
    + intros H y [<-|Hy]; [exact Hx|]. apply IH; assumption.
    + intros H. apply IH. intros y Hy. apply H. right. exact Hy.
Qed.

Lemma flat_map_nil_iff {A B : Type} (f : A -> list B) (l : list A) :
  flat_map f l = [] <-> forall x, In x l -> f x = [].
Proof.
  induction l as [|x l IH]; simpl.
  - split; [intros _ y []|reflexivity].
  - split.
    + intros H. apply app_eq_nil in H. destruct H as [Hx Hl].
      intros y [<-|Hy]; [exact Hx|]. apply IH; assumption.
    + intros H. rewrite (H x (or_introl eq_refl)). simpl.
      apply IH. intros y Hy. apply H. right. exact Hy.
Qed.

Lemma when_nil_iff (b : bool) (v : violation) : when b v = [] <-> b = false.
Proof. destruct b; simpl; split; congruence. Qed.

Lemma nonempty_false_iff {A : Type} (l : list A) :
  nonempty l = false <-> l = [].
Proof. destruct l; simpl; split; congruence. Qed.

Lemma existsb_false_iff {A : Type} (f : A -> bool) (l : list A) :
  existsb f l = false <-> forall x, In x l -> f x = false.
Proof.
  induction l as [|x l IH]; simpl.
  - split; [intros _ y []|reflexivity].
  - rewrite orb_false_iff, IH. split.
    + intros [Hx Hl] y [<-|Hy]; auto.
    + intros H. split; [apply H; left; reflexivity|].
      intros y Hy. apply H. right. exact Hy.
Qed.

Lemma null_violations_nil_iff {R : Type} (isnull_at : string -> R -> bool)
      (labels : list string) (df : DataFrame R) :
  null_violations isnull_at labels df = [] <->
  forall col r, In col labels -> In r (rows df) -> isnull_at col r = false.
Proof.
  unfold null_violations. rewrite flat_map_nil_iff. split.
  - intros H col r Hcol Hr. specialize (H col Hcol).
    destruct (filter (isnull_at col) (rows df)) as [|y ys] eqn:Hf;
      [|discriminate H].
    apply (proj1 (filter_nil_iff _ _) Hf). exact Hr.
  - intros H col Hcol.
    assert (filter (isnull_at col) (rows df) = []) as ->; [|reflexivity].
    apply filter_nil_iff. intros r Hr. apply H; assumption.
Qed.

Section DuplicatedCount.

Context {K : Type}.
Variable eqb : K -> K -> bool.
Hypothesis eqb_eq : forall a b, eqb a b = true <-> a = b.

Lemma drop_duplicates_from_length (l : list K) :
  forall seen,
    List.length (drop_duplicates_from eqb (fun k => k) seen l) <= List.length l.
Proof.
  induction l as [|x l IH]; intros seen; simpl; auto.
  destruct (existsb (eqb x) seen); simpl.
  - specialize (IH seen). lia.
  - specialize (IH (x :: seen)). lia.
Qed.

Lemma drop_duplicates_from_full (l : list K) :
  forall seen,
    List.length (drop_duplicates_from eqb (fun k => k) seen l) = List.length l
    <-> NoDup l /\ forall x, In x l -> ~ In x seen.
Proof.
  induction l as [|x l IH]; intros seen; simpl.
  - split; [intros _; split; [constructor|intros y []]|reflexivity].
  - destruct (existsb (eqb x) seen) eqn:Hseen.
    + apply (seen_In eqb eqb_eq) in Hseen. split.
      * intros H. pose proof (drop_duplicates_from_length l seen). lia.
      * intros [_ H]. exfalso. apply (H x); auto.
    + apply (unseen_not_In eqb eqb_eq) in Hseen. simpl.
      split.
      * intros H. injection H as H. apply IH in H. destruct H as [Hnd Hnew].
        split.
        -- constructor; auto. intros Hin. apply (Hnew x Hin). left. auto.
        -- intros y [<-|Hy]; auto. intros Hin. apply (Hnew y Hy). right. auto.
      * intros [Hnd Hnew]. f_equal. apply IH.
        inversion Hnd as [|k ks Hnotin Hnd']; subst. split; auto.
        intros y Hy [<-|Hin]; [contradiction|].
        apply (Hnew y); auto.
Qed.

(** [duplicated().sum()] is zero exactly on a column without repeats. *)
Lemma duplicated_count_zero_iff (keys : list K) :
  duplicated_count eqb keys = 0 <-> NoDup keys.
Proof.
  unfold duplicated_count, drop_duplicates.
  pose proof (drop_duplicates_from_length keys []) as Hle.
  pose proof (drop_duplicates_from_full keys []) as Hfull.
  split.
  - intros H. apply Hfull. lia.
  - intros Hnd.
    assert (List.length (drop_duplicates_from eqb (fun k => k) [] keys)
            = List.length keys) as ->; [|lia].
    apply Hfull. split; auto.
Qed.

End DuplicatedCount.

Lemma course_notnull_iff (r : Course.row) :
  course_notnull r = true <->
  forall col, In col courses_required -> course_isnull col r = false.
Proof.
  destruct r as [code name cr prog ty]. unfold course_notnull. simpl.
  split.
  - intros H col Hcol.
    repeat (apply andb_prop in H; destruct H as [H ?]).
    repeat match goal with
           | Hn : negb _ = true |- _ => apply negb_true_iff in Hn
           end.
    destruct Hcol as [<-|[<-|[<-|[<-|[<-|[]]]]]]; assumption.
  - intros H.
    pose proof (H "course_code" ltac:(simpl; tauto)) as H1.
    pose proof (H "course_name" ltac:(simpl; tauto)) as H2.
    pose proof (H "credits" ltac:(simpl; tauto)) as H3.
    pose proof (H "program_code" ltac:(simpl; tauto)) as H4.
    pose proof (H "course_type" ltac:(simpl; tauto)) as H5.
    unfold course_isnull in *. simpl in *.
    rewrite H1, H2, H3, H4, H5. reflexivity.
Qed.

Lemma prereq_notnull_iff (r : Prereq.row) :
  prereq_notnull r = true <->
  forall col, In col prereq_required -> prereq_isnull col r = false.
Proof.
  destruct r as [a b]. unfold prereq_notnull. simpl. split.
  - intros H col Hcol. apply andb_prop in H. destruct H as [H1 H2].
    apply negb_true_iff in H1, H2.
    destruct Hcol as [<-|[<-|[]]]; assumption.
  - intros H.
    pose proof (H "course_code" ltac:(simpl; tauto)) as H1.
    pose proof (H "required_course_code" ltac:(simpl; tauto)) as H2.
    unfold prereq_isnull in *. simpl in *. rewrite H1, H2. reflexivity.
Qed.

Lemma present_labels_all {R : Type} (df : DataFrame R) (subset : list string) :
  missing_labels df subset = [] -> filter (has_column df) subset = subset.
Proof.
  intros H. apply filter_all. intros label Hl.
  apply (missing_none_has_column _ _ _ H Hl).
Qed.

(** The violations of a courses frame that has its five columns. *)
Lemma validate_courses_with_columns (df : DataFrame Course.row) :
  missing_labels df courses_required = [] ->
  validate_courses df = Return (
    null_violations course_isnull courses_required df
    ++ when (negb (Nat.eqb (duplicated_count cell_eqb
                              (map Course.course_code (rows df))) 0))
            (unique_course_code (duplicated_count cell_eqb
                              (map Course.course_code (rows df))))
    ++ when (nonempty (filter (fun c => negb (isin VALID_PROGRAM_CODES c))
                              (map Course.program_code (rows df))))
            (valid_program_code (unique
               (filter (fun c => negb (isin VALID_PROGRAM_CODES c))
                       (map Course.program_code (rows df)))))
    ++ when (nonempty (filter (fun c => negb (isin VALID_COURSE_TYPES c))
                              (map Course.course_type (rows df))))
            (valid_course_type (unique
               (filter (fun c => negb (isin VALID_COURSE_TYPES c))
                       (map Course.course_type (rows df)))))
    ++ when (existsb credits_not_positive (map Course.credits (rows df)))
            positive_credits).
Proof.
  intros Hc. unfold validate_courses, getitem.
  rewrite !(missing_none_has_column _ _ _ Hc) by (simpl; tauto).
  rewrite (present_labels_all _ _ Hc). rewrite Hc. reflexivity.
Qed.

(** The violations of a prerequisites frame that has its two columns. *)
Lemma validate_prerequisites_with_columns (df : DataFrame Prereq.row)
      (valid_codes : list cell) :
  missing_labels df prereq_required = [] ->
  validate_prerequisites df valid_codes = Return (
    null_violations prereq_isnull prereq_required df
    ++ when (negb (Nat.eqb (duplicated_count pair_eqb
                              (map prereq_pair (rows df))) 0))
            (unique_prereq_pairs (duplicated_count pair_eqb
                              (map prereq_pair (rows df))))
    ++ when (nonempty (filter self_referencing (rows df)))
            (no_self_reference
               (map Prereq.course_code (filter self_referencing (rows df))))
    ++ when (existsb (fun r => negb (isin valid_codes (Prereq.course_code r)))
                     (rows df)
             || existsb (fun r => negb (isin valid_codes
                                          (Prereq.required_course_code r)))
                        (rows df))
            valid_fk_references).
Proof.
  intros Hp. unfold validate_prerequisites. rewrite Hp. reflexivity.
Qed.

Lemma negb_isin_filter_nil (values : list cell) {R : Type}
      (field : R -> cell) (l : list R) :
  filter (fun c => negb (isin values c)) (map field l) = [] <->
  forall r, In r l -> In (field r) values.
Proof.
  rewrite filter_nil_iff. split.
  - intros H r Hr. apply isin_In. apply negb_false_iff. apply H.
    apply in_map. exact Hr.
  - intros H c Hc. apply in_map_iff in Hc. destruct Hc as (r & <- & Hr).
    apply negb_false_iff. apply isin_In. apply H. exact Hr.
Qed.

Lemma validate_courses_nil_iff (df : DataFrame Course.row) :
  validate_courses df = Return [] <-> courses_valid df.
Proof.
  unfold courses_valid. split.
  - intros H. pose proof (validate_courses_nil_columns df H) as Hc.
    rewrite (validate_courses_with_columns df Hc) in H.
    remember (null_violations course_isnull courses_required df) as nv
      eqn:Hnv.
    injection H as H.
    apply app_eq_nil in H. destruct H as [H1 H]. subst nv.
    apply app_eq_nil in H. destruct H as [H2 H].
    apply app_eq_nil in H. destruct H as [H3 H].
    apply app_eq_nil in H. destruct H as [H4 H5].
    apply when_nil_iff in H2, H3, H4, H5.
    apply negb_false_iff, Nat.eqb_eq in H2.
    apply (duplicated_count_zero_iff cell_eqb cell_eqb_eq) in H2.
    apply nonempty_false_iff in H3, H4.
    split; [exact Hc|]. split; [exact H2|]. intros r Hr.
    assert (course_notnull r = true) as Hnn.
    { apply course_notnull_iff. intros col Hcol.
      apply (proj1 (null_violations_nil_iff _ _ _) H1 col r Hcol Hr). }
    split; [exact Hnn|].
    split; [apply (proj1 (negb_isin_filter_nil VALID_PROGRAM_CODES
                            Course.program_code (rows df)) H3 r Hr)|].
    split; [apply (proj1 (negb_isin_filter_nil VALID_COURSE_TYPES
                            Course.course_type (rows df)) H4 r Hr)|].
    pose proof (proj1 (existsb_false_iff _ _) H5 (Course.credits r)
                      (in_map _ _ _ Hr)) as Hpos.
    destruct r as [code name [z|] prog ty]; simpl in *.
    + exists z. split; auto. apply Z.leb_gt in Hpos. exact Hpos.
    + unfold course_notnull in Hnn. simpl in Hnn.
      rewrite !andb_false_r in Hnn. simpl in Hnn.
      destruct (negb (isnull code) && negb (isnull name)); discriminate.
  - intros (Hc & Hnd & Hall).
    rewrite (validate_courses_with_columns df Hc). f_equal.
    assert (null_violations course_isnull courses_required df = []) as ->.
    { apply null_violations_nil_iff. intros col r Hcol Hr.
      apply (proj1 (course_notnull_iff r)); [apply Hall; exact Hr|exact Hcol]. }
    apply (duplicated_count_zero_iff cell_eqb cell_eqb_eq) in Hnd.
    rewrite Hnd.
    assert (filter (fun c => negb (isin VALID_PROGRAM_CODES c))
                   (map Course.program_code (rows df)) = []) as ->.
    { apply negb_isin_filter_nil. intros r Hr. apply Hall. exact Hr. }
    assert (filter (fun c => negb (isin VALID_COURSE_TYPES c))
                   (map Course.course_type (rows df)) = []) as ->.
    { apply negb_isin_filter_nil. intros r Hr. apply Hall. exact Hr. }
    assert (existsb credits_not_positive (map Course.credits (rows df))
            = false) as ->.
    { apply existsb_false_iff. intros c Hc'. apply in_map_iff in Hc'.
      destruct Hc' as (r & <- & Hr).
      destruct (Hall r Hr) as (_ & _ & _ & z & -> & Hz).
      simpl. apply Z.leb_gt. exact Hz. }
    reflexivity.
Qed.

Lemma self_referencing_false_iff (r : Prereq.row) :
  prereq_notnull r = true ->
  (self_referencing r = false <->
   Prereq.course_code r <> Prereq.required_course_code r).
Proof.
  destruct r as [[a|] [b|]]; simpl; try discriminate. intros _.
  unfold self_referencing. simpl. split.
  - intros H Heq. injection Heq as ->. rewrite String.eqb_refl in H.
    discriminate.
  - intros H. apply String.eqb_neq. congruence.
Qed.

Lemma validate_prerequisites_nil_iff (df : DataFrame Prereq.row)
      (valid_codes : list cell) :
  validate_prerequisites df valid_codes = Return [] <->
  prerequisites_valid df valid_codes.
Proof.
  unfold prerequisites_valid. split.
  - intros H.
    destruct (validate_prerequisites_nil_columns df valid_codes H) as [Hp _].
    rewrite (validate_prerequisites_with_columns df valid_codes Hp) in H.
    remember (null_violations prereq_isnull prereq_required df) as nv
      eqn:Hnv.
    injection H as H.
    apply app_eq_nil in H. destruct H as [H1 H]. subst nv.
    apply app_eq_nil in H. destruct H as [H2 H].
    apply app_eq_nil in H. destruct H as [H3 H4].
    apply when_nil_iff in H2, H3, H4.
    apply negb_false_iff, Nat.eqb_eq in H2.
    apply (duplicated_count_zero_iff pair_eqb pair_eqb_eq) in H2.
    apply nonempty_false_iff in H3. apply orb_false_iff in H4.
    destruct H4 as [H4 H5].
    split; [exact Hp|]. split; [exact H2|]. intros r Hr.
    assert (prereq_notnull r = true) as Hnn.
    { apply prereq_notnull_iff. intros col Hcol.
      apply (proj1 (null_violations_nil_iff _ _ _) H1 col r Hcol Hr). }
    split; [exact Hnn|]. split; [|split].
    + apply (self_referencing_false_iff r Hnn).
      apply (proj1 (filter_nil_iff _ _) H3 r Hr).
    + apply isin_In. apply negb_false_iff.
      apply (proj1 (existsb_false_iff _ _) H4 r Hr).
    + apply isin_In. apply negb_false_iff.
      apply (proj1 (existsb_false_iff _ _) H5 r Hr).
  - intros (Hp & Hnd & Hall).
    rewrite (validate_prerequisites_with_columns df valid_codes Hp). f_equal.
    assert (null_violations prereq_isnull prereq_required df = []) as ->.
    { apply null_violations_nil_iff. intros col r Hcol Hr.
      apply (proj1 (prereq_notnull_iff r)); [apply Hall; exact Hr|exact Hcol]. }
    apply (duplicated_count_zero_iff pair_eqb pair_eqb_eq) in Hnd.
    rewrite Hnd.
    assert (filter self_referencing (rows df) = []) as ->.
    { apply filter_nil_iff. intros r Hr.
      destruct (Hall r Hr) as (Hnn & Hne & _).
      apply (self_referencing_false_iff r Hnn). exact Hne. }
    assert (existsb (fun r => negb (isin valid_codes (Prereq.course_code r)))
                    (rows df) = false) as ->.
    { apply existsb_false_iff. intros r Hr. apply negb_false_iff.
      apply isin_In. apply Hall. exact Hr. }
    assert (existsb (fun r => negb (isin valid_codes
                                      (Prereq.required_course_code r)))
                    (rows df) = false) as ->.
    { apply existsb_false_iff. intros r Hr. apply negb_false_iff.
      apply isin_In. apply Hall. exact Hr. }
    reflexivity.
Qed.

(** X9. The two validators report nothing exactly on valid frames: for
    courses, the five columns are there, no required field is null, course
    codes do not repeat, programs and types are valid ones and credits are
    positive; for prerequisites, the two columns are there, no endpoint is
    null, pairs do not repeat, no course requires itself and both endpoints
    are among the given codes. *)
Theorem validators_pass_iff
    (cs : DataFrame Course.row) (ps : DataFrame Prereq.row)
    (valid_codes : list cell) :
  (validate_courses cs = Return [] <-> courses_valid cs) /\
  (validate_prerequisites ps valid_codes = Return [] <->
   prerequisites_valid ps valid_codes).
Proof.
  split.
  - apply validate_courses_nil_iff.
  - apply validate_prerequisites_nil_iff.
Qed.

Lemma validators_pass_iff_witness :
  courses_valid (mk_frame courses_required
                          [course "IE6400" "Foundations" 4 "MS_DAE" "Core"]) /\
  prerequisites_valid (mk_frame prereq_required []) [Some "IE6400"].
Proof.
  pose proof (validators_pass_iff
    (mk_frame courses_required [course "IE6400" "Foundations" 4 "MS_DAE" "Core"])
    (mk_frame prereq_required []) [Some "IE6400"]) as [Hc Hp].
  split; [apply Hc|apply Hp]; reflexivity.
Defined.

(** X10. [validate_data] returns the statistics report exactly when both
    tables are valid, the prerequisites being checked against the
    [course_code] column of the courses; the report then carries the clock
    reading and the two row counts. *)
Theorem validate_data_returns_iff (now : string) (cleaned : dataset) :
  ((exists stats, validate_data now cleaned = Return stats) <->
   courses_valid (courses cleaned) /\
   prerequisites_valid (prerequisites cleaned)
     (map Course.course_code (rows (courses cleaned)))) /\
  (forall stats, validate_data now cleaned = Return stats ->
     generated_at stats = now /\
     total_courses (stats_courses stats)
       = List.length (rows (courses cleaned)) /\
     total_prereq_pairs (stats_prerequisites stats)
       = List.length (rows (prerequisites cleaned))).
Proof.
  split; [split|].
  - intros (stats & H). unfold validate_data in H.
    apply bind_Return in H. destruct H as (codes & Hcodes & H).
    apply bind_Return in H. destruct H as (cv & Hcv & H).
    apply bind_Return in H. destruct H as (pv & Hpv & H).
    unfold getitem in Hcodes.
    destruct (has_column (courses cleaned) "course_code"); [|discriminate].
    injection Hcodes as <-.
    destruct (cv ++ pv) as [|v vs] eqn:Hall; [|discriminate H].
    apply app_eq_nil in Hall. destruct Hall as [-> ->].
    split.
    + apply validate_courses_nil_iff. exact Hcv.
    + apply validate_prerequisites_nil_iff. exact Hpv.
  - intros [Hc Hp].
    pose proof (proj2 (validate_courses_nil_iff _) Hc) as Hcv.
    pose proof (proj2 (validate_prerequisites_nil_iff _ _) Hp) as Hpv.
    destruct Hc as (Hcols & _). destruct Hp as (Hpcols & _).
    unfold validate_data, getitem.
    rewrite (missing_none_has_column _ _ "course_code" Hcols)
      by (left; reflexivity).
    cbn [bind]. rewrite Hcv. cbn [bind]. rewrite Hpv. cbn [bind app nonempty].
    apply generate_statistics_returns; auto.
    apply (validate_prerequisites_nil_columns _ _ Hpv).
  - intros stats H. unfold validate_data in H.
    apply bind_Return in H. destruct H as (codes & _ & H).
    apply bind_Return in H. destruct H as (cv & _ & H).
    apply bind_Return in H. destruct H as (pv & _ & H).
    destruct (nonempty (cv ++ pv)); [discriminate H|].
    unfold generate_statistics in H.
    apply bind_Return in H. destruct H as (? & _ & H).
    apply bind_Return in H. destruct H as (? & _ & H).
    apply bind_Return in H. destruct H as (? & _ & H).
    apply bind_Return in H. destruct H as (? & _ & H).
    apply bind_Return in H. destruct H as (? & _ & H).
    injection H as <-. auto.
Qed.

Lemma validate_data_returns_iff_witness :
  exists stats, validate_data "2026-01-28" tidy = Return stats.
Proof.
  apply (proj2 (proj1 (validate_data_returns_iff "2026-01-28" tidy))).
  split.
  - apply validate_courses_nil_iff. reflexivity.
  - apply validate_prerequisites_nil_iff. reflexivity.
Defined.

(** X11. [validate_courses] raises exactly when the frame lacks one of the
    four columns it reads after the null check, with [KeyError] for the
    first of [course_code], [program_code], [course_type], [credits] that is
    missing; a frame lacking only [course_name] gets the [required_columns]
    violation back. *)
Theorem validate_courses_key_errors (df : DataFrame Course.row) :
  (forall label rest,
     filter (fun l => negb (has_column df l))
            ["course_code"; "program_code"; "course_type"; "credits"]
       = label :: rest ->
     validate_courses df = Raise (KeyError [label])) /\
  (filter (fun l => negb (has_column df l))
          ["course_code"; "program_code"; "course_type"; "credits"] = [] ->
   exists violations,
     validate_courses df = Return violations /\
     (has_column df "course_name" = false ->
      In (required_columns ["course_name"]) violations)).
Proof.
  unfold validate_courses, getitem, missing_labels, courses_required.
  cbn [filter].
  destruct (has_column df "course_code") eqn:H1;
  destruct (has_column df "program_code") eqn:H2;
  destruct (has_column df "course_type") eqn:H3;
  destruct (has_column df "credits") eqn:H4;
  cbn [negb bind]; (split; [intros label rest Heq|intros Heq]);
  try discriminate Heq; try (injection Heq as <- _; reflexivity).
  eexists. split; [reflexivity|].
  intros Hname. rewrite Hname. cbn [negb nonempty when app].
  left. reflexivity.
Qed.

Lemma validate_courses_key_errors_witness :
  validate_courses courses_without_code = Raise (KeyError ["course_code"]).
Proof.
  apply (proj1 (validate_courses_key_errors courses_without_code)
               "course_code" []).
  reflexivity.
Defined.

(** What the validators return on the tables the normaliser returns. *)
Lemma validate_after_preprocess (raw out : dataset) :
  preprocess_data raw = Return out ->
  validate_courses (courses out)
  = Return (when (existsb credits_not_positive
                          (map Course.credits (rows (courses out))))
                 positive_credits) /\
  validate_prerequisites (prerequisites out)
    (map Course.course_code (rows (courses out)))
  = Return (when (nonempty (filter self_referencing
                                   (rows (prerequisites out))))
                 (no_self_reference
                    (map Prereq.course_code
                         (filter self_referencing
                                 (rows (prerequisites out)))))).
Proof.
  intros H. apply preprocess_data_Return in H. destruct H as (Hcs & _ & Hps).
  apply preprocess_courses_Return in Hcs. destruct Hcs as [Hc Hcout].
  apply preprocess_prerequisites_Return in Hps. destruct Hps as [Hp Hpout].
  assert (missing_labels (courses out) courses_required = []) as Hc'.
  { rewrite <- Hc. apply missing_labels_columns. rewrite Hcout. reflexivity. }
  assert (missing_labels (prerequisites out) prereq_required = []) as Hp'.
  { rewrite <- Hp. apply missing_labels_columns. rewrite Hpout. reflexivity. }
  assert (forall r, In r (rows (courses out)) ->
            course_notnull r = true /\ course_keep r = true) as Hrows.
  { intros r Hr. rewrite Hcout in Hr. apply clean_In in Hr.
    destruct Hr as (r0 & Hnn & -> & Hk). split; auto.
    apply normalise_course_notnull. exact Hnn. }
  assert (forall r, In r (rows (prerequisites out)) ->
            prereq_notnull r = true /\
            prereq_keep (map Course.course_code (rows (courses out))) r = true)
    as Hedges.
  { intros r Hr. rewrite Hpout in Hr. apply clean_In in Hr.
    destruct Hr as (r0 & Hnn & -> & Hk). split; auto.
    apply normalise_prereq_notnull. exact Hnn. }
  split.
  - rewrite (validate_courses_with_columns _ Hc').
    assert (null_violations course_isnull courses_required (courses out) = [])
      as ->.
    { apply null_violations_nil_iff. intros col r Hcol Hr.
      apply (proj1 (course_notnull_iff r)); [apply Hrows; exact Hr|exact Hcol]. }
    assert (duplicated_count cell_eqb
              (map Course.course_code (rows (courses out))) = 0) as ->.
    { apply (duplicated_count_zero_iff cell_eqb cell_eqb_eq).
      rewrite Hcout. apply clean_NoDup. exact cell_eqb_eq. }
    assert (filter (fun c => negb (isin VALID_PROGRAM_CODES c))
                   (map Course.program_code (rows (courses out))) = []) as ->.
    { apply negb_isin_filter_nil. intros r Hr. apply isin_In.
      destruct (Hrows r Hr) as [_ Hk]. unfold course_keep in Hk.
      apply andb_prop in Hk. tauto. }
    assert (filter (fun c => negb (isin VALID_COURSE_TYPES c))
                   (map Course.course_type (rows (courses out))) = []) as ->.
    { apply negb_isin_filter_nil. intros r Hr. apply isin_In.
      destruct (Hrows r Hr) as [_ Hk]. unfold course_keep in Hk.
      apply andb_prop in Hk. tauto. }
    reflexivity.
  - rewrite (validate_prerequisites_with_columns _ _ Hp').
    assert (null_violations prereq_isnull prereq_required (prerequisites out)
            = []) as ->.
    { apply null_violations_nil_iff. intros col r Hcol Hr.
      apply (proj1 (prereq_notnull_iff r)); [apply Hedges; exact Hr|exact Hcol]. }
    assert (duplicated_count pair_eqb
              (map prereq_pair (rows (prerequisites out))) = 0) as ->.
    { apply (duplicated_count_zero_iff pair_eqb pair_eqb_eq).
      rewrite Hpout. apply clean_NoDup. exact pair_eqb_eq. }
    assert (existsb (fun r => negb (isin (map Course.course_code
                                            (rows (courses out)))
                                         (Prereq.course_code r)))
                    (rows (prerequisites out)) = false) as ->.
    { apply existsb_false_iff. intros r Hr. apply negb_false_iff.
      destruct (Hedges r Hr) as [_ Hk]. unfold prereq_keep in Hk.
      apply andb_prop in Hk. tauto. }
    assert (existsb (fun r => negb (isin (map Course.course_code
                                            (rows (courses out)))
                                         (Prereq.required_course_code r)))
                    (rows (prerequisites out)) = false) as ->.
    { apply existsb_false_iff. intros r Hr. apply negb_false_iff.
      destruct (Hedges r Hr) as [_ Hk]. unfold prereq_keep in Hk.
      apply andb_prop in Hk. tauto. }
    cbn [Nat.eqb negb orb when app]. rewrite app_nil_r. reflexivity.
Qed.

Lemma validate_data_Return_iff (now : string) (cleaned : dataset) :
  (exists stats, validate_data now cleaned = Return stats) <->
  validate_courses (courses cleaned) = Return [] /\
  validate_prerequisites (prerequisites cleaned)
    (map Course.course_code (rows (courses cleaned))) = Return [].
Proof.
  split.
  - intros (stats & H). unfold validate_data in H.
    apply bind_Return in H. destruct H as (codes & Hcodes & H).
    apply bind_Return in H. destruct H as (cv & Hcv & H).
    apply bind_Return in H. destruct H as (pv & Hpv & H).
    unfold getitem in Hcodes.
    destruct (has_column (courses cleaned) "course_code"); [|discriminate].
    injection Hcodes as <-.
    destruct (cv ++ pv) as [|v vs] eqn:Hall; [|discriminate H].
    apply app_eq_nil in Hall. destruct Hall as [-> ->]. auto.
  - intros [Hcv Hpv].
    pose proof (validate_courses_nil_columns _ Hcv) as Hcols.
    unfold validate_data, getitem.
    rewrite (missing_none_has_column _ _ "course_code" Hcols)
      by (left; reflexivity).
    cbn [bind]. rewrite Hcv. cbn [bind]. rewrite Hpv. cbn [bind app nonempty].
    destruct (validate_prerequisites_nil_columns _ _ Hpv) as [Hp Hnull].
    apply generate_statistics_returns; auto.
Qed.

(** X12. After the normaliser, the validators can only object to credits
    and to courses requiring themselves: on the tables [preprocess_data]
    returns, [validate_courses] returns at most [positive_credits] and
    [validate_prerequisites] at most [no_self_reference]; so
    [validate_data] returns the statistics exactly when every kept course
    has positive credits and no kept prerequisite pairs a course with
    itself. *)
Theorem preprocess_then_validate (now : string) (raw out : dataset) :
  preprocess_data raw = Return out ->
  validate_courses (courses out)
  = Return (when (existsb credits_not_positive
                          (map Course.credits (rows (courses out))))
                 positive_credits) /\
  validate_prerequisites (prerequisites out)
    (map Course.course_code (rows (courses out)))
  = Return (when (nonempty (filter self_referencing
                                   (rows (prerequisites out))))
                 (no_self_reference
                    (map Prereq.course_code
                         (filter self_referencing
                                 (rows (prerequisites out)))))) /\
  ((exists stats, validate_data now out = Return stats) <->
   (forall r, In r (rows (courses out)) ->
      exists z, Course.credits r = Some z /\ (0 < z)%Z) /\
   (forall e, In e (rows (prerequisites out)) ->
      Prereq.course_code e <> Prereq.required_course_code e)).
Proof.
  intros H. destruct (validate_after_preprocess raw out H) as [Hcv Hpv].
  split; [exact Hcv|]. split; [exact Hpv|].
  rewrite validate_data_Return_iff. split.
  - intros [Hc Hp].
    apply validate_courses_nil_iff in Hc.
    apply validate_prerequisites_nil_iff in Hp.
    destruct Hc as (_ & _ & Hc). destruct Hp as (_ & _ & Hp).
    split; [intros r Hr; apply (Hc r Hr)|intros e He; apply (Hp e He)].
  - intros [Hc Hp]. rewrite Hcv, Hpv. split; f_equal; apply when_nil_iff.
    + apply existsb_false_iff. intros c Hin. apply in_map_iff in Hin.
      destruct Hin as (r & <- & Hr). destruct (Hc r Hr) as (z & -> & Hz).
      simpl. apply Z.leb_gt. exact Hz.
    + apply nonempty_false_iff. apply filter_nil_iff. intros e He.
      specialize (Hp e He). unfold self_referencing.
      destruct (Prereq.course_code e) as [a|]; auto.
      destruct (Prereq.required_course_code e) as [b|]; auto.
      apply String.eqb_neq. congruence.
Qed.

Lemma preprocess_then_validate_witness :
  exists out,
    preprocess_data untidy = Return out /\
    validate_courses (courses out) = Return [] /\
    validate_prerequisites (prerequisites out)
      (map Course.course_code (rows (courses out))) = Return [].
Proof.
  eexists. split; [vm_compute; reflexivity|].
  destruct (preprocess_then_validate "2026-01-28" untidy _ eq_refl)
    as (Hc & Hp & _).
  split; [exact Hc|exact Hp].
Defined.

(** ** The statistics *)

Lemma in_unique (v : cell) (values : list cell) :
  In v (unique values) <-> In v values.
Proof.
  unfold unique, drop_duplicates. split.
  - apply drop_duplicates_from_In.
  - intros Hin.
    destruct (drop_duplicates_from_covers cell_eqb (fun c => c) cell_eqb_eq
                v values [] Hin) as (v' & Hv' & <-); [intros []|exact Hv'].
Qed.

Lemma unique_NoDup (values : list cell) : NoDup (unique values).
Proof.
  unfold unique, drop_duplicates.
  pose proof (proj1 (drop_duplicates_from_NoDup cell_eqb (fun c => c)
                       cell_eqb_eq values [])) as H.
  rewrite map_id in H. exact H.
Qed.

(** The entries of [value_counts]: every non-null value that occurs, with
    the number of its occurrences. *)
Lemma in_value_counts (s : string) (n : nat) (values : list cell) :
  In (s, n) (value_counts values) <->
  In (Some s) values /\ n = count_of (Some s) values.
Proof.
  unfold value_counts. rewrite in_flat_map. split.
  - intros ([s'|] & Hv & Hin); [|destruct Hin].
    destruct Hin as [Heq|[]]. injection Heq as -> <-.
    apply (proj1 (in_unique _ _)) in Hv. auto.
  - intros [Hin ->]. exists (Some s). split; [apply in_unique; exact Hin|].
    left. reflexivity.
Qed.

Lemma idxmax_max (counts : list (string * nat)) (s : string) :
  idxmax counts = Some s ->
  exists n, In (s, n) counts /\ forall e, In e counts -> snd e <= n.
Proof.
  induction counts as [|[s0 n0] rest IH]; simpl; [discriminate|].
  destruct (forallb (fun e => Nat.leb (snd e) n0) rest) eqn:Hall.
  - intros H. injection H as <-. exists n0. split; [left; reflexivity|].
    intros e [<-|He]; [simpl; lia|].
    rewrite forallb_forall in Hall. apply Nat.leb_le. apply Hall. exact He.
  - intros H. destruct (IH H) as (n & Hin & Hmax).
    exists n. split; [right; exact Hin|].
    intros e [<-|He]; [|apply Hmax; exact He]. simpl.
    assert (exists e', In e' rest /\ n0 < snd e') as (e' & He' & Hlt).
    { clear -Hall. induction rest as [|e rest IH]; simpl in Hall;
        [discriminate|].
      destruct (Nat.leb_spec (snd e) n0) as [Hle|Hgt].
      - simpl in Hall. destruct (IH Hall) as (e' & He' & Hlt).
        exists e'. split; [right; exact He'|exact Hlt].
      - exists e. split; [left; reflexivity|exact Hgt]. }
    specialize (Hmax e' He'). lia.
Qed.

(** X13. The [most_required_course] of the statistics is a course some row
    requires, and no course is required by more rows; it is absent exactly
    when the prerequisites frame has no row. *)
Theorem most_required_course_is_most_required
    (now : string) (cleaned : dataset) (stats : statistics) :
  generate_statistics now cleaned = Return stats ->
  let required := map Prereq.required_course_code
                      (rows (prerequisites cleaned)) in
  match most_required_course (stats_prerequisites stats) with
  | Some s =>
      In (Some s) required /\
      forall c, count_of (Some c) required <= count_of (Some s) required
  | None => rows (prerequisites cleaned) = []
  end.
Proof.
  intros H required. unfold generate_statistics in H.
  apply bind_Return in H. destruct H as (? & _ & H).
  apply bind_Return in H. destruct H as (? & _ & H).
  apply bind_Return in H. destruct H as (? & _ & H).
  apply bind_Return in H. destruct H as (? & _ & H).
  apply bind_Return in H. destruct H as (most & Hmost & H).
  injection H as <-. cbn [most_required_course stats_prerequisites].
  destruct (rows (prerequisites cleaned)) as [|r rest] eqn:Hrows.
  - simpl in Hmost. injection Hmost as <-. reflexivity.
  - cbn [nonempty] in Hmost.
    apply bind_Return in Hmost. destruct Hmost as (req & Hreq & Hmost).
    unfold getitem in Hreq.
    destruct (has_column (prerequisites cleaned) "required_course_code");
      [|discriminate].
    injection Hreq as <-. rewrite Hrows in Hmost. fold required in Hmost.
    destruct (idxmax (value_counts required)) as [s|] eqn:Hidx;
      [|discriminate].
    injection Hmost as <-.
    destruct (idxmax_max _ _ Hidx) as (n & Hin & Hmax).
    apply in_value_counts in Hin. destruct Hin as [Hin ->].
    split; [exact Hin|]. intros c.
    destruct (in_dec (fun a b : cell => ltac:(repeat decide equality)
                      : {a = b} + {a <> b}) (Some c) required) as [Hc|Hc].
    + apply (Hmax (c, count_of (Some c) required)).
      apply in_value_counts. auto.
    + assert (count_of (Some c) required = 0) as ->; [|lia].
      unfold count_of.
      assert (filter (cell_eqb (Some c)) required = []) as ->; [|reflexivity].
      apply filter_nil_iff. intros v Hv.
      destruct (cell_eqb (Some c) v) eqn:Heq; auto.
      apply cell_eqb_eq in Heq. subst v. contradiction.
Qed.

Lemma most_required_course_is_most_required_witness :
  exists stats,
    generate_statistics "2026-01-28" b_required_twice = Return stats /\
    most_required_course (stats_prerequisites stats) = Some "B" /\
    count_of (Some "A") [Some "A"; Some "B"; Some "B"]
    <= count_of (Some "B") [Some "A"; Some "B"; Some "B"].
Proof.
  destruct (generate_statistics "2026-01-28" b_required_twice)
    as [stats|e] eqn:Hrun; [|vm_compute in Hrun; discriminate Hrun].
  exists stats. split; [reflexivity|].
  pose proof (most_required_course_is_most_required "2026-01-28"
                b_required_twice stats Hrun) as H.
  vm_compute in Hrun. injection Hrun as <-.
  split; [reflexivity|]. exact (proj2 H "A").
Defined.

Lemma count_of_cons (v x : cell) (l : list cell) :
  count_of v (x :: l) = (if cell_eqb v x then 1 else 0) + count_of v l.
Proof. unfold count_of. simpl. destruct (cell_eqb v x); reflexivity. Qed.

Lemma list_sum_map_add {A : Type} (f g : A -> nat) (l : list A) :
  list_sum (map (fun a => f a + g a) l)
  = list_sum (map f l) + list_sum (map g l).
Proof. induction l as [|a l IH]; simpl; auto. rewrite IH. lia. Qed.

(** A value of a list without repeats is met once. *)
Lemma indicator_sum (x : cell) (u : list cell) :
  NoDup u -> In x u ->
  list_sum (map (fun v => if cell_eqb v x then 1 else 0) u) = 1.
Proof.
  induction u as [|v u IH]; intros Hnd Hin; [destruct Hin|].
  inversion Hnd as [|v' u' Hnotin Hnd']; subst. simpl.
  destruct (cell_eqb v x) eqn:Heq.
  - apply cell_eqb_eq in Heq. subst v. f_equal.
    clear IH Hin Hnd. induction u as [|w u IHu]; simpl; auto.
    inversion Hnd' as [|w' u' Hw Hu]; subst.
    destruct (cell_eqb w x) eqn:Hwx.
    + apply cell_eqb_eq in Hwx. subst w. exfalso. apply Hnotin. left. auto.
    + apply IHu; auto. intros H. apply Hnotin. right. exact H.
  - destruct Hin as [->|Hin].
    + assert (cell_eqb x x = true) as Ht by (apply cell_eqb_eq; reflexivity).
      congruence.
    + simpl. apply IH; assumption.
Qed.

(** Counting a list value by value counts every element once. *)
Lemma sum_counts (l : list cell) :
  forall u, NoDup u -> (forall x, In x l -> In x u) ->
    list_sum (map (fun v => count_of v l) u) = List.length l.
Proof.
  induction l as [|x l IH]; intros u Hnd Hcover.
  - clear. simpl. induction u as [|v u IHu]; simpl; auto.
  - rewrite (map_ext _ (fun v => (if cell_eqb v x then 1 else 0)
                                 + count_of v l))
      by (intros v; apply count_of_cons).
    rewrite list_sum_map_add.
    rewrite indicator_sum by (auto; apply Hcover; left; reflexivity).
    rewrite IH; auto. intros y Hy. apply Hcover. right. exact Hy.
Qed.

Lemma value_counts_sum_over (l u : list cell) :
  list_sum (map snd
    (flat_map (fun v => match v with
                        | Some s => [(s, count_of v l)]
                        | None => []
                        end) u))
  = list_sum (map (fun v => count_of v l) (filter notnull_cell u)).
Proof.
  induction u as [|[s|] u IH]; simpl; auto.
Qed.

Lemma count_of_notnull (s : string) (l : list cell) :
  count_of (Some s) l = count_of (Some s) (filter notnull_cell l).
Proof.
  unfold count_of. f_equal. induction l as [|[x|] l IH]; simpl; auto.
  destruct (s =? x); simpl; rewrite IH; reflexivity.
Qed.

Lemma value_counts_total (values : list cell) :
  list_sum (map snd (value_counts values))
  = List.length (filter notnull_cell values).
Proof.
  unfold value_counts. rewrite value_counts_sum_over.
  rewrite (map_ext_in _ (fun v => count_of v (filter notnull_cell values))).
  - apply sum_counts.
    + apply NoDup_filter. apply unique_NoDup.
    + intros x Hx. apply filter_In in Hx. destruct Hx as [Hx Hnn].
      apply filter_In. split; auto. apply in_unique. exact Hx.
  - intros [s|] Hv; [apply count_of_notnull|].
    apply filter_In in Hv. destruct Hv as [_ Hv]. discriminate Hv.
Qed.

Lemma value_counts_keys (values : list cell) :
  NoDup (map fst (value_counts values)).
Proof.
  unfold value_counts. generalize (unique_NoDup values).
  generalize (unique values) as u. intros u Hnd.
  induction u as [|[s|] u IH]; simpl.
  - constructor.
  - inversion Hnd as [|v u' Hnotin Hnd']; subst. constructor; auto.
    intros Hin. apply in_map_iff in Hin. destruct Hin as ([s' n] & Hs & Hin).
    simpl in Hs. subst s'. apply in_flat_map in Hin.
    destruct Hin as ([t|] & Ht & Hin); [|destruct Hin].
    destruct Hin as [Heq|[]]. injection Heq as -> _. contradiction.
  - inversion Hnd; subst. auto.
Qed.

Lemma nulls_and_values (values : list cell) :
  List.length (filter notnull_cell values) + count_of None values
  = List.length values.
Proof.
  unfold count_of, notnull_cell.
  induction values as [|[s|] l IH]; simpl in *; lia.
Qed.

(** X14. The counts of the statistics add up: [by_program] lists each
    program once and its counts sum, with the rows whose [program_code] is
    null, to [total_courses]; likewise [by_type]; and [unique_programs] is
    the number of entries of [by_program]. *)
Theorem generate_statistics_counts_add_up
    (now : string) (cleaned : dataset) (stats : statistics) :
  generate_statistics now cleaned = Return stats ->
  let cs := stats_courses stats in
  NoDup (map fst (by_program cs)) /\
  list_sum (map snd (by_program cs))
    + count_of None (map Course.program_code (rows (courses cleaned)))
    = total_courses cs /\
  NoDup (map fst (by_type cs)) /\
  list_sum (map snd (by_type cs))
    + count_of None (map Course.course_type (rows (courses cleaned)))
    = total_courses cs /\
  unique_programs cs = List.length (by_program cs).
Proof.
  intros H. unfold generate_statistics in H.
  apply bind_Return in H. destruct H as (pc & Hpc & H).
  apply bind_Return in H. destruct H as (ct & Hct & H).
  apply bind_Return in H. destruct H as (? & _ & H).
  apply bind_Return in H. destruct H as (? & _ & H).
  apply bind_Return in H. destruct H as (? & _ & H).
  injection H as <-.
  unfold getitem in Hpc, Hct.
  destruct (has_column (courses cleaned) "program_code"); [|discriminate].
  destruct (has_column (courses cleaned) "course_type"); [|discriminate].
  injection Hpc as <-. injection Hct as <-.
  cbn [stats_courses by_program by_type total_courses unique_programs].
  repeat split.
  - apply value_counts_keys.
  - rewrite value_counts_total, nulls_and_values. apply length_map.
  - apply value_counts_keys.
  - rewrite value_counts_total, nulls_and_values. apply length_map.
Qed.

Lemma generate_statistics_counts_add_up_witness :
  exists stats,
    generate_statistics "2026-01-28"
      (mk_dataset ten_courses (mk_frame prereq_required [])) = Return stats /\
    by_program (stats_courses stats) = [("MS_CS", 1); ("MS_DS", 9)] /\
    list_sum (map snd (by_program (stats_courses stats))) + 0
    = total_courses (stats_courses stats).
Proof.
  destruct (generate_statistics "2026-01-28"
              (mk_dataset ten_courses (mk_frame prereq_required [])))
    as [stats|e] eqn:Hrun; [|vm_compute in Hrun; discriminate Hrun].
  exists stats. split; [reflexivity|].
  pose proof (generate_statistics_counts_add_up _ _ _ Hrun) as H.
  vm_compute in Hrun. injection Hrun as <-.
  split; [reflexivity|]. exact (proj1 (proj2 H)).
Defined.

(** ** The fairness analysis, further *)


Lemma mapM_returns_iff {A B : Type} (f : A -> result B) (l : list A) :
  (exists bs, mapM f l = Return bs) <->
  forall a, In a l -> exists b, f a = Return b.
Proof.
  induction l as [|a l IH]; simpl.
  - split; [intros _ a []|eauto].
  - split.
    + intros (bs & H). apply bind_Return in H. destruct H as (b0 & Hb0 & H).
      apply bind_Return in H. destruct H as (bs0 & Hbs0 & _).
      intros a' [<-|Ha']; [eauto|]. apply (proj1 IH); eauto.
    + intros H. destruct (H a (or_introl eq_refl)) as (b & Hb).
      destruct (proj2 IH) as (bs & Hbs).
      { intros a' Ha'. apply H. right. exact Ha'. }
      rewrite Hb, Hbs. simpl. eauto.
Qed.


Lemma group_stats_returns_iff (df : DataFrame Course.row) (program : string) :
  (exists entry, group_stats df program = Return entry) <->
  has_column df "credits" = true /\ group_credits df program <> [].
Proof.
  unfold group_stats, getitem, has_column. cbn [columns rows].
  fold (has_column df "credits").
  destruct (has_column df "credits"); cbn [bind].
  - fold (group_credits df program).
    destruct (group_credits df program) as [|z zs]; simpl.
    + split; [intros (? & H); discriminate H|intros [_ H]; congruence].
    + split; [intros _; split; [reflexivity|discriminate]|eauto].
  - split; [intros (? & H); discriminate H|intros [H _]; discriminate H].
Qed.

Lemma task_bias_detection_Return (now : string) (df : DataFrame Course.row)
      (report : bias_report) :
  task_bias_detection now df = Return report ->
  has_column df "program_code" = true /\
  mapM (group_stats df)
       (map fst (value_counts (map Course.program_code (rows df))))
    = Return (credit_distribution report) /\
  bias_flags report
  = flat_map (fun e => coverage_flags (fst e) (snd e))
             (map (coverage_entry df) expected_programs)
    ++ credit_flags (map (fun e => group_avg_credits (snd e))
                         (credit_distribution report)).
Proof.
  unfold task_bias_detection, getitem. intros H.
  destruct (has_column df "program_code"); [|discriminate].
  cbn [bind] in H. apply bind_Return in H.
  destruct H as (cd & Hcd & Hret). injection Hret as <-.
  cbn [credit_distribution bias_flags]. auto.
Qed.








(** X16. When the bias task returns: exactly when the frame has a
    [program_code] column and, for every program that occurs in it, a
    [credits] column and a course of that program whose credits are not
    null.  Otherwise it raises and writes no report. *)
Theorem task_bias_detection_returns_iff
    (now : string) (df : DataFrame Course.row) :
  (exists report, task_bias_detection now df = Return report) <->
  has_column df "program_code" = true /\
  forall program,
    In (Some program) (map Course.program_code (rows df)) ->
    has_column df "credits" = true /\
    exists r, In r (rows df) /\ Course.program_code r = Some program /\
              Course.credits r <> None.
Proof.
  assert (forall program,
            group_credits df program <> [] <->
            exists r, In r (rows df) /\ Course.program_code r = Some program /\
                      Course.credits r <> None) as Hgroup.
  { intros program. unfold group_credits, notnull_values. split.
    - intros Hne.
      destruct (flat_map _ _) as [|z zs] eqn:Hf; [congruence|].
      assert (In z (z :: zs)) as Hz by (left; reflexivity).
      rewrite <- Hf in Hz. apply in_flat_map in Hz.
      destruct Hz as ([z'|] & Hz' & Hz); [|destruct Hz].
      apply in_map_iff in Hz'. destruct Hz' as (r & Hr & Hin).
      apply filter_In in Hin. destruct Hin as [Hin Hp].
      apply cell_eqb_eq in Hp. exists r. rewrite Hr. repeat split; auto.
      discriminate.
    - intros (r & Hr & Hp & Hc) Hnil.
      destruct (Course.credits r) as [z|] eqn:Hz; [|congruence].
      assert (In z []) as Habs; [|destruct Habs].
      rewrite <- Hnil. apply in_flat_map. exists (Some z).
      split; [|left; reflexivity]. apply in_map_iff. exists r.
      split; auto. apply filter_In. split; auto.
      apply cell_eqb_eq. exact Hp. }
  split.
  - intros (report & Hrun).
    destruct (task_bias_detection_Return _ _ _ Hrun) as (Hcol & Hcd & _).
    split; [exact Hcol|]. intros program Hp.
    assert (exists entry, group_stats df program = Return entry) as Hg.
    { apply (proj1 (mapM_returns_iff (group_stats df)
               (map fst (value_counts (map Course.program_code (rows df))))));
        [eauto|].
      apply in_map_iff. exists (program, count_of (Some program)
                                  (map Course.program_code (rows df))).
      split; [reflexivity|]. apply in_value_counts. auto. }
    apply group_stats_returns_iff in Hg. destruct Hg as [Hc Hne].
    split; [exact Hc|]. apply Hgroup. exact Hne.
  - intros [Hcol Hall]. unfold task_bias_detection, getitem.
    rewrite Hcol. cbn [bind].
    destruct (proj2 (mapM_returns_iff (group_stats df)
                (map fst (value_counts (map Course.program_code (rows df))))))
      as (cd & Hcd).
    + intros program Hp. apply in_map_iff in Hp.
      destruct Hp as ([s n] & <- & Hin). apply in_value_counts in Hin.
      destruct Hin as [Hin _]. destruct (Hall s Hin) as [Hc Hr].
      apply group_stats_returns_iff. split; [exact Hc|].
      apply Hgroup. exact Hr.
    + rewrite Hcd. cbn [bind]. eauto.
Qed.

Lemma task_bias_detection_returns_iff_witness :
  exists report, task_bias_detection "2026-01-28" three_courses = Return report.
Proof.
  apply (proj2 (task_bias_detection_returns_iff "2026-01-28" three_courses)).
  split; [reflexivity|]. intros program Hp. split; [reflexivity|].
  simpl in Hp. destruct Hp as [Hp|[Hp|[Hp|[]]]]; injection Hp as <-.
  - eexists. split; [left; reflexivity|]. split; [reflexivity|discriminate].
  - eexists. split; [right; left; reflexivity|].
    split; [reflexivity|discriminate].
  - eexists. split; [right; left; reflexivity|].
    split; [reflexivity|discriminate].
Defined.

(** ** Loading *)

Section UpsertFacts.

Context {R K : Type}.
Variable eqb : K -> K -> bool.
Variable key : R -> option K.
Variable args : R -> result R.
Hypothesis eqb_eq : forall a b, eqb a b = true <-> a = b.

Lemma conflict_iff (table : list R) (r : R) :
  existsb (fun t => conflicts eqb key t r) table = true <->
  exists k, key r = Some k /\ In k (keys key table).
Proof.
  rewrite existsb_exists. unfold conflicts, keys, notnull_values. split.
  - intros (t & Ht & Hc).
    destruct (key t) as [a|] eqn:Ha; [|discriminate].
    destruct (key r) as [b|] eqn:Hb; [|discriminate].
    apply eqb_eq in Hc. subst b. exists a. split; auto.
    apply in_flat_map. exists (Some a). split; [|left; reflexivity].
    rewrite <- Ha. apply in_map. exact Ht.
  - intros (k & Hk & Hin). apply in_flat_map in Hin.
    destruct Hin as ([a|] & Ha & Hin); [|destruct Hin].
    destruct Hin as [<-|[]]. apply in_map_iff in Ha.
    destruct Ha as (t & Ht & Hin). exists t. split; auto.
    rewrite Ht, Hk. apply eqb_eq. reflexivity.
Qed.

Lemma keys_app (t1 t2 : list R) : keys key (t1 ++ t2) = keys key t1 ++ keys key t2.
Proof.
  unfold keys, notnull_values. rewrite map_app, flat_map_app. reflexivity.
Qed.

(** One statement: the table grows by the row or stays, the count says
    which, and keys stay distinct. *)
Lemma insert_or_ignore_spec (table : list R) (r : R) :
  exists added,
    snd (insert_or_ignore eqb key table r) = table ++ added /\
    fst (insert_or_ignore eqb key table r) = List.length added /\
    (forall a, In a added -> a = r) /\
    (NoDup (keys key table) ->
     NoDup (keys key (snd (insert_or_ignore eqb key table r)))) /\
    (forall k, key r = Some k ->
       In k (keys key (snd (insert_or_ignore eqb key table r)))).
Proof.
  unfold insert_or_ignore.
  destruct (existsb (fun t => conflicts eqb key t r) table) eqn:Hc.
  - exists []. cbn [fst snd]. rewrite app_nil_r.
    repeat split; auto.
    + intros a [].
    + intros k Hk. apply conflict_iff in Hc.
      destruct Hc as (k' & Hk' & Hin). congruence.
  - exists [r]. cbn [fst snd]. repeat split; auto.
    + intros a [<-|[]]. reflexivity.
    + intros Hnd. rewrite keys_app. unfold keys at 2, notnull_values.
      simpl. destruct (key r) as [k|] eqn:Hk; simpl.
      * apply NoDup_app; auto.
        -- constructor; [intros []|constructor].
        -- intros x Hx [Heq|[]]. subst x.
           assert (existsb (fun t => conflicts eqb key t r) table = true)
             as Ht by (apply conflict_iff; exists k; auto).
           congruence.
      * rewrite app_nil_r. exact Hnd.
    + intros k Hk. rewrite keys_app. apply in_or_app. right.
      unfold keys, notnull_values. simpl. rewrite Hk. left. reflexivity.
Qed.

Lemma execute_all_spec (rs : list R) :
  forall inserted table n table',
    execute_all eqb key args rs inserted table = Return (n, table') ->
    exists added,
      table' = table ++ added /\ n = inserted + List.length added /\
      (forall a, In a added -> exists r, In r rs /\ args r = Return a) /\
      (NoDup (keys key table) -> NoDup (keys key table')) /\
      (forall r, In r rs ->
         exists a, args r = Return a /\
                   forall k, key a = Some k -> In k (keys key table')).
Proof.
  induction rs as [|r rs IH]; intros inserted table n table' H; simpl in H.
  - injection H as <- <-. exists []. rewrite app_nil_r.
    repeat split; auto; try lia; intros ? [].
  - apply bind_Return in H. destruct H as (a & Ha & H).
    destruct (insert_or_ignore_spec table a)
      as (added1 & Ht1 & Hn1 & Hrows1 & Hnd1 & Hkey1).
    destruct (IH _ _ _ _ H) as (added2 & Ht2 & Hn2 & Hrows2 & Hnd2 & Hkey2).
    exists (added1 ++ added2). split; [|split; [|split; [|split]]].
    + rewrite Ht2, Ht1, app_assoc. reflexivity.
    + rewrite Hn2, Hn1, length_app. lia.
    + intros x Hx. apply in_app_or in Hx. destruct Hx as [Hx|Hx].
      * exists r. split; [left; reflexivity|].
        rewrite (Hrows1 x Hx). exact Ha.
      * destruct (Hrows2 x Hx) as (r' & Hr' & Hargs).
        exists r'. split; [right; exact Hr'|exact Hargs].
    + intros Hnd. apply Hnd2. apply Hnd1. exact Hnd.
    + intros r' [<-|Hr'].
      * exists a. split; [exact Ha|]. intros k Hk.
        rewrite Ht2, keys_app. apply in_or_app. left.
        apply Hkey1. exact Hk.
      * apply Hkey2. exact Hr'.
Qed.

(** Rows whose keys the table already holds are all ignored. *)
Lemma execute_all_ignored (rs : list R) (table : list R) :
  forall inserted,
    (forall r, In r rs ->
       exists a k, args r = Return a /\ key a = Some k /\
                   In k (keys key table)) ->
    execute_all eqb key args rs inserted table = Return (inserted, table).
Proof.
  induction rs as [|r rs IH]; intros inserted Hall; simpl; auto.
  destruct (Hall r (or_introl eq_refl)) as (a & k & Ha & Hk & Hin).
  rewrite Ha. cbn [bind]. unfold insert_or_ignore.
  assert (existsb (fun t => conflicts eqb key t a) table = true) as ->
    by (apply conflict_iff; exists k; auto).
  cbn [fst snd]. rewrite Nat.add_0_r. apply IH.
  intros r' Hr'. apply Hall. right. exact Hr'.
Qed.

(** A load that returned, run again on the table it left, inserts nothing
    and leaves the table as it is, provided no row has a NULL key. *)
Lemma load_again (rs : list R) (table table' : list R) (n : nat) :
  (forall r a, In r rs -> args r = Return a -> key a <> None) ->
  load eqb key args rs table = (Return n, table') ->
  load eqb key args rs table' = (Return 0, table').
Proof.
  intros Hkeys H. unfold load in *.
  destruct (execute_all eqb key args rs 0 table) as [[n0 t0]|e] eqn:Hrun;
    [|discriminate H].
  injection H as <- <-.
  destruct (execute_all_spec _ _ _ _ _ Hrun) as (_ & _ & _ & _ & _ & Hpresent).
  rewrite execute_all_ignored; [reflexivity|].
  intros r Hr. destruct (Hpresent r Hr) as (a & Ha & Hin).
  destruct (key a) as [k|] eqn:Hk.
  - exists a, k. auto.
  - exfalso. apply (Hkeys r a Hr Ha). exact Hk.
Qed.

Lemma load_Return (rs : list R) (table table' : list R) (n : nat) :
  load eqb key args rs table = (Return n, table') ->
  execute_all eqb key args rs 0 table = Return (n, table').
Proof.
  unfold load.
  destruct (execute_all eqb key args rs 0 table) as [[n0 t0]|e];
    intros H; [|discriminate H].
  injection H as <- <-. reflexivity.
Qed.

End UpsertFacts.

Lemma string_pair_eqb_eq (a b : string * string) :
  string_pair_eqb a b = true <-> a = b.
Proof.
  destruct a as [a1 a2], b as [b1 b2]. unfold string_pair_eqb. simpl.
  rewrite andb_true_iff, !String.eqb_eq. split.
  - intros [-> ->]. reflexivity.
  - intros H. injection H as -> ->. auto.
Qed.

Lemma course_args_Return (df : DataFrame Course.row) (r a : Course.row) :
  course_args df r = Return a ->
  a = r /\ Course.credits r <> None.
Proof.
  unfold course_args, row_getitem. intros H.
  destruct (has_column df "course_code"); [|discriminate].
  destruct (has_column df "course_name"); [|discriminate].
  destruct (has_column df "credits"); [|discriminate].
  cbn [bind] in H.
  destruct r as [code name [z|] prog ty]; cbn [Course.credits int bind] in H;
    [|discriminate].
  destruct (has_column df "program_code"); [|discriminate].
  destruct (has_column df "course_type"); [|discriminate].
  injection H as <-. split; [reflexivity|discriminate].
Qed.

Lemma prereq_args_Return (df : DataFrame Prereq.row) (r a : Prereq.row) :
  prereq_args df r = Return a -> a = r.
Proof.
  unfold prereq_args, row_getitem. intros H.
  destruct (has_column df "course_code"); [|discriminate].
  destruct (has_column df "required_course_code"); [|discriminate].
  injection H as <-. destruct r; reflexivity.
Qed.

Lemma load_data_Return (cleaned : dataset) (db db' : tables) (n1 n2 : nat) :
  load_data cleaned db = (Return (n1, n2), db') ->
  load_courses (courses cleaned) (courses_table db)
    = (Return n1, courses_table db') /\
  load_prerequisites (prerequisites cleaned) (prerequisites_table db)
    = (Return n2, prerequisites_table db').
Proof.
  unfold load_data.
  destruct (load_courses (courses cleaned) (courses_table db))
    as [[m1|e1] ct]; [|intros H; discriminate H].
  destruct (load_prerequisites (prerequisites cleaned)
                               (prerequisites_table db))
    as [[m2|e2] pt]; intros H; [|discriminate H].
  injection H as <- <- <-. auto.
Qed.

(** X17. The load is safely re-runnable: after [load_data] has returned,
    running it again with the same tables inserts no row and leaves the
    database as it is, provided no course code and no prerequisite endpoint
    of the tables is null. *)
Theorem load_data_rerun
    (cleaned : dataset) (db db' : tables) (n1 n2 : nat) :
  (forall r, In r (rows (courses cleaned)) -> Course.course_code r <> None) ->
  (forall r, In r (rows (prerequisites cleaned)) ->
     Prereq.course_code r <> None /\ Prereq.required_course_code r <> None) ->
  load_data cleaned db = (Return (n1, n2), db') ->
  load_data cleaned db' = (Return (0, 0), db').
Proof.
  intros Hc Hp H. apply load_data_Return in H. destruct H as [H1 H2].
  assert (forall r a, In r (rows (courses cleaned)) ->
            course_args (courses cleaned) r = Return a ->
            Course.course_code a <> None) as Hc'.
  { intros r a Hr Ha. apply course_args_Return in Ha. destruct Ha as [-> _].
    apply Hc. exact Hr. }
  assert (forall r a, In r (rows (prerequisites cleaned)) ->
            prereq_args (prerequisites cleaned) r = Return a ->
            prereq_key a <> None) as Hp'.
  { intros r a Hr Ha. apply prereq_args_Return in Ha. subst a.
    destruct (Hp r Hr) as [Ha Hb]. unfold prereq_key.
    destruct (Prereq.course_code r); [|congruence].
    destruct (Prereq.required_course_code r); [discriminate|congruence]. }
  unfold load_data. unfold load_courses in *. unfold load_prerequisites in *.
  rewrite (load_again String.eqb Course.course_code _ String.eqb_eq
             _ _ _ _ Hc' H1).
  rewrite (load_again string_pair_eqb prereq_key _ string_pair_eqb_eq
             _ _ _ _ Hp' H2).
  destruct db'; reflexivity.
Qed.

Lemma load_data_rerun_witness :
  exists db',
    load_data tidy empty_tables = (Return (2, 1), db') /\
    load_data tidy db' = (Return (0, 0), db').
Proof.
  eexists. split; [vm_compute; reflexivity|].
  apply (load_data_rerun tidy empty_tables _ 2 1).
  - intros r Hr. simpl in Hr. destruct Hr as [<-|[<-|[]]]; discriminate.
  - intros r Hr. simpl in Hr. destruct Hr as [<-|[]]. split; discriminate.
  - reflexivity.
Defined.

(** X18. What a load of frames without null cells that returns has done:
    each table is the old table followed by the rows inserted, which are
    rows of the frame loaded and as many as the count returned; a table
    whose keys were distinct has distinct keys afterwards; and every course
    code of the frame is in the courses table. *)
Theorem load_data_inserts
    (cleaned : dataset) (db db' : tables) (n1 n2 : nat) :
  (forall r, In r (rows (courses cleaned)) -> course_notnull r = true) ->
  (forall r, In r (rows (prerequisites cleaned)) ->
     prereq_notnull r = true) ->
  load_data cleaned db = (Return (n1, n2), db') ->
  (exists added,
     courses_table db' = courses_table db ++ added /\
     List.length added = n1 /\
     forall a, In a added -> In a (rows (courses cleaned))) /\
  (exists added,
     prerequisites_table db' = prerequisites_table db ++ added /\
     List.length added = n2 /\
     forall a, In a added -> In a (rows (prerequisites cleaned))) /\
  (NoDup (keys Course.course_code (courses_table db)) ->
   NoDup (keys Course.course_code (courses_table db'))) /\
  (NoDup (keys prereq_key (prerequisites_table db)) ->
   NoDup (keys prereq_key (prerequisites_table db'))) /\
  (forall r code, In r (rows (courses cleaned)) ->
     Course.course_code r = Some code ->
     In code (keys Course.course_code (courses_table db'))).
Proof.
  intros _ _ H. apply load_data_Return in H. destruct H as [H1 H2].
  apply load_Return in H1, H2.
  destruct (execute_all_spec String.eqb Course.course_code _ String.eqb_eq
              _ _ _ _ _ H1) as (added1 & Ht1 & Hn1 & Hrows1 & Hnd1 & Hkey1).
  destruct (execute_all_spec string_pair_eqb prereq_key _ string_pair_eqb_eq
              _ _ _ _ _ H2) as (added2 & Ht2 & Hn2 & Hrows2 & Hnd2 & _).
  split; [|split; [|split; [|split]]].
  - exists added1. repeat split; auto. intros a Ha.
    destruct (Hrows1 a Ha) as (r & Hr & Hargs).
    apply course_args_Return in Hargs. destruct Hargs as [-> _]. exact Hr.
  - exists added2. repeat split; auto. intros a Ha.
    destruct (Hrows2 a Ha) as (r & Hr & Hargs).
    apply prereq_args_Return in Hargs. subst a. exact Hr.
  - exact Hnd1.
  - exact Hnd2.
  - intros r code Hr Hcode. destruct (Hkey1 r Hr) as (a & Hargs & Hin).
    apply course_args_Return in Hargs. destruct Hargs as [-> _].
    apply Hin. exact Hcode.
Qed.

Lemma load_data_inserts_witness :
  exists db',
    load_data tidy (mk_tables [course "IE6400" "Old name" 4 "MS_CS" "Core"] [])
      = (Return (1, 1), db') /\
    courses_table db'
      = [course "IE6400" "Old name" 4 "MS_CS" "Core";
         course "IE7275" "Data Mining" 4 "MS_DAE" "Elective"] /\
    NoDup (keys Course.course_code (courses_table db')).
Proof.
  eexists. split; [vm_compute; reflexivity|]. split; [reflexivity|].
  refine (proj1 (proj2 (proj2 (load_data_inserts tidy
            (mk_tables [course "IE6400" "Old name" 4 "MS_CS" "Core"] [])
            _ 1 1 _ _ eq_refl))) _).
  - intros r Hr. simpl in Hr. destruct Hr as [<-|[<-|[]]]; reflexivity.
  - intros r Hr. simpl in Hr. destruct Hr as [<-|[]]. reflexivity.
  - simpl. constructor; [intros []|constructor].
Defined.

Lemma execute_all_raises {R K : Type} (eqb : K -> K -> bool)
      (key : R -> option K) (args : R -> result R) (e : exn) (rs : list R) :
  (forall r, In r rs -> (exists a, args r = Return a) \/ args r = Raise e) ->
  (exists r, In r rs /\ args r = Raise e) ->
  forall inserted table,
    execute_all eqb key args rs inserted table = Raise e.
Proof.
  induction rs as [|r rs IH]; intros Hall (r0 & Hr0 & He) inserted table.
  - destruct Hr0.
  - simpl. destruct (Hall r (or_introl eq_refl)) as [(a & Ha)|Hr].
    + rewrite Ha. cbn [bind]. apply IH.
      * intros r' Hr'. apply Hall. right. exact Hr'.
      * destruct Hr0 as [<-|Hr0]; [congruence|]. exists r0. auto.
    + rewrite Hr. reflexivity.
Qed.

(** X19. A course without credits aborts the load: on a frame with the
    five columns in which some row's credits are null, [load_courses]
    raises [ValueError] and the table is as before the call, also when rows
    before that one had been inserted. *)
Theorem load_courses_null_credits
    (df : DataFrame Course.row) (table : list Course.row) :
  missing_labels df courses_required = [] ->
  (exists r, In r (rows df) /\ Course.credits r = None) ->
  load_courses df table = (Raise (ValueError nan_to_integer), table).
Proof.
  intros Hc Hnull. unfold load_courses, load.
  rewrite (execute_all_raises String.eqb Course.course_code (course_args df)
             (ValueError nan_to_integer)); [reflexivity| |].
  - intros r _. unfold course_args, row_getitem.
    rewrite !(missing_none_has_column _ _ _ Hc) by (simpl; tauto).
    cbn [bind]. destruct (Course.credits r); cbn [int bind]; eauto.
  - destruct Hnull as (r & Hr & Hcr). exists r. split; auto.
    unfold course_args, row_getitem.
    rewrite !(missing_none_has_column _ _ _ Hc) by (simpl; tauto).
    cbn [bind]. rewrite Hcr. reflexivity.
Qed.

Lemma load_courses_null_credits_witness :
  load_courses
    (mk_frame courses_required
       [course "IE6400" "Foundations" 4 "MS_DAE" "Core";
        Course.mk (Some "IE7275") (Some "Data Mining") None (Some "MS_DAE")
                  (Some "Core")]) []
  = (Raise (ValueError nan_to_integer), []).
Proof.
  apply load_courses_null_credits.
  - reflexivity.
  - eexists. split; [right; left; reflexivity|reflexivity].
Defined.

(** ** Attribute lists *)

Lemma split_nonempty (sep : ascii) (s : string) : split sep s <> [].
Proof.
  destruct s as [|c s]; simpl; [discriminate|].
  destruct (Ascii.eqb c sep); [discriminate|].
  destruct (split sep s); discriminate.
Qed.

Lemma split_pieces (sep : ascii) (s : string) :
  forall p, In p (split sep s) ->
    ~ In sep (chars p) /\ forall c, In c (chars p) -> In c (chars s).
Proof.
  induction s as [|c s IH]; intros p Hp; simpl in Hp.
  - destruct Hp as [<-|[]]. simpl. tauto.
  - destruct (Ascii.eqb_spec c sep) as [->|Hne].
    + destruct Hp as [<-|Hp]; [simpl; tauto|].
      destruct (IH p Hp) as [H1 H2]. split; auto.
      intros x Hx. right. apply H2. exact Hx.
    + pose proof (split_nonempty sep s) as Hnil.
      destruct (split sep s) as [|piece pieces]; [congruence|].
      destruct Hp as [<-|Hp].
      * destruct (IH piece (or_introl eq_refl)) as [H1 H2]. split.
        -- intros [Heq|Hin]; [congruence|contradiction].
        -- intros x [<-|Hx]; [left; reflexivity|right; apply H2; exact Hx].
      * destruct (IH p (or_intror Hp)) as [H1 H2]. split; auto.
        intros x Hx. right. apply H2. exact Hx.
Qed.

Lemma lstrip_chars (s : string) (c : ascii) :
  In c (chars (Str.lstrip s)) -> In c (chars s).
Proof.
  induction s as [|d s IH]; simpl; auto.
  destruct (Str.isspace d); simpl; auto.
Qed.

Lemma rstrip_chars (s : string) (c : ascii) :
  In c (chars (Str.rstrip s)) -> In c (chars s).
Proof.
  induction s as [|d s IH]; simpl; auto.
  destruct (Str.rstrip s) as [|e t].
  - destruct (Str.isspace d); simpl; tauto.
  - simpl in *. tauto.
Qed.

Lemma strip_tidy (s : string) :
  Str.strip s <> "" -> ~ In ","%char (chars s) -> tidy_attribute (Str.strip s).
Proof.
  intros Hne Hcomma. unfold tidy_attribute. repeat split; auto.
  - intros Hin. apply Hcomma. unfold Str.strip in Hin.
    apply rstrip_chars, lstrip_chars. exact Hin.
  - unfold Str.strip. apply StrFacts.lstrip_idem.
  - unfold Str.strip. apply StrFacts.rstrip_lstrip. apply StrFacts.rstrip_idem.
Qed.

(** X20. Every attribute [parse_attributes] returns is tidy: it is not
    empty, holds no comma, and has no whitespace at its ends; and [None] and
    the empty string give no attribute. *)
Theorem parse_attributes_tidy (attr_text : option string) :
  (forall a, In a (parse_attributes attr_text) -> tidy_attribute a) /\
  parse_attributes None = [] /\ parse_attributes (Some "") = [].
Proof.
  split; [|split; reflexivity].
  intros a Ha. destruct attr_text as [[|c text]|]; try destruct Ha.
  unfold parse_attributes in Ha. apply in_flat_map in Ha.
  destruct Ha as (p & Hp & Ha).
  destruct (String.eqb_spec (Str.strip p) "") as [Heq|Hne]; [destruct Ha|].
  destruct Ha as [<-|[]]. apply strip_tidy; auto.
  apply (split_pieces "," _ p Hp).
Qed.

Lemma split_whole (sep : ascii) (a : string) :
  ~ In sep (chars a) -> split sep a = [a].
Proof.
  induction a as [|c a IH]; intros Hno; [reflexivity|]. simpl.
  destruct (Ascii.eqb_spec c sep) as [->|Hne].
  - exfalso. apply Hno. left. reflexivity.
  - rewrite IH; [reflexivity|]. intros Hin. apply Hno. right. exact Hin.
Qed.

Lemma split_append (sep : ascii) (a rest : string) :
  ~ In sep (chars a) ->
  split sep (a ++ String sep rest) = a :: split sep rest.
Proof.
  induction a as [|c a IH]; intros Hno; simpl.
  - rewrite Ascii.eqb_refl. reflexivity.
  - destruct (Ascii.eqb_spec c sep) as [->|Hne].
    + exfalso. apply Hno. left. reflexivity.
    + rewrite IH; [reflexivity|]. intros Hin. apply Hno. right. exact Hin.
Qed.

Lemma strip_tidy_fixed (a : string) : tidy_attribute a -> Str.strip a = a.
Proof.
  intros (_ & _ & Hl & Hr). unfold Str.strip. rewrite Hr. exact Hl.
Qed.

Lemma strip_space_tidy (a : string) :
  tidy_attribute a -> Str.strip (String " " a) = a.
Proof.
  intros (Hne & _ & Hl & Hr). unfold Str.strip.
  destruct a as [|d t]; [congruence|].
  change (Str.rstrip (String " " (String d t)))
    with (match Str.rstrip (String d t) with
          | EmptyString =>
              if Str.isspace " " then EmptyString else String " " EmptyString
          | String d' t' => String " " (String d' t')
          end).
  rewrite Hr. cbn [Str.lstrip]. change (Str.isspace " ") with true.
  cbn iota. exact Hl.
Qed.

Lemma parse_pieces (attrs : list string) :
  (forall a, In a attrs -> tidy_attribute a) ->
  flat_map (fun a => if Str.strip a =? "" then [] else [Str.strip a])
           (map (String " ") attrs) = attrs.
Proof.
  induction attrs as [|a attrs IH]; intros Hall; [reflexivity|].
  cbn [map flat_map]. rewrite IH by (intros b Hb; apply Hall; right; exact Hb).
  pose proof (Hall a (or_introl eq_refl)) as Ha.
  rewrite (strip_space_tidy a Ha).
  destruct (String.eqb_spec a "") as [Heq|_]; [|reflexivity].
  destruct Ha as [Hne _]. congruence.
Qed.

Lemma split_concat (a : string) (attrs : list string) :
  (forall b, In b (a :: attrs) -> tidy_attribute b) ->
  split "," (String.concat ", " (a :: attrs)) = a :: map (String " ") attrs.
Proof.
  revert a. induction attrs as [|b attrs IH]; intros a Hall.
  - simpl. apply split_whole. apply (Hall a). left. reflexivity.
  - change (String.concat ", " (a :: b :: attrs))
      with (a ++ String "," (String " " (String.concat ", " (b :: attrs))))%string.
    rewrite split_append by (apply (Hall a); left; reflexivity).
    f_equal. cbn [map].
    assert (split "," (String " " (String.concat ", " (b :: attrs)))
            = String " " b :: map (String " ") attrs) as ->; [|reflexivity].
    change (split "," (String " " (String.concat ", " (b :: attrs))))
      with (match split "," (String.concat ", " (b :: attrs)) with
            | piece :: pieces => String " " piece :: pieces
            | [] => [String " " EmptyString]
            end).
    rewrite IH by (intros x Hx; apply Hall; right; exact Hx).
    reflexivity.
Qed.

(** X21. Parsing undoes joining: a list of tidy attributes of ASCII
    characters, written with [", "] between them, is parsed back to the same
    list. *)
Theorem parse_attributes_of_joined (attrs : list string) :
  (forall a, In a attrs -> isascii a = true /\ tidy_attribute a) ->
  parse_attributes (Some (String.concat ", " attrs)) = attrs.
Proof.
  intros Hascii.
  assert (forall a, In a attrs -> tidy_attribute a) as Hall
    by (intros a Ha; apply (Hascii a Ha)).
  clear Hascii. destruct attrs as [|a attrs]; [reflexivity|].
  assert (String.concat ", " (a :: attrs) <> "") as Hne.
  { pose proof (Hall a (or_introl eq_refl)) as (Ha & _).
    destruct a as [|c a]; [congruence|].
    destruct attrs; simpl; discriminate. }
  unfold parse_attributes.
  destruct (String.concat ", " (a :: attrs)) as [|c text] eqn:Hjoin;
    [congruence|].
  rewrite <- Hjoin. rewrite (split_concat a attrs Hall).
  cbn [flat_map]. rewrite parse_pieces
    by (intros b Hb; apply Hall; right; exact Hb).
  pose proof (Hall a (or_introl eq_refl)) as Ha.
  rewrite (strip_tidy_fixed a Ha).
  destruct (String.eqb_spec a "") as [Heq|_]; [|reflexivity].
  destruct Ha as [Hna _]. congruence.
Qed.

Lemma parse_attributes_of_joined_witness :
  parse_attributes (Some "NUpath Natural/Designed World, NUpath Writing")
  = ["NUpath Natural/Designed World"; "NUpath Writing"].
Proof.
  apply (parse_attributes_of_joined
           ["NUpath Natural/Designed World"; "NUpath Writing"]).
  intros a [<-|[<-|[]]]; (split; [reflexivity|]); unfold tidy_attribute;
    (split; [discriminate|]; split; [|split; reflexivity]);
    simpl; intuition discriminate.
Defined.

Lemma parse_attributes_tidy_witness :
  tidy_attribute "NUpath Writing".
Proof.
  apply (proj1 (parse_attributes_tidy (Some " NUpath Writing ,, "))).
  left. reflexivity.
Defined.

(** ** The recursive query ends *)

(** X22. The recursive query of [detect_circular_prerequisites] ends on
    every table, cyclic or not: after at most as many rounds as the table
    has rows plus one the working table is empty, the bound used is enough,
    and any larger bound gives the same rows. *)
Theorem with_recursive_terminates (E : list Db.prerequisite) :
  working_table E (anchor E) (S (List.length E)) = [] /\
  exists rows,
    with_recursive (S (List.length E)) E (anchor E) = Some rows /\
    forall fuel, S (List.length E) <= fuel ->
      with_recursive fuel E (anchor E) = Some rows.
Proof.
  split; [apply working_table_runs_dry|].
  destruct (with_recursive_total E) as (rows & Hrows).
  exists rows. split; [exact Hrows|].
  intros fuel Hle.
  apply (with_recursive_more_fuel E (S (List.length E))); assumption.
Qed.

Lemma with_recursive_terminates_witness :
  exists rows,
    with_recursive 4 abc_cycle (anchor abc_cycle) = Some rows /\
    with_recursive 7 abc_cycle (anchor abc_cycle) = Some rows.
Proof.
  destruct (proj2 (with_recursive_terminates abc_cycle)) as (rows & Hrun & Hmore).
  exists rows. split; [exact Hrun|]. apply Hmore. simpl. lia.
Defined.
